(** * Blood Link backend: role-scoped listings, request workflow, donation ledger

    A shallow embedding of the route handlers of [src/routes.js] over the
    Mongoose schemas of [src/models.js], with the middleware of the utility
    module ([restrictTo]).  The document store is a record of collections,
    each a list of documents in insertion order; a handler is a function from
    the store to a response and the next store.  The donation handler
    computes with a raw body value; it is followed for the values whose
    results are whole numbers, and has no result here for the others. *)

From Stdlib Require Import ZArith Ascii String DecimalString List Lia.
From stdpp Require Import base tactics option list strings sorting.
Import ListNotations.

Local Open Scope string_scope.
Local Open Scope list_scope.
Local Open Scope nat_scope.

(** ** JavaScript values that the handlers inspect *)

(** A JSON body field as Express hands it over ([JUndefined] for an absent
    key).  [JNumber n] is the whole number written [n]; a number with a
    fraction is not in the type. *)
Unset Elimination Schemes.
Inductive jsval :=
| JUndefined
| JNull
| JBool (b : bool)
| JNumber (n : Z)
| JString (s : string)
| JArray (elements : list jsval)
| JObject (members : list (string * jsval)).
Set Elimination Schemes.

(** [v === true], [v === "true"]: strict equality, no coercion. *)
Definition strict_eq_true (v : jsval) : bool :=
  match v with JBool true => true | _ => false end.

Definition strict_eq_str (v : jsval) (t : string) : bool :=
  match v with JString s => String.eqb s t | _ => false end.

(** String-typed body fields and query parameters are [option string], with
    [None] for an absent key.  [!x] holds for an absent key and for [""]. *)
Definition truthy (x : option string) : bool :=
  match x with
  | Some s => negb (String.eqb s "")
  | None => false
  end.

(** [x || d] on a string-typed field. *)
Definition or_else (x : option string) (d : string) : string :=
  match x with
  | Some s => if String.eqb s "" then d else s
  | None => d
  end.

Definition includes (l : list string) (x : string) : bool :=
  existsb (String.eqb x) l.

Definition ObjectId := nat.

(** ** Schemas (models.js) *)

Definition blood_types : list string :=
  ["A+"; "A-"; "B+"; "B-"; "O+"; "O-"; "AB+"; "AB-"].

Definition regions : list string := ["North"; "East"; "West"; "South"].

Module UserSchema.
Record doc := mk {
  _id : ObjectId;
  full_name : string;
  email : string;
  phone : string;
  password_hash : string;
  role : string;
  blood_type : string;
  region : option string
}.
End UserSchema.

Module DonorSchema.
Record log_entry := mk_entry {
  date : Z;
  units : Z;
  notes : string
}.

Record doc := mk {
  _id : ObjectId;
  user_id : ObjectId;
  availability : bool;
  last_donation_date : option Z;
  reputation : Z;
  donation_log : list log_entry
}.

Definition set_availability (a : bool) (d : doc) : doc :=
  mk (_id d) (user_id d) a (last_donation_date d) (reputation d)
     (donation_log d).

Definition set_last_donation_date (t : Z) (d : doc) : doc :=
  mk (_id d) (user_id d) (availability d) (Some t) (reputation d)
     (donation_log d).

Definition push_donation_log (e : log_entry) (d : doc) : doc :=
  mk (_id d) (user_id d) (availability d) (last_donation_date d)
     (reputation d) (donation_log d ++ [e]).
End DonorSchema.

Module BloodInventorySchema.
Record doc := mk {
  _id : ObjectId;
  blood_type : string;
  available_units : Z;
  status : string
}.

Definition set_available_units (n : Z) (d : doc) : doc :=
  mk (_id d) (blood_type d) n (status d).

Definition statuses : list string := ["High"; "Medium"; "Low"].

(** The schema's validators: [blood_type] required and of the enum,
    [status] of the enum. *)
Definition valid (d : doc) : bool :=
  includes blood_types (blood_type d) && includes statuses (status d).
End BloodInventorySchema.

Module RequestSchema.
Definition statuses : list string :=
  ["Pending"; "Approved"; "Fulfilled"; "Critical"].

Record approver := mk_approver {
  name : string;
  phone : string
}.

(** [timestamps: true] also keeps an [updatedAt] stamp, which no handler
    reads; the record carries [createdAt] only. *)
Record doc := mk {
  _id : ObjectId;
  requester_id : ObjectId;
  blood_group : string;
  region : string;
  hospital : string;
  notes : string;
  status : string;
  approved_by : option approver;
  createdAt : Z
}.

Definition set_status (st : string) (d : doc) : doc :=
  mk (_id d) (requester_id d) (blood_group d) (region d) (hospital d)
     (notes d) st (approved_by d) (createdAt d).

Definition set_approved_by (a : approver) (d : doc) : doc :=
  mk (_id d) (requester_id d) (blood_group d) (region d) (hospital d)
     (notes d) (status d) (Some a) (createdAt d).

(** The schema's validators: [blood_group] required and of the enum,
    [region] required (a non-empty string), [status] of the enum. *)
Definition valid (d : doc) : bool :=
  includes blood_types (blood_group d) && negb (String.eqb (region d) "")
  && includes statuses (status d).

(** What [populate("requester_id", "full_name blood_type phone region")]
    puts in place of the reference: the selected fields of the user, or
    [null] when no user has that id. *)
Record requester := mk_requester {
  r_id : ObjectId;
  r_full_name : string;
  r_blood_type : string;
  r_phone : string;
  r_region : option string
}.

Record populated := mk_populated {
  stored : doc;
  requester_of : option requester
}.
End RequestSchema.

Module NotificationSchema.
Definition roles : list string := ["user"; "donor"; "admin"; "all"].

Record doc := mk {
  _id : ObjectId;
  title : string;
  message : string;
  role : string;
  region : option string;
  isRead : bool;
  createdAt : Z
}.

(** The keys of a plain object passed to [insertMany] that the schema
    knows; the handler's [type] and [status] keys are not in the schema
    and are dropped by Mongoose. *)
Record fields := mk_fields {
  f_title : string;
  f_message : string;
  f_role : string;
  f_region : option string
}.
End NotificationSchema.

(** ** The document store *)

Record Store := mkStore {
  users : list UserSchema.doc;
  donors : list DonorSchema.doc;
  bloodinventories : list BloodInventorySchema.doc;
  requests : list RequestSchema.doc;
  notifications : list NotificationSchema.doc;
  next_id : ObjectId
}.

Definition set_donors (l : list DonorSchema.doc) (s : Store) : Store :=
  mkStore (users s) l (bloodinventories s) (requests s) (notifications s)
          (next_id s).

Definition set_bloodinventories (l : list BloodInventorySchema.doc)
    (s : Store) : Store :=
  mkStore (users s) (donors s) l (requests s) (notifications s) (next_id s).

Definition set_requests (l : list RequestSchema.doc) (s : Store) : Store :=
  mkStore (users s) (donors s) (bloodinventories s) l (notifications s)
          (next_id s).

Definition set_notifications (l : list NotificationSchema.doc)
    (s : Store) : Store :=
  mkStore (users s) (donors s) (bloodinventories s) (requests s) l
          (next_id s).

Definition set_next_id (n : ObjectId) (s : Store) : Store :=
  mkStore (users s) (donors s) (bloodinventories s) (requests s)
          (notifications s) n.

(** ** Store effects: state threaded through, exceptions thrown *)

Inductive Error :=
| ValidationFailed (model : string)
| CastFailed (path : string)
| DocumentNotFound
| TypeError
| SyntaxError.

Inductive Outcome (A : Type) :=
| Ok (a : A)
| Throw (e : Error).
Arguments Ok {A} a.
Arguments Throw {A} e.

Definition M (A : Type) : Type := Store -> Outcome A * Store.

Definition ret {A} (a : A) : M A := fun s => (Ok a, s).

Definition throw {A} (e : Error) : M A := fun s => (Throw e, s).

Definition bind {A B} (m : M A) (k : A -> M B) : M B :=
  fun s =>
    match m s with
    | (Ok a, s') => k a s'
    | (Throw e, s') => (Throw e, s')
    end.

Declare Scope store_scope.
Delimit Scope store_scope with store.
Notation "x <- m ;; k" := (bind m (fun x => k))
  (at level 100, m at next level, right associativity) : store_scope.
Notation "m ;;; k" := (bind m (fun _ => k))
  (at level 100, right associativity) : store_scope.

(** [try { body } catch (error) { handler }]: writes made before the throw
    stay in the store. *)
Definition try_catch {A} (body : M A) (handler : Error -> A)
    : Store -> A * Store :=
  fun s =>
    match body s with
    | (Ok a, s') => (a, s')
    | (Throw e, s') => (handler e, s')
    end.

Definition get {A} (f : Store -> A) : M A := fun s => (Ok (f s), s).

Definition modify (f : Store -> Store) : M unit := fun s => (Ok tt, f s).

(** ** Collections *)

Class Document (D : Type) := doc_id : D -> ObjectId.

#[export] Instance user_document : Document UserSchema.doc := UserSchema._id.
#[export] Instance donor_document : Document DonorSchema.doc :=
  DonorSchema._id.
#[export] Instance inventory_document : Document BloodInventorySchema.doc :=
  BloodInventorySchema._id.
#[export] Instance request_document : Document RequestSchema.doc :=
  RequestSchema._id.
#[export] Instance notification_document : Document NotificationSchema.doc :=
  NotificationSchema._id.

Section collection.
Context {D : Type} `{Document D}.

(** [find(q)]: the matching documents, in the collection's order. *)
Definition coll_find (q : D -> bool) (c : list D) : list D :=
  filter (fun d => Is_true (q d)) c.

(** [findOne(q)]: the first matching document, with its position. *)
Definition coll_findOne (q : D -> bool) (c : list D) : option (nat * D) :=
  list_find (fun d => Is_true (q d)) c.

Definition has_id (id : ObjectId) (d : D) : bool := Nat.eqb (doc_id d) id.

Definition coll_findById (id : ObjectId) (c : list D) : option (nat * D) :=
  coll_findOne (has_id id) c.

(** [doc.save()] on a loaded document: the stored document with that
    [_id] is replaced; [None] when it is no longer there. *)
Definition coll_save (d : D) (c : list D) : option (list D) :=
  match coll_findById (doc_id d) c with
  | Some (i, _) => Some (<[i := d]> c)
  | None => None
  end.
End collection.

(** ** Models: the queries and writes the handlers issue *)

Module User.
Import UserSchema.

Definition find (q : doc -> bool) : M (list doc) :=
  get (fun s => coll_find q (users s)).

Definition findById (id : ObjectId) : M (option doc) :=
  get (fun s => snd <$> coll_findById id (users s)).
End User.

Module Donor.
Import DonorSchema.

Definition findOne (q : doc -> bool) : M (option doc) :=
  get (fun s => snd <$> coll_findOne q (donors s)).

(** [donor.save()]; no validator of the Donor schema can fail on a document
    of this shape ([user_id] and every log entry's [date] are present). *)
Definition save (d : doc) : M unit :=
  fun s =>
    match coll_save d (donors s) with
    | Some c => (Ok tt, set_donors c s)
    | None => (Throw DocumentNotFound, s)
    end.

(** [findOneAndUpdate(q, update, { new: true })]: the first match is
    updated in place and returned as updated; [null] and no write when
    nothing matches. *)
Definition findOneAndUpdate (q : doc -> bool) (update : doc -> doc)
    : M (option doc) :=
  fun s =>
    match coll_findOne q (donors s) with
    | Some (i, d) =>
        (Ok (Some (update d)), set_donors (<[i := update d]> (donors s)) s)
    | None => (Ok None, s)
    end.
End Donor.

Module BloodInventory.
Import BloodInventorySchema.

Definition findOne (q : doc -> bool) : M (option doc) :=
  get (fun s => snd <$> coll_findOne q (bloodinventories s)).

(** [create({ blood_type, available_units })]: [status] takes its default,
    and the document is validated before it is inserted. *)
Definition create (bt : string) (n : Z) : M doc :=
  fun s =>
    let d := mk (next_id s) bt n "Medium" in
    if valid d then
      (Ok d,
       set_next_id (S (next_id s))
         (set_bloodinventories (bloodinventories s ++ [d]) s))
    else (Throw (ValidationFailed "BloodInventory"), s).

(** [inventory.save()] on a loaded document: the document is validated
    (Mongoose validates the loaded paths too, not the modified ones only)
    and then written over the stored one. *)
Definition save (d : doc) : M unit :=
  fun s =>
    if valid d then
      match coll_save d (bloodinventories s) with
      | Some c => (Ok tt, set_bloodinventories c s)
      | None => (Throw DocumentNotFound, s)
      end
    else (Throw (ValidationFailed "BloodInventory"), s).
End BloodInventory.

Module Request.
Import RequestSchema.

(** [create({ requester_id, blood_group, region, status, hospital,
    notes })]: [status] is ["Pending"] when [undefined], [createdAt] is the
    time of the call, and the document is validated before it is
    inserted. *)
Definition create (now : Z) (requester : ObjectId) (bg rg : string)
    (st : option string) (hosp nts : string) : M doc :=
  fun s =>
    let st' := match st with Some x => x | None => "Pending" end in
    let d := mk (next_id s) requester bg rg hosp nts st' None now in
    if valid d then
      (Ok d, set_next_id (S (next_id s)) (set_requests (requests s ++ [d]) s))
    else (Throw (ValidationFailed "Request"), s).

Definition find (q : doc -> bool) : M (list doc) :=
  get (fun s => coll_find q (requests s)).

(** [findById(id)] with the route parameter: a parameter that is not an
    ObjectId makes the query throw a cast error. *)
Definition findById (id : option ObjectId) : M (option doc) :=
  match id with
  | Some i => get (fun s => snd <$> coll_findById i (requests s))
  | None => throw (CastFailed "_id")
  end.

(** [request.save()] on a loaded document: the document is validated
    (Mongoose validates the loaded paths too, not the modified ones only)
    and then written over the stored one. *)
Definition save (d : doc) : M unit :=
  fun s =>
    if valid d then
      match coll_save d (requests s) with
      | Some c => (Ok tt, set_requests c s)
      | None => (Throw DocumentNotFound, s)
      end
    else (Throw (ValidationFailed "Request"), s).

(** [.sort({ createdAt: -1 })]: newest first. *)
Definition newer_first (a b : doc) : Prop := (createdAt b <= createdAt a)%Z.

#[export] Instance newer_first_dec : RelDecision newer_first :=
  fun a b => Z_le_dec (createdAt b) (createdAt a).

Definition sort_newest_first (l : list doc) : list doc :=
  merge_sort newer_first l.

Definition summary (u : UserSchema.doc) : requester :=
  mk_requester (UserSchema._id u) (UserSchema.full_name u)
    (UserSchema.blood_type u) (UserSchema.phone u) (UserSchema.region u).

Definition populate (l : list doc) : M (list populated) :=
  get (fun s =>
    map (fun d =>
           mk_populated d
             (summary ∘ snd <$> coll_findById (requester_id d) (users s)))
        l).
End Request.

Module Notification.
Import NotificationSchema.

Definition valid (f : fields) : bool :=
  negb (String.eqb (f_title f) "") && negb (String.eqb (f_message f) "")
  && includes roles (f_role f)
  && match f_region f with
     | Some r => includes regions r
     | None => true
     end.

Definition of_fields (now : Z) (first_id : ObjectId) (i : nat) (f : fields)
    : doc :=
  mk (first_id + i) (f_title f) (f_message f) (f_role f) (f_region f)
     false now.

(** [insertMany(docs)]: every document is validated first, and one that
    fails keeps all of them out of the collection. *)
Definition insertMany (now : Z) (fs : list fields) : M unit :=
  fun s =>
    if forallb valid fs then
      (Ok tt,
       set_next_id (next_id s + length fs)
         (set_notifications
            (notifications s ++ imap (of_fields now (next_id s)) fs) s))
    else (Throw (ValidationFailed "Notification"), s).

Definition find (q : doc -> bool) : M (list doc) :=
  get (fun s => coll_find q (notifications s)).

Definition newer_first (a b : doc) : Prop := (createdAt b <= createdAt a)%Z.

#[export] Instance newer_first_dec : RelDecision newer_first :=
  fun a b => Z_le_dec (createdAt b) (createdAt a).

Definition sort_newest_first (l : list doc) : list doc :=
  merge_sort newer_first l.
End Notification.

(** ** Responses and middleware *)

(** [error.message] of a caught exception is kept symbolic. *)
Inductive Message :=
| Text (s : string)
| ErrorMessage (e : Error).

Record Response (A : Type) := mkResponse {
  http_status : nat;
  success : bool;
  message : Message;
  data : option A
}.
Arguments mkResponse {A}.
Arguments http_status {A}.
Arguments success {A}.
Arguments message {A}.
Arguments data {A}.

Definition sendResponse {A} (ok : bool) (msg : Message) (d : option A)
    (status : nat) : Response A :=
  mkResponse status ok msg d.

(** The decoded token that [protect] stores in [req.user]. *)
Module Auth.
Record user := mk {
  id : ObjectId;
  role : string
}.
End Auth.

Definition Handler (A : Type) : Type := Store -> Response A * Store.

Definition respond {A} (r : Response A) : Handler A := fun s => (r, s).

Definition restrictTo {A} (roles : list string) (req_user : Auth.user)
    (next : Handler A) : Handler A :=
  if negb (includes roles (Auth.role req_user)) then
    respond
      (mkResponse 403 false (Text "Forbidden: You do not have permission")
         None)
  else next.

Definition internal_error {A} (e : Error) : Response A :=
  sendResponse false (ErrorMessage e) None 500.

Definition opt_string_eqb (a b : option string) : bool :=
  match a, b with
  | Some x, Some y => String.eqb x y
  | None, None => true
  | _, _ => false
  end.

Local Open Scope store_scope.

(** ** Request workflow *)

(** [GET /requests/user]: the self-scoped listing. *)
Definition listUserRequests (req_user : Auth.user)
    : Handler (list RequestSchema.doc) :=
  try_catch
    (userRequests <-
       Request.find
         (fun r => Nat.eqb (RequestSchema.requester_id r) (Auth.id req_user)) ;;
     ret (sendResponse true (Text "Fetched user requests")
            (Some userRequests) 200))
    internal_error.

Definition get_requests_user (req_user : Auth.user)
    : Handler (list RequestSchema.doc) :=
  restrictTo ["user"] req_user (listUserRequests req_user).

Record RequestBody := mkRequestBody {
  body_blood_group : option string;
  body_region : option string;
  body_hospital : option string;
  body_status : option string;
  body_notes : option string
}.

Definition matching_request_message (blood_group region : string) : string :=
  "A new request for " ++ blood_group
  ++ " has been posted in your region (" ++ region ++ ").".

Definition matching_request_notification (blood_group region : string)
    : NotificationSchema.fields :=
  NotificationSchema.mk_fields "New Matching Request"
    (matching_request_message blood_group region) "donor" (Some region).

(** The query [{ role: "donor", blood_type: blood_group, region }]. *)
Definition matching_donor (blood_group region : string) (u : UserSchema.doc)
    : bool :=
  String.eqb (UserSchema.role u) "donor"
  && String.eqb (UserSchema.blood_type u) blood_group
  && opt_string_eqb (UserSchema.region u) (Some region).

(** [POST /requests]; [now] is the clock reading of the run. *)
Definition submitRequest (now : Z) (req_user : Auth.user) (body : RequestBody)
    : Handler RequestSchema.doc :=
  if negb (truthy (body_blood_group body)) || negb (truthy (body_region body))
  then
    respond
      (sendResponse false (Text "Blood group and region are required")
         None 400)
  else
    let blood_group := or_else (body_blood_group body) "" in
    let region := or_else (body_region body) "" in
    try_catch
      (newRequest <-
         Request.create now (Auth.id req_user) blood_group region
           (body_status body) (or_else (body_hospital body) "")
           (or_else (body_notes body) "") ;;
       donorUsers <- User.find (matching_donor blood_group region) ;;
       let notifications :=
         map (fun _ => matching_request_notification blood_group region)
             donorUsers in
       (if Nat.ltb 0 (length notifications)
        then Notification.insertMany now notifications
        else ret tt) ;;;
       ret (sendResponse true (Text "Blood request submitted")
              (Some newRequest) 201))
      internal_error.

Definition post_requests (now : Z) (req_user : Auth.user) (body : RequestBody)
    : Handler RequestSchema.doc :=
  restrictTo ["user"] req_user (submitRequest now req_user body).

Definition validStatuses : list string :=
  ["Pending"; "Approved"; "Fulfilled"; "Critical"].

(** [POST /requests/:id/status], open to every authenticated role. *)
Definition updateRequestStatus (req_user : Auth.user)
    (id : option ObjectId) (status : option string)
    : Handler RequestSchema.doc :=
  if negb (truthy status) || negb (includes validStatuses (or_else status ""))
  then
    respond
      (sendResponse false
         (Text ("Invalid status. Valid options: "
                ++ String.concat ", " validStatuses))
         None 400)
  else
    let status := or_else status "" in
    try_catch
      (request <- Request.findById id ;;
       match request with
       | None =>
           ret (sendResponse false (Text "Request not found") None 404)
       | Some request =>
           request <-
             (if String.eqb status "Approved" then
                approver <- User.findById (Auth.id req_user) ;;
                match approver with
                | None => throw TypeError
                | Some approver =>
                    ret (RequestSchema.set_approved_by
                           (RequestSchema.mk_approver
                              (UserSchema.full_name approver)
                              (UserSchema.phone approver))
                           request)
                end
              else ret request) ;;
           let request := RequestSchema.set_status status request in
           Request.save request ;;;
           ret (sendResponse true (Text "Request status updated successfully")
                  (Some request) 200)
       end)
      internal_error.

(** [GET /requests], open to every authenticated role. *)
Definition listRequests (req_user : Auth.user)
    : Handler (list RequestSchema.populated) :=
  let fetched (q : RequestSchema.doc -> bool) :=
    found <- Request.find q ;;
    requests <- Request.populate (Request.sort_newest_first found) ;;
    ret (sendResponse true (Text "Requests fetched successfully")
           (Some requests) 200) in
  try_catch
    (if String.eqb (Auth.role req_user) "admin" then
       fetched (fun _ => true)
     else if String.eqb (Auth.role req_user) "donor" then
       donor <- User.findById (Auth.id req_user) ;;
       match donor with
       | None => throw TypeError
       | Some donor =>
           if negb (truthy (UserSchema.region donor)) then
             ret (sendResponse false (Text "Donor region not set") None 400)
           else
             fetched
               (fun r =>
                  String.eqb (RequestSchema.region r)
                    (or_else (UserSchema.region donor) ""))
       end
     else
       fetched
         (fun r => Nat.eqb (RequestSchema.requester_id r) (Auth.id req_user)))
    internal_error.

Fixpoint mapM {A B} (f : A -> M B) (l : list A) : M (list B) :=
  match l with
  | [] => ret []
  | x :: l' => y <- f x ;; ys <- mapM f l' ;; ret (y :: ys)
  end.

(** ** Directory search *)

(** One element of the donor search: the user document without
    [password_hash], and the joined [availability] ([undefined] when the
    user has no Donor document). *)
Record DonorWithAvailability := mkDonorWithAvailability {
  d_id : ObjectId;
  d_full_name : string;
  d_email : string;
  d_phone : string;
  d_role : string;
  d_blood_type : string;
  d_region : option string;
  d_availability : option bool
}.

Definition with_availability (u : UserSchema.doc) (a : option bool)
    : DonorWithAvailability :=
  mkDonorWithAvailability (UserSchema._id u) (UserSchema.full_name u)
    (UserSchema.email u) (UserSchema.phone u) (UserSchema.role u)
    (UserSchema.blood_type u) (UserSchema.region u) a.

(** [.sort({ full_name: 1 })] *)
Definition by_full_name (a b : UserSchema.doc) : Prop :=
  Is_true (String.leb (UserSchema.full_name a) (UserSchema.full_name b)).

#[export] Instance by_full_name_dec : RelDecision by_full_name :=
  fun a b =>
    Is_true_dec (String.leb (UserSchema.full_name a) (UserSchema.full_name b)).

Section donor_search.
(** [new RegExp(name, "i")]: [None] when the pattern does not compile,
    otherwise the test the pattern performs on a string. *)
Variable RegExp_i : string -> option (string -> bool).

(** [GET /donors/search] *)
Definition searchDonors (blood_type name region : option string)
    : Handler (list DonorWithAvailability) :=
  try_catch
    (let userQuery :=
        fun u => String.eqb (UserSchema.role u) "donor" in
      let userQuery :=
        if truthy blood_type then
          fun u => userQuery u
                   && String.eqb (UserSchema.blood_type u)
                        (or_else blood_type "")
        else userQuery in
      let userQuery :=
        if truthy region then
          fun u => userQuery u
                   && opt_string_eqb (UserSchema.region u) region
        else userQuery in
      userQuery <-
        (if truthy name then
           match RegExp_i (or_else name "") with
           | Some test =>
               ret (fun u => userQuery u && test (UserSchema.full_name u))
           | None => throw SyntaxError
           end
         else ret userQuery) ;;
      found <- User.find userQuery ;;
      let users := merge_sort by_full_name found in
      donorsWithAvailability <-
        mapM (fun user =>
                donorData <-
                  Donor.findOne
                    (fun d => Nat.eqb (DonorSchema.user_id d)
                                (UserSchema._id user)) ;;
                ret (with_availability user
                       (DonorSchema.availability <$> donorData)))
             users ;;
      if Nat.eqb (length donorsWithAvailability) 0 then
        ret (sendResponse true (Text "No donors found for given criteria")
               (Some []) 200)
      else
        ret (sendResponse true (Text "Donor search results")
               (Some donorsWithAvailability) 200))
     (fun _ => sendResponse false (Text "Failed to fetch donors") None 500).

Definition get_donors_search (req_user : Auth.user)
    (blood_type name region : option string)
    : Handler (list DonorWithAvailability) :=
  restrictTo ["admin"; "user"] req_user
    (searchDonors blood_type name region).
End donor_search.

(** ** Numbers and raw values

    A JavaScript number is a double.  The numbers this development keeps
    ([available_units], the [units] of a log entry) are the whole ones,
    integers in the specification, held as [Z]; a whole number is a double
    when it has at most 53 significant bits and is below [2 ^ 1024]. *)

(** The double nearest to a whole number, a tie going to the even
    significand: the value of a numeral, or of a sum, whose exact value is
    that whole number.  Beyond the finite doubles the value is [Infinity],
    which is not a whole number: [None]. *)
Definition nearest_double (z : Z) : option Z :=
  let a := Z.abs z in
  let bits := (Z.log2 a + 1)%Z in
  if (bits <=? 53)%Z then Some z
  else
    let ulp := (2 ^ (bits - 53))%Z in
    let q := (a / ulp)%Z in
    let r := (a mod ulp)%Z in
    let q :=
      if (2 * r <? ulp)%Z then q
      else if (ulp <? 2 * r)%Z then (q + 1)%Z
      else if Z.even q then q else (q + 1)%Z in
    if (q * ulp <? 2 ^ 1024)%Z then Some (Z.sgn z * (q * ulp))%Z else None.

(** [Number.isSafeInteger] on a whole number. *)
Definition isSafeInteger (z : Z) : bool := (Z.abs z <? 2 ^ 53)%Z.

(** [String(n)]: for a safe integer, its decimal digits after the sign.
    A larger number is printed from its shortest digits, which are not
    followed here: [None]. *)
Definition number_text (z : Z) : option string :=
  if isSafeInteger z then Some (NilZero.string_of_int (Z.to_int z)) else None.

Definition digit_value (c : ascii) : option Z :=
  let n := nat_of_ascii c in
  if (48 <=? n) && (n <=? 57) then Some (Z.of_nat (n - 48)) else None.

Fixpoint digits_value (acc : Z) (t : string) : option Z :=
  match t with
  | EmptyString => Some acc
  | String c rest =>
      match digit_value c with
      | Some d => digits_value (10 * acc + d) rest
      | None => None
      end
  end.

(** [Number(text)] for a text of decimal digits, after a minus sign or
    not: the double nearest to the number written.  No other text is
    followed (the empty text, blanks, a fraction, an exponent, a radix
    prefix, [Infinity], and the texts that give [NaN]): [None]. *)
Definition Number_of_text (t : string) : option Z :=
  match t with
  | EmptyString => None
  | String "-" (String c rest) =>
      n ← digits_value 0 (String c rest); nearest_double (- n)
  | _ => n ← digits_value 0 t; nearest_double n
  end.

(** What Mongoose stores on a [Number] path that is given a raw value: a
    number as it is, a text as [Number(text)].  [None] for every value
    that is not followed: one that is not cast to a whole number ([null],
    a text as above), one that is refused (an array, an object), and a
    boolean. *)
Definition cast_number (v : jsval) : option Z :=
  match v with
  | JNumber n => nearest_double n
  | JString t => Number_of_text t
  | _ => None
  end.

(** [row.available_units += v] as it is stored: [+] adds two numbers as
    doubles, and appends a text to the text of the number; the result is
    cast as above when the document is saved. *)
Definition plus_assign (available_units : Z) (v : jsval) : option Z :=
  match v with
  | JNumber n => n ← nearest_double n; nearest_double (available_units + n)
  | JString t =>
      text ← number_text available_units; Number_of_text (text ++ t)
  | _ => None
  end.

(** [const { units = 1 } = req.body]: the default stands in for
    [undefined] only. *)
Definition units_or_1 (units : jsval) : jsval :=
  match units with
  | JUndefined => JNumber 1
  | _ => units
  end.

(** ** Runs followed on part of their inputs

    A run that meets a value which is not followed has no result here:
    [None].  Where there is a result, it is the program's. *)

Definition Partial (A : Type) : Type := Store -> option (Outcome A * Store).

Definition PartialHandler (A : Type) : Type :=
  Store -> option (Response A * Store).

Definition followed {A} (m : M A) : Partial A := fun s => Some (m s).

Definition whole {A} (o : option A) : Partial A :=
  fun s =>
    match o with
    | Some a => Some (Ok a, s)
    | None => None
    end.

Definition partial_bind {A B} (m : Partial A) (k : A -> Partial B)
    : Partial B :=
  fun s =>
    match m s with
    | Some (Ok a, s') => k a s'
    | Some (Throw e, s') => Some (Throw e, s')
    | None => None
    end.

Declare Scope partial_scope.
Delimit Scope partial_scope with partial.
Notation "x <- m ;; k" := (partial_bind m (fun x => k))
  (at level 100, m at next level, right associativity) : partial_scope.
Notation "m ;;; k" := (partial_bind m (fun _ => k))
  (at level 100, right associativity) : partial_scope.

Definition partial_try_catch {A} (body : Partial A) (handler : Error -> A)
    : Store -> option (A * Store) :=
  fun s =>
    match body s with
    | Some (Ok a, s') => Some (a, s')
    | Some (Throw e, s') => Some (handler e, s')
    | None => None
    end.

(** [restrictTo] before a handler of this kind. *)
Definition restrictTo_partial {A} (roles : list string)
    (req_user : Auth.user) (next : PartialHandler A) : PartialHandler A :=
  if negb (includes roles (Auth.role req_user)) then
    fun s =>
      Some
        (mkResponse 403 false (Text "Forbidden: You do not have permission")
           None, s)
  else next.

(** ** Donation and inventory ledger *)

Record DonationData := mkDonationData {
  donor_id : ObjectId;
  donor_last_donation_date : option Z;
  donor_donation_log : list DonorSchema.log_entry;
  inventory_blood_type : string;
  inventory_available_units : Z
}.

(** [POST /donors/donate].  [units] is the raw value of the body: the
    pushed log entry and a created row hold its cast, an existing row
    holds what [+=] makes of it. *)
Definition recordDonation (now : Z) (req_user : Auth.user)
    (units : jsval) (notes : option string) : PartialHandler DonationData :=
  partial_try_catch
    (let units := units_or_1 units in
     let notes := default "" notes in
     donor <-
       followed
         (Donor.findOne
            (fun d => Nat.eqb (DonorSchema.user_id d) (Auth.id req_user))) ;;
     match donor with
     | None =>
         followed
           (ret (sendResponse false (Text "Donor profile not found") None 404))
     | Some donor =>
         let newDate := now in
         logged <- whole (cast_number units) ;;
         let donor :=
           DonorSchema.push_donation_log
             (DonorSchema.mk_entry newDate logged
                (or_else (Some notes) "Recorded via dashboard"))
             donor in
         let donor := DonorSchema.set_last_donation_date newDate donor in
         followed (Donor.save donor) ;;;
         user <- followed (User.findById (Auth.id req_user)) ;;
         match user with
         | None => followed (throw TypeError)
         | Some user =>
             found <-
               followed
                 (BloodInventory.findOne
                    (fun i => String.eqb (BloodInventorySchema.blood_type i)
                                (UserSchema.blood_type user))) ;;
             inventory <-
               match found with
               | None =>
                   available_units <- whole (cast_number units) ;;
                   followed
                     (BloodInventory.create (UserSchema.blood_type user)
                        available_units)
               | Some inventory =>
                   available_units <-
                     whole
                       (plus_assign
                          (BloodInventorySchema.available_units inventory)
                          units) ;;
                   let inventory :=
                     BloodInventorySchema.set_available_units available_units
                       inventory in
                   followed (BloodInventory.save inventory) ;;;
                   followed (ret inventory)
               end ;;
             followed
               (ret (sendResponse true
                       (Text "Donation recorded and inventory updated")
                       (Some
                          (mkDonationData (DonorSchema._id donor)
                             (DonorSchema.last_donation_date donor)
                             (DonorSchema.donation_log donor)
                             (BloodInventorySchema.blood_type inventory)
                             (BloodInventorySchema.available_units inventory)))
                       200))
         end
     end)%partial
    internal_error.

Definition post_donors_donate (now : Z) (req_user : Auth.user)
    (units : jsval) (notes : option string) : PartialHandler DonationData :=
  restrictTo_partial ["donor"] req_user
    (recordDonation now req_user units notes).

(** [PUT /donors/availability] *)
Definition setAvailability (req_user : Auth.user)
    (availability : jsval) : Handler bool :=
  let availability :=
    strict_eq_true availability || strict_eq_str availability "true" in
  try_catch
    (donor <-
       Donor.findOneAndUpdate
         (fun d => Nat.eqb (DonorSchema.user_id d) (Auth.id req_user))
         (DonorSchema.set_availability availability) ;;
     match donor with
     | None =>
         ret (sendResponse false (Text "Donor profile not found") None 404)
     | Some donor =>
         ret (sendResponse true (Text "Availability updated")
                (Some (DonorSchema.availability donor)) 200)
     end)
    internal_error.

Definition put_donors_availability (req_user : Auth.user)
    (availability : jsval) : Handler bool :=
  restrictTo ["donor"] req_user (setAvailability req_user availability).

(** ** Notifications *)

(** The query [GET /notifications] builds from the caller's User document. *)
Definition notification_query (user : UserSchema.doc)
    : NotificationSchema.doc -> bool :=
  if String.eqb (UserSchema.role user) "admin" then
    fun _ => true
  else if String.eqb (UserSchema.role user) "donor"
          && truthy (UserSchema.region user) then
    fun n =>
      String.eqb (NotificationSchema.role n) "all"
      || String.eqb (NotificationSchema.role n) "donor"
         && opt_string_eqb (NotificationSchema.region n)
              (UserSchema.region user)
  else
    fun n =>
      String.eqb (NotificationSchema.role n) "all"
      || String.eqb (NotificationSchema.role n) (UserSchema.role user)
         && opt_string_eqb (NotificationSchema.region n)
              (UserSchema.region user).

(** [GET /notifications], open to every authenticated role. *)
Definition listNotifications (req_user : Auth.user)
    : Handler (list NotificationSchema.doc) :=
  try_catch
    (user <- User.findById (Auth.id req_user) ;;
     match user with
     | None => ret (sendResponse false (Text "User not found") None 404)
     | Some user =>
         found <- Notification.find (notification_query user) ;;
         let notifications := Notification.sort_newest_first found in
         ret (sendResponse true (Text "Dashboard notifications")
                (Some notifications) 200)
     end)
    internal_error.

(** ** Notions used in the statements

    The answers the handlers send and the documents they write, named so
    that the statements below can mention them. *)

Definition approver_of (u : UserSchema.doc) : RequestSchema.approver :=
  RequestSchema.mk_approver (UserSchema.full_name u) (UserSchema.phone u).

Definition invalid_status_response : Response RequestSchema.doc :=
  sendResponse false
    (Text "Invalid status. Valid options: Pending, Approved, Fulfilled, Critical")
    None 400.

Definition status_updated_response (d : RequestSchema.doc)
    : Response RequestSchema.doc :=
  sendResponse true (Text "Request status updated successfully") (Some d) 200.

Definition new_request (now : Z) (req_user : Auth.user) (G R : string)
    (body : RequestBody) (s : Store) : RequestSchema.doc :=
  RequestSchema.mk (next_id s) (Auth.id req_user) G R
    (or_else (body_hospital body) "") (or_else (body_notes body) "")
    (default "Pending" (body_status body)) None now.

Definition with_new_request (d : RequestSchema.doc) (s : Store) : Store :=
  set_next_id (S (next_id s)) (set_requests (requests s ++ [d]) s).

Definition submitted_response (d : RequestSchema.doc)
    : Response RequestSchema.doc :=
  sendResponse true (Text "Blood request submitted") (Some d) 201.

Definition populate_in (s : Store) (l : list RequestSchema.doc)
    : list RequestSchema.populated :=
  map (λ d, RequestSchema.mk_populated d
              (Request.summary ∘ snd
                 <$> coll_findById (RequestSchema.requester_id d) (users s)))
      l.

Definition requests_response (l : list RequestSchema.populated)
    : Response (list RequestSchema.populated) :=
  sendResponse true (Text "Requests fetched successfully") (Some l) 200.

Definition notifications_response (l : list NotificationSchema.doc)
    : Response (list NotificationSchema.doc) :=
  sendResponse true (Text "Dashboard notifications") (Some l) 200.

(** The query [{ user_id: req.user.id }] on Donor documents. *)
Definition own_profile (req_user : Auth.user) (d : DonorSchema.doc) : bool :=
  Nat.eqb (DonorSchema.user_id d) (Auth.id req_user).

(** The query [{ blood_type: bt }] on inventory rows. *)
Definition of_blood_type (bt : string) (row : BloodInventorySchema.doc)
    : bool :=
  String.eqb (BloodInventorySchema.blood_type row) bt.

(** The [availability] joined onto a user: that of the first Donor document
    of the user, [undefined] when there is none. *)
Definition availability_of (s : Store) (u : UserSchema.doc) : option bool :=
  DonorSchema.availability
  <$> (snd <$> coll_findOne
                 (λ d, Nat.eqb (DonorSchema.user_id d) (UserSchema._id u))
                 (donors s)).

Definition search_response (l : list DonorWithAvailability)
    : Response (list DonorWithAvailability) :=
  if Nat.eqb (length l) 0 then
    sendResponse true (Text "No donors found for given criteria") (Some []) 200
  else sendResponse true (Text "Donor search results") (Some l) 200.

(** ** A sample store *)

Module Sample.
Definition ann : UserSchema.doc :=
  UserSchema.mk 1 "Ann" "ann@mail" "111" "hash" "donor" "O+" (Some "North").
Definition bob : UserSchema.doc :=
  UserSchema.mk 2 "Bob" "bob@mail" "222" "hash" "user" "A+" (Some "East").
Definition cid : UserSchema.doc :=
  UserSchema.mk 3 "Cid" "cid@mail" "333" "hash" "donor" "O+" (Some "North").
Definition eve : UserSchema.doc :=
  UserSchema.mk 4 "Eve" "eve@mail" "444" "hash" "donor" "A+" (Some "East").
Definition root : UserSchema.doc :=
  UserSchema.mk 5 "Root" "root@mail" "0000000000" "hash" "admin" "O+" None.

Definition ann_profile : DonorSchema.doc := DonorSchema.mk 10 1 true None 5 [].
Definition cid_profile : DonorSchema.doc := DonorSchema.mk 11 3 false None 5 [].
Definition eve_profile : DonorSchema.doc := DonorSchema.mk 12 4 true None 5 [].

Definition o_positive : BloodInventorySchema.doc :=
  BloodInventorySchema.mk 20 "O+" 4 "Medium".

Definition first_request : RequestSchema.doc :=
  RequestSchema.mk 30 2 "O+" "North" "" "" "Pending" None 10.
Definition second_request : RequestSchema.doc :=
  RequestSchema.mk 31 2 "A+" "East" "City" "" "Pending" None 20.
Definition third_request : RequestSchema.doc :=
  RequestSchema.mk 32 9 "B+" "East" "" "" "Critical" None 15.

Definition store : Store :=
  mkStore [ann; bob; cid; eve; root]
    [ann_profile; cid_profile; eve_profile]
    [o_positive]
    [first_request; second_request; third_request]
    [NotificationSchema.mk 40 "Drive" "Come on Sunday" "all" None false 5;
     NotificationSchema.mk 41 "North" "For the north" "donor" (Some "North")
       false 7;
     NotificationSchema.mk 42 "East" "For the east" "donor" (Some "East")
       false 6;
     NotificationSchema.mk 43 "Users" "For users" "user" (Some "East") false 8]
    50.

Definition as_ann : Auth.user := Auth.mk 1 "donor".
Definition as_bob : Auth.user := Auth.mk 2 "user".
Definition as_eve : Auth.user := Auth.mk 4 "donor".
Definition as_root : Auth.user := Auth.mk 5 "admin".

Definition body : RequestBody :=
  mkRequestBody (Some "O+") (Some "North") None None None.
Definition no_region : RequestBody :=
  mkRequestBody (Some "O+") None None None None.
Definition unlisted_status : RequestBody :=
  mkRequestBody (Some "O+") (Some "North") None (Some "Done") None.
Definition unlisted_group : RequestBody :=
  mkRequestBody (Some "C+") (Some "North") None None None.

Definition empty : Store := mkStore [] [] [] [] [] 0.
(** A pattern engine for the sample.  A pattern of ASCII characters none
    of which is special in a regular expression is searched for anywhere
    in the subject, letters matching in either case, which is what
    [new RegExp(pattern, "i")] tests for such a pattern.  Other patterns
    are not in the sample; the engine refuses them. *)
Definition special (c : ascii) : bool :=
  existsb (Ascii.eqb c)
    ["\"; "^"; "$"; "."; "|"; "?"; "*"; "+"; "("; ")"; "["; "]"; "{"; "}"]%char.

Fixpoint plain (pattern : string) : bool :=
  match pattern with
  | EmptyString => true
  | String c rest =>
      negb (special c) && (nat_of_ascii c <? 128) && plain rest
  end.

Definition lower (c : ascii) : ascii :=
  let n := nat_of_ascii c in
  if (65 <=? n) && (n <=? 90) then ascii_of_nat (n + 32) else c.

Fixpoint lowercase (t : string) : string :=
  match t with
  | EmptyString => EmptyString
  | String c rest => String (lower c) (lowercase rest)
  end.

Fixpoint occurs (pattern subject : string) : bool :=
  String.prefix pattern subject
  || match subject with
     | EmptyString => false
     | String _ rest => occurs pattern rest
     end.

Definition plain_pattern (pattern : string) : option (string → bool) :=
  if plain pattern then
    Some (fun subject => occurs (lowercase pattern) (lowercase subject))
  else None.
End Sample.

(** * The rest of the routes and the utility module *)

(** ** Further writes to documents and to the store *)

Definition set_users (l : list UserSchema.doc) (s : Store) : Store :=
  mkStore l (donors s) (bloodinventories s) (requests s) (notifications s)
          (next_id s).

Definition with_role (r : string) (u : UserSchema.doc) : UserSchema.doc :=
  UserSchema.mk (UserSchema._id u) (UserSchema.full_name u)
    (UserSchema.email u) (UserSchema.phone u) (UserSchema.password_hash u) r
    (UserSchema.blood_type u) (UserSchema.region u).

Definition with_reputation (n : Z) (d : DonorSchema.doc) : DonorSchema.doc :=
  DonorSchema.mk (DonorSchema._id d) (DonorSchema.user_id d)
    (DonorSchema.availability d) (DonorSchema.last_donation_date d) n
    (DonorSchema.donation_log d).

Definition marked_read (n : NotificationSchema.doc) : NotificationSchema.doc :=
  NotificationSchema.mk (NotificationSchema._id n) (NotificationSchema.title n)
    (NotificationSchema.message n) (NotificationSchema.role n)
    (NotificationSchema.region n) true (NotificationSchema.createdAt n).

(** A library call that either returns or throws. *)
Definition lift {A} (o : Outcome A) : M A := fun s => (o, s).

(** [findByIdAndUpdate(id, update)]-style writes: the first document the
    query selects is replaced by its update, without validation; nothing
    is written when the query selects none. *)
Definition coll_update {D} (q : D -> bool) (update : D -> D) (c : list D)
    : list D :=
  match list_find (fun d => Is_true (q d)) c with
  | Some (i, d) => <[i := update d]> c
  | None => c
  end.

(** [deleteOne(q)]: the first document the query selects is removed. *)
Definition coll_deleteOne {D} (q : D -> bool) (c : list D) : list D :=
  match list_find (fun d => Is_true (q d)) c with
  | Some (i, _) => delete i c
  | None => c
  end.

(** ** Further queries of the models *)

Module Users.
Definition roles : list string := ["user"; "donor"; "admin"].

(** The object handed to [User.create]. *)
Record fields := mk_fields {
  f_full_name : option string;
  f_email : option string;
  f_phone : option string;
  f_password_hash : string;
  f_role : string;
  f_blood_type : string;
  f_region : option string
}.

(** The schema's validators: the required strings present and non-empty,
    [role] and [blood_type] of their enums, [region] of its enum when
    given and required unless the role is ["admin"]. *)
Definition valid (f : fields) : bool :=
  truthy (f_full_name f) && truthy (f_email f) && truthy (f_phone f)
  && negb (String.eqb (f_password_hash f) "")
  && includes roles (f_role f)
  && includes blood_types (f_blood_type f)
  && match f_region f with
     | Some r => includes regions r
     | None => String.eqb (f_role f) "admin"
     end.

(** [User.create(userData)].  The unique index on [email] is the store's;
    both callers look the email up first, so in a sequential run it has
    nothing to reject. *)
Definition create (f : fields) : M UserSchema.doc :=
  fun s =>
    if valid f then
      let d :=
        UserSchema.mk (next_id s) (or_else (f_full_name f) "")
          (or_else (f_email f) "") (or_else (f_phone f) "")
          (f_password_hash f) (f_role f) (f_blood_type f) (f_region f) in
      (Ok d, set_next_id (S (next_id s)) (set_users (users s ++ [d]) s))
    else (Throw (ValidationFailed "User"), s).

(** The query [{ email }]; an [undefined] email selects only documents
    without one, and every stored user has one. *)
Definition by_email (email : option string) (u : UserSchema.doc) : bool :=
  match email with
  | Some e => String.eqb (UserSchema.email u) e
  | None => false
  end.

Definition findOne (q : UserSchema.doc -> bool) : M (option UserSchema.doc) :=
  get (fun s => snd <$> coll_findOne q (users s)).

Definition countDocuments (q : UserSchema.doc -> bool) : M nat :=
  get (fun s => length (coll_find q (users s))).

(** [findByIdAndUpdate(id, update, { new: true })] with the route
    parameter: a cast error when it is not an ObjectId, otherwise the
    updated document, or [null] when no user has the id. *)
Definition findByIdAndUpdate (id : option ObjectId)
    (update : UserSchema.doc -> UserSchema.doc)
    : M (option UserSchema.doc) :=
  match id with
  | Some i =>
      fun s =>
        (Ok (update ∘ snd <$> coll_findById i (users s)),
         set_users (coll_update (has_id i) update (users s)) s)
  | None => throw (CastFailed "_id")
  end.

Definition findByIdAndDelete (id : option ObjectId) : M unit :=
  match id with
  | Some i => modify (fun s => set_users (coll_deleteOne (has_id i) (users s)) s)
  | None => throw (CastFailed "_id")
  end.
End Users.

Module Donors.
(** [Donor.create({ user_id })]: every other field takes its default. *)
Definition create (user : ObjectId) : M DonorSchema.doc :=
  fun s =>
    let d := DonorSchema.mk (next_id s) user true None 5 [] in
    (Ok d, set_next_id (S (next_id s)) (set_donors (donors s ++ [d]) s)).

Definition countDocuments (q : DonorSchema.doc -> bool) : M nat :=
  get (fun s => length (coll_find q (donors s))).

Definition by_user (id : ObjectId) (d : DonorSchema.doc) : bool :=
  Nat.eqb (DonorSchema.user_id d) id.

(** [deleteOne({ user_id: id })] with the route parameter. *)
Definition deleteOne_by_user (id : option ObjectId) : M unit :=
  match id with
  | Some i =>
      modify (fun s => set_donors (coll_deleteOne (by_user i) (donors s)) s)
  | None => throw (CastFailed "user_id")
  end.

(** [findOneAndUpdate({ user_id: id }, update, { new: true })] with the
    route parameter. *)
Definition findOneAndUpdate_by_user (id : option ObjectId)
    (update : DonorSchema.doc -> DonorSchema.doc)
    : M (option DonorSchema.doc) :=
  match id with
  | Some i => Donor.findOneAndUpdate (by_user i) update
  | None => throw (CastFailed "user_id")
  end.
End Donors.

Module Requests.
Definition countDocuments (q : RequestSchema.doc -> bool) : M nat :=
  get (fun s => length (coll_find q (requests s))).

Definition findByIdAndUpdate (id : option ObjectId)
    (update : RequestSchema.doc -> RequestSchema.doc)
    : M (option RequestSchema.doc) :=
  match id with
  | Some i =>
      fun s =>
        (Ok (update ∘ snd <$> coll_findById i (requests s)),
         set_requests (coll_update (has_id i) update (requests s)) s)
  | None => throw (CastFailed "_id")
  end.
End Requests.

Module Notifications.
(** [Notification.create({ title, message, role })]: validated, then
    inserted with the defaults for [region], [isRead] and [createdAt]. *)
Definition create (now : Z) (title message : option string) (role : string)
    : M NotificationSchema.doc :=
  fun s =>
    let f :=
      NotificationSchema.mk_fields (or_else title "") (or_else message "")
        role None in
    if Notification.valid f then
      let d := Notification.of_fields now (next_id s) 0 f in
      (Ok d,
       set_next_id (S (next_id s))
         (set_notifications (notifications s ++ [d]) s))
    else (Throw (ValidationFailed "Notification"), s).

Definition findByIdAndUpdate (id : option ObjectId)
    (update : NotificationSchema.doc -> NotificationSchema.doc) : M unit :=
  match id with
  | Some i =>
      modify (fun s =>
        set_notifications (coll_update (has_id i) update (notifications s)) s)
  | None => throw (CastFailed "_id")
  end.
End Notifications.

Module BloodInventories.
(** [aggregate([{ $group: { _id: null, total: { $sum: "$available_units" }
    } }])]: one group holding the sum, or no group for an empty
    collection. *)
Definition aggregate_total : M (list Z) :=
  get (fun s =>
    match bloodinventories s with
    | [] => []
    | rows =>
        [fold_right Z.add 0%Z (map BloodInventorySchema.available_units rows)]
    end).
End BloodInventories.

(** ** Authentication (routes.js and the utility module) *)

(** The [user] object of a registration or login answer. *)
Record AuthUser := mkAuthUser {
  au_id : ObjectId;
  au_role : string;
  au_full_name : string;
  au_phone : string;
  au_region : option string
}.

Record AuthData := mkAuthData {
  token : string;
  user : AuthUser
}.

Record RegisterBody := mkRegisterBody {
  reg_full_name : option string;
  reg_email : option string;
  reg_phone : option string;
  reg_password : option string;
  reg_role : option string;
  reg_blood_type : option string;
  reg_region : option string
}.

(** [authorization.split(' ')]: the pieces between single spaces. *)
Fixpoint split_spaces (s : string) : list string :=
  match s with
  | EmptyString => [EmptyString]
  | String c rest =>
      if Ascii.eqb c " "%char then EmptyString :: split_spaces rest
      else
        match split_spaces rest with
        | piece :: pieces => String c piece :: pieces
        | [] => [String c EmptyString]
        end
  end.

Section credentials.
(** The credential libraries, as what they return or throw:
    [bcrypt.hash(password, SALT_ROUNDS)], [bcrypt.compare(password, hash)],
    [jwt.sign(payload, SECRET, { expiresIn: '1d' })] and
    [jwt.verify(token, SECRET)]. *)
Variable hashPassword : option string -> Outcome string.
Variable comparePassword : option string -> string -> Outcome bool.
Variable generateToken : Auth.user -> Outcome string.
Variable jwt_verify : string -> Outcome Auth.user.

(** [POST /auth/register] *)
Definition register (body : RegisterBody) : Handler AuthData :=
  let role := default "user" (reg_role body) in
  try_catch
    (if negb (truthy (reg_full_name body)) || negb (truthy (reg_email body))
        || negb (truthy (reg_password body))
        || negb (truthy (reg_blood_type body))
     then
       ret (sendResponse false (Text "Missing required fields") None 400)
     else
       existingUser <- Users.findOne (Users.by_email (reg_email body)) ;;
       match existingUser with
       | Some _ =>
           ret (sendResponse false (Text "User already exists") None 409)
       | None =>
           password_hash <- lift (hashPassword (reg_password body)) ;;
           let userData :=
             Users.mk_fields (reg_full_name body) (reg_email body)
               (reg_phone body) password_hash role
               (or_else (reg_blood_type body) "")
               (if negb (String.eqb role "admin") && truthy (reg_region body)
                then reg_region body else None) in
           newUser <- Users.create userData ;;
           (if String.eqb role "donor"
            then Donors.create (UserSchema._id newUser) ;;; ret tt
            else ret tt) ;;;
           token <-
             lift (generateToken
                     (Auth.mk (UserSchema._id newUser)
                        (UserSchema.role newUser))) ;;
           ret (sendResponse true (Text "Registration successful")
                  (Some
                     (mkAuthData token
                        (mkAuthUser (UserSchema._id newUser)
                           (UserSchema.role newUser)
                           (UserSchema.full_name newUser)
                           (UserSchema.phone newUser)
                           (UserSchema.region newUser))))
                  201)
       end)
    internal_error.

(** [POST /auth/login] *)
Definition login (email password : option string) : Handler AuthData :=
  try_catch
    (found <- Users.findOne (Users.by_email email) ;;
     rejected <-
       match found with
       | None => ret true
       | Some user =>
           matches <-
             lift (comparePassword password (UserSchema.password_hash user)) ;;
           ret (negb matches)
       end ;;
     match found, rejected with
     | Some user, false =>
         token <-
           lift (generateToken
                   (Auth.mk (UserSchema._id user) (UserSchema.role user))) ;;
         ret (sendResponse true (Text "Login successful")
                (Some
                   (mkAuthData token
                      (mkAuthUser (UserSchema._id user) (UserSchema.role user)
                         (UserSchema.full_name user) (UserSchema.phone user)
                         (if truthy (UserSchema.region user)
                          then UserSchema.region user else None))))
                200)
     | _, _ =>
         ret (sendResponse false (Text "Invalid credentials") None 401)
     end)
    internal_error.

(** [protect]: the token is the second piece of an [Authorization] header
    that starts with ["Bearer"]; the handler after it runs with the decoded
    token as [req.user]. *)
Definition bearer_token (authorization : option string) : option string :=
  if truthy authorization
     && String.prefix "Bearer" (or_else authorization "")
  then split_spaces (or_else authorization "") !! 1
  else None.

Definition protect {A} (authorization : option string)
    (next : Auth.user -> Handler A) : Handler A :=
  let token := bearer_token authorization in
  if negb (truthy token) then
    respond (mkResponse 401 false (Text "Not authorized, no token") None)
  else
    match jwt_verify (or_else token "") with
    | Ok decoded => next decoded
    | Throw _ =>
        respond (mkResponse 401 false (Text "Not authorized, token failed") None)
    end.

(** [seedAdmin], run once the database is connected; the environment
    supplies the three values, and any failure is logged and dropped. *)
Variable ADMIN_EMAIL ADMIN_PASS ADMIN_NAME : option string.

Definition seedAdmin : Store -> Store :=
  fun s =>
    snd (try_catch
           (existingAdmin <- Users.findOne (Users.by_email ADMIN_EMAIL) ;;
            match existingAdmin with
            | None =>
                hashedPassword <- lift (hashPassword ADMIN_PASS) ;;
                Users.create
                  (Users.mk_fields ADMIN_NAME ADMIN_EMAIL (Some "0000000000")
                     hashedPassword "admin" "O+" None) ;;;
                ret tt
            | Some _ => ret tt
            end)
           (fun _ => tt) s).
End credentials.

(** ** Dashboard and donor self-service reads *)

Record UserStats := mkUserStats {
  stats_bloodUnits : Z;
  stats_donors : nat;
  stats_requests : nat
}.

(** [GET /dashboard/user-stats] *)
Definition userStats (req_user : Auth.user) : Handler UserStats :=
  try_catch
    (bloodUnits <- BloodInventories.aggregate_total ;;
     donors <- Donors.countDocuments DonorSchema.availability ;;
     requests <-
       Requests.countDocuments
         (fun r => Nat.eqb (RequestSchema.requester_id r) (Auth.id req_user)) ;;
     ret (sendResponse true (Text "User dashboard stats")
            (Some
               (mkUserStats
                  (match bloodUnits !! 0 with
                   | Some total => if Z.eqb total 0 then 0%Z else total
                   | None => 0%Z
                   end)
                  donors requests))
            200))
    internal_error.

Definition get_dashboard_user_stats (req_user : Auth.user)
    : Handler UserStats :=
  restrictTo ["user"] req_user (userStats req_user).

(** [GET /donors/availability] *)
Definition getAvailability (req_user : Auth.user) : Handler bool :=
  try_catch
    (donor <-
       Donor.findOne
         (fun d => Nat.eqb (DonorSchema.user_id d) (Auth.id req_user)) ;;
     match donor with
     | None =>
         ret (sendResponse false (Text "Donor profile not found") None 404)
     | Some donor =>
         ret (sendResponse true (Text "Availability fetched successfully")
                (Some (DonorSchema.availability donor)) 200)
     end)
    internal_error.

Definition get_donors_availability (req_user : Auth.user) : Handler bool :=
  restrictTo ["donor"] req_user (getAvailability req_user).

(** [GET /donors/requests] *)
Definition pendingMatchingRequests (req_user : Auth.user)
    : Handler (list RequestSchema.doc) :=
  try_catch
    (user <- User.findById (Auth.id req_user) ;;
     match user with
     | None => throw TypeError
     | Some user =>
         pendingRequests <-
           Request.find
             (fun r =>
                String.eqb (RequestSchema.blood_group r)
                  (UserSchema.blood_type user)
                && String.eqb (RequestSchema.status r) "Pending") ;;
         ret (sendResponse true (Text "Pending matching requests")
                (Some pendingRequests) 200)
     end)
    internal_error.

Definition get_donors_requests (req_user : Auth.user)
    : Handler (list RequestSchema.doc) :=
  restrictTo ["donor"] req_user (pendingMatchingRequests req_user).

(** [GET /donors/history] *)
Definition getHistory (req_user : Auth.user)
    : Handler (list DonorSchema.log_entry) :=
  try_catch
    (donor <-
       Donor.findOne
         (fun d => Nat.eqb (DonorSchema.user_id d) (Auth.id req_user)) ;;
     match donor with
     | None => ret (sendResponse false (Text "Donor not found") None 404)
     | Some donor =>
         ret (sendResponse true (Text "Donation history fetched")
                (Some (DonorSchema.donation_log donor)) 200)
     end)
    internal_error.

Definition get_donors_history (req_user : Auth.user)
    : Handler (list DonorSchema.log_entry) :=
  restrictTo ["donor"] req_user (getHistory req_user).

(** ** Notifications: marking read, broadcasting *)

(** [PUT /notifications/read/:id], open to every authenticated role. *)
Definition markNotificationRead (id : option ObjectId) : Handler unit :=
  try_catch
    (Notifications.findByIdAndUpdate id marked_read ;;;
     ret (sendResponse true (Text "Notification marked as read") None 200))
    internal_error.

(** [POST /admin/notifications] *)
Definition createNotification (now : Z) (title message role : option string)
    : Handler NotificationSchema.doc :=
  let role := default "all" role in
  try_catch
    (newNotification <- Notifications.create now title message role ;;
     ret (sendResponse true (Text "Notification created")
            (Some newNotification) 201))
    internal_error.

Definition post_admin_notifications (now : Z) (req_user : Auth.user)
    (title message role : option string) : Handler NotificationSchema.doc :=
  restrictTo ["admin"] req_user (createNotification now title message role).

(** ** Administration *)

(** A user document without [password_hash] ([.select("-password_hash")]). *)
Record UserView := mkUserView {
  v_id : ObjectId;
  v_full_name : string;
  v_email : string;
  v_phone : string;
  v_role : string;
  v_blood_type : string;
  v_region : option string
}.

Definition without_password_hash (u : UserSchema.doc) : UserView :=
  mkUserView (UserSchema._id u) (UserSchema.full_name u) (UserSchema.email u)
    (UserSchema.phone u) (UserSchema.role u) (UserSchema.blood_type u)
    (UserSchema.region u).

Record UsersPage := mkUsersPage {
  page_users : list UserView;
  totalPages : nat;
  currentPage : nat
}.

(** [Math.ceil(count / limit)] for a positive [limit]. *)
Definition ceil_div (count limit : nat) : nat := (count + limit - 1) / limit.

(** [GET /admin/users] with [page] and [limit] positive integers (the
    defaults are 1 and 10); the query skips [(page - 1) * limit] users and
    then takes [limit * 1] of them. *)
Definition listUsers (page limit : positive) (role : option string)
    : Handler UsersPage :=
  let page := Pos.to_nat page in
  let limit := Pos.to_nat limit in
  let query (u : UserSchema.doc) :=
    if truthy role then String.eqb (UserSchema.role u) (or_else role "")
    else true in
  try_catch
    (found <- User.find query ;;
     let users :=
       map without_password_hash
         (take (limit * 1) (drop ((page - 1) * limit) found)) in
     count <- Users.countDocuments query ;;
     ret (sendResponse true (Text "Users list")
            (Some (mkUsersPage users (ceil_div count limit) page)) 200))
    internal_error.

Definition get_admin_users (req_user : Auth.user) (page limit : positive)
    (role : option string) : Handler UsersPage :=
  restrictTo ["admin"] req_user (listUsers page limit role).

(** [PUT /admin/users/:id] with a [role] in the body. *)
Definition updateUserRole (id : option ObjectId) (role : string)
    : Handler UserView :=
  try_catch
    (user <- Users.findByIdAndUpdate id (with_role role) ;;
     ret (sendResponse true (Text "User updated")
            (without_password_hash <$> user) 200))
    internal_error.

Definition put_admin_users (req_user : Auth.user) (id : option ObjectId)
    (role : string) : Handler UserView :=
  restrictTo ["admin"] req_user (updateUserRole id role).

(** [DELETE /admin/users/:id] *)
Definition deleteUser (id : option ObjectId) : Handler unit :=
  try_catch
    (Users.findByIdAndDelete id ;;;
     Donors.deleteOne_by_user id ;;;
     ret (sendResponse true (Text "User deleted") None 200))
    internal_error.

Definition delete_admin_users (req_user : Auth.user) (id : option ObjectId)
    : Handler unit :=
  restrictTo ["admin"] req_user (deleteUser id).

(** [PUT /admin/donors/:id/verify] *)
Definition verifyDonor (id : option ObjectId) : Handler DonorSchema.doc :=
  try_catch
    (donor <- Donors.findOneAndUpdate_by_user id (with_reputation 10) ;;
     ret (sendResponse true (Text "Donor verified (reputation updated)")
            donor 200))
    internal_error.

Definition put_admin_donors_verify (req_user : Auth.user)
    (id : option ObjectId) : Handler DonorSchema.doc :=
  restrictTo ["admin"] req_user (verifyDonor id).

(** [PUT /admin/requests/:id/status] with a [status] in the body: written
    as it is, without the schema's validators. *)
Definition overrideRequestStatus (id : option ObjectId) (status : string)
    : Handler RequestSchema.doc :=
  try_catch
    (request <-
       Requests.findByIdAndUpdate id (RequestSchema.set_status status) ;;
     ret (sendResponse true (Text "Request status updated") request 200))
    internal_error.

Definition put_admin_requests_status (req_user : Auth.user)
    (id : option ObjectId) (status : string) : Handler RequestSchema.doc :=
  restrictTo ["admin"] req_user (overrideRequestStatus id status).

(** ** Notions used in the statements about these routes *)

(** The object [register] hands to [User.create], and the document that
    comes of it. *)
Definition register_fields (body : RegisterBody) (password_hash : string)
    : Users.fields :=
  Users.mk_fields (reg_full_name body) (reg_email body) (reg_phone body)
    password_hash (default "user" (reg_role body))
    (or_else (reg_blood_type body) "")
    (if negb (String.eqb (default "user" (reg_role body)) "admin")
        && truthy (reg_region body)
     then reg_region body else None).

Definition created_user (f : Users.fields) (id : ObjectId) : UserSchema.doc :=
  UserSchema.mk id (or_else (Users.f_full_name f) "")
    (or_else (Users.f_email f) "") (or_else (Users.f_phone f) "")
    (Users.f_password_hash f) (Users.f_role f) (Users.f_blood_type f)
    (Users.f_region f).

Definition default_profile (id user : ObjectId) : DonorSchema.doc :=
  DonorSchema.mk id user true None 5 [].

Definition auth_view (u : UserSchema.doc) : AuthUser :=
  mkAuthUser (UserSchema._id u) (UserSchema.role u) (UserSchema.full_name u)
    (UserSchema.phone u) (UserSchema.region u).

Definition invalid_credentials : Response AuthData :=
  sendResponse false (Text "Invalid credentials") None 401.

(** The object [seedAdmin] hands to [User.create]. *)
Definition admin_fields (name email : option string) (password_hash : string)
    : Users.fields :=
  Users.mk_fields name email (Some "0000000000") password_hash "admin" "O+"
    None.

(** The log entry [recordDonation] pushes. *)
Definition donation_entry (now : Z) (units : Z) (notes : option string)
    : DonorSchema.log_entry :=
  DonorSchema.mk_entry now units
    (or_else (Some (default "" notes)) "Recorded via dashboard").

Definition forbidden {A} : Response A :=
  mkResponse 403 false (Text "Forbidden: You do not have permission") None.

(** A string without a space character. *)
Fixpoint spaceless (s : string) : Prop :=
  match s with
  | EmptyString => True
  | String c rest => c ≠ " "%char ∧ spaceless rest
  end.

(** The sum the dashboard reports. *)
Definition inventory_total (s : Store) : Z :=
  fold_right Z.add 0%Z
    (map BloodInventorySchema.available_units (bloodinventories s)).

(** The users [GET /admin/users] selects, before paging. *)
Definition listed (role : option string) (s : Store) : list UserSchema.doc :=
  coll_find
    (λ u, if truthy role
          then String.eqb (UserSchema.role u) (or_else role "") else true)
    (users s).

(** The users of one page of [GET /admin/users], as answered. *)
Definition users_of_page (page limit : nat) (role : option string)
    (s : Store) : list UserView :=
  match data (fst (listUsers (Pos.of_nat page) (Pos.of_nat limit) role s)) with
  | Some answer => page_users answer
  | None => []
  end.

(** A run of status updates on one request, one after the other: the
    answers in order, and the store at the end. *)
Fixpoint update_statuses (actor : Auth.user) (id : ObjectId)
    (statuses : list string) (s : Store)
    : list (Response RequestSchema.doc) * Store :=
  match statuses with
  | [] => ([], s)
  | status :: rest =>
      let (r, s1) := updateRequestStatus actor (Some id) (Some status) s in
      let (answers, s2) := update_statuses actor id rest s1 in
      (r :: answers, s2)
  end.

(** ** Sample credentials and registrations *)

Module Desk.
(** Stand-ins for bcrypt and jsonwebtoken in the sample runs: a hash is
    the password behind a fixed prefix, a token names the role it was
    signed for, and one token verifies. *)
Definition hashPassword (password : option string) : Outcome string :=
  match password with
  | Some p => Ok ("$2b$10$" ++ p)%string
  | None => Throw TypeError
  end.

Definition comparePassword (password : option string) (hash : string)
    : Outcome bool :=
  match password with
  | Some p => Ok (String.eqb ("$2b$10$" ++ p) hash)
  | None => Throw TypeError
  end.

Definition generateToken (payload : Auth.user) : Outcome string :=
  Ok ("signed." ++ Auth.role payload)%string.

Definition jwt_verify (tok : string) : Outcome Auth.user :=
  if String.eqb tok "ann.token" then Ok Sample.as_ann else Throw SyntaxError.

Definition dora : RegisterBody :=
  mkRegisterBody (Some "Dora") (Some "dora@mail") (Some "555")
    (Some "secret") (Some "donor") (Some "B+") (Some "West").

Definition ann_again : RegisterBody :=
  mkRegisterBody (Some "Ann") (Some "ann@mail") (Some "111")
    (Some "secret") None (Some "O+") (Some "North").

Definition no_phone : RegisterBody :=
  mkRegisterBody (Some "Dora") (Some "dora@mail") None
    (Some "secret") (Some "donor") (Some "B+") (Some "West").

(** The answer to Dora's registration on the sample store, and the store
    after it. *)
Definition dora_answer : Response AuthData :=
  fst (register hashPassword generateToken dora Sample.store).

Definition with_dora : Store :=
  snd (register hashPassword generateToken dora Sample.store).

Definition drive : NotificationSchema.doc :=
  NotificationSchema.mk 40 "Drive" "Come on Sunday" "all" None false 5.

(** A store whose only Donor profile belongs to no stored user. *)
Definition orphaned : Store :=
  mkStore [] [Sample.ann_profile] [] [] [] 50.
End Desk.

(** * Properties of the handlers *)

(** ** Middleware *)

Lemma restrictTo_allowed {A} (roles : list string) (req_user : Auth.user)
    (next : Handler A) :
  Auth.role req_user ∈ roles → restrictTo roles req_user next = next.
Proof.
  intros Hin. unfold restrictTo, includes.
  assert (existsb (String.eqb (Auth.role req_user)) roles = true) as ->;
    [|done].
  apply existsb_exists. exists (Auth.role req_user).
  split; [by apply list_elem_of_In|apply String.eqb_refl].
Qed.

Lemma restrictTo_denied {A} (roles : list string) (req_user : Auth.user)
    (next : Handler A) (s : Store) :
  Auth.role req_user ∉ roles →
  ∃ r, restrictTo roles req_user next s = (r, s) ∧ http_status r = 403.
Proof.
  intros Hout. unfold restrictTo, includes.
  assert (existsb (String.eqb (Auth.role req_user)) roles = false) as ->.
  { destruct (existsb _ roles) eqn:Hex; [|done]. exfalso. apply Hout.
    apply existsb_exists in Hex as (x & Hx & Heq).
    apply String.eqb_eq in Heq. subst x. by apply list_elem_of_In. }
  by eexists.
Qed.

(** ** Booleans of the embedding against the propositions they decide *)

Lemma includes_elem_of (l : list string) (x : string) :
  includes l x = true ↔ x ∈ l.
Proof.
  unfold includes. rewrite existsb_exists. split.
  - intros (y & Hy & Heq). apply String.eqb_eq in Heq. subst y.
    by apply list_elem_of_In.
  - intros Hx. exists x. split; [by apply list_elem_of_In|].
    apply String.eqb_refl.
Qed.

Lemma includes_false (l : list string) (x : string) :
  includes l x = false ↔ x ∉ l.
Proof.
  rewrite <- includes_elem_of. destruct (includes l x); naive_solver.
Qed.

Lemma truthy_true (x : option string) :
  truthy x = true ↔ ∃ s, x = Some s ∧ s ≠ "".
Proof.
  destruct x as [s|]; simpl.
  - rewrite negb_true_iff, String.eqb_neq. split.
    + intros Hs. by exists s.
    + by intros (s' & [= <-] & Hs).
  - split; [done|]. by intros (s & ? & _).
Qed.

Lemma truthy_false (x : option string) :
  truthy x = false ↔ x = None ∨ x = Some "".
Proof.
  destruct x as [s|]; simpl.
  - rewrite negb_false_iff, String.eqb_eq. split.
    + intros ->. by right.
    + by intros [|[= ->]].
  - split; [by left|done].
Qed.

Lemma or_else_Some (s d : string) : s ≠ "" → or_else (Some s) d = s.
Proof.
  intros Hs. simpl. apply String.eqb_neq in Hs. by rewrite Hs.
Qed.

Lemma opt_string_eqb_eq (a b : option string) :
  opt_string_eqb a b = true ↔ a = b.
Proof.
  destruct a as [x|], b as [y|]; simpl; try naive_solver.
  rewrite String.eqb_eq. naive_solver.
Qed.

Lemma Is_true_true (b : bool) : Is_true b ↔ b = true.
Proof. destruct b; simpl; naive_solver. Qed.

(** ** Collections *)

Section collection_facts.
Context {D : Type} `{Document D}.
Implicit Types (c : list D) (d : D) (q : D → bool).

Lemma coll_findOne_Some q c i d :
  coll_findOne q c = Some (i, d) ↔
  c !! i = Some d ∧ q d = true ∧
  ∀ j y, c !! j = Some y → j < i → q y = false.
Proof.
  unfold coll_findOne. rewrite list_find_Some.
  rewrite Is_true_true. split.
  - intros (? & ? & Hmin). split_and!; [done..|].
    intros j y Hj Hlt. specialize (Hmin j y Hj Hlt).
    rewrite Is_true_true in Hmin. by destruct (q y).
  - intros (? & ? & Hmin). split_and!; [done..|].
    intros j y Hj Hlt. rewrite Is_true_true.
    by rewrite (Hmin j y Hj Hlt).
Qed.

Lemma coll_findOne_None q c :
  coll_findOne q c = None ↔ ∀ d, d ∈ c → q d = false.
Proof.
  unfold coll_findOne. rewrite list_find_None, Forall_forall.
  split; intros Hall d Hd; specialize (Hall d Hd);
    rewrite Is_true_true in *; by destruct (q d).
Qed.

Lemma coll_findOne_elem_of q c i d :
  coll_findOne q c = Some (i, d) → d ∈ c ∧ q d = true.
Proof.
  intros (Hi & Hq & _)%coll_findOne_Some. split; [|done].
  by eapply list_elem_of_lookup_2.
Qed.

(** Writing a document that still matches over the first match keeps it
    the first match. *)
Lemma coll_findOne_insert q c i d d' :
  coll_findOne q c = Some (i, d) → q d' = true →
  coll_findOne q (<[i := d']> c) = Some (i, d').
Proof.
  intros (Hi & Hq & Hmin)%coll_findOne_Some Hq'.
  apply coll_findOne_Some. split_and!; [|done|].
  - apply list_lookup_insert_eq. by eapply lookup_lt_Some.
  - intros j y Hj Hlt. rewrite list_lookup_insert_ne in Hj by lia. eauto.
Qed.

(** A write at an earlier position of a document that matches makes that
    position the first match. *)
Lemma coll_findOne_insert_before q c i j d d' :
  coll_findOne q c = Some (i, d) → j ≤ i → q d' = true →
  coll_findOne q (<[j := d']> c) = Some (j, d').
Proof.
  intros (Hi & Hq & Hmin)%coll_findOne_Some Hle Hq'.
  apply coll_findOne_Some. split_and!; [|done|].
  - apply list_lookup_insert_eq. apply lookup_lt_Some in Hi. lia.
  - intros k y Hk Hlt. rewrite list_lookup_insert_ne in Hk by lia.
    apply (Hmin k y Hk). lia.
Qed.

(** A write that neither removes nor adds a match leaves the query's
    answer alone. *)
Lemma coll_findOne_insert_other q c j d d' :
  c !! j = Some d → q d = false → q d' = false →
  coll_findOne q (<[j := d']> c) = coll_findOne q c.
Proof.
  unfold coll_findOne. revert j.
  induction c as [|x c IH]; intros j Hj Hq Hq'; [done|].
  destruct j as [|j]; simplify_eq/=.
  - rewrite !decide_False by (rewrite Is_true_true; congruence). done.
  - case_decide; [done|]. by rewrite (IH j).
Qed.

Lemma coll_save_found q c i d d' :
  coll_findOne q c = Some (i, d) → doc_id d' = doc_id d → q d' = true →
  ∃ j, j ≤ i ∧ coll_save d' c = Some (<[j := d']> c) ∧
       coll_findOne q (<[j := d']> c) = Some (j, d').
Proof.
  intros Hfind Hid Hq'. unfold coll_save, coll_findById.
  pose proof Hfind as (Hi & Hq & Hmin)%coll_findOne_Some.
  destruct (coll_findOne (has_id (doc_id d')) c) as [[j d0]|] eqn:Hby.
  - exists j. apply coll_findOne_Some in Hby as (Hj & _ & Hfirst).
    assert (j ≤ i) as Hle.
    { destruct (decide (j ≤ i)) as [|Hgt]; [done|].
      assert (has_id (doc_id d') d = false) as Hno
        by (apply (Hfirst i d Hi); lia).
      unfold has_id in Hno. rewrite Hid, Nat.eqb_refl in Hno. done. }
    split_and!; [done..|]. by eapply coll_findOne_insert_before.
  - rewrite coll_findOne_None in Hby.
    assert (has_id (doc_id d') d = false) as Hno.
    { apply Hby. by eapply list_elem_of_lookup_2. }
    unfold has_id in Hno. rewrite Hid, Nat.eqb_refl in Hno. done.
Qed.

Lemma coll_save_by_id c id i d d' :
  coll_findById id c = Some (i, d) → doc_id d' = id →
  coll_save d' c = Some (<[i := d']> c) ∧
  coll_findById id (<[i := d']> c) = Some (i, d').
Proof.
  intros Hfind Hid. unfold coll_save. rewrite Hid, Hfind. split; [done|].
  unfold coll_findById in *. eapply coll_findOne_insert; [done|].
  unfold has_id. rewrite Hid. apply Nat.eqb_refl.
Qed.

Lemma coll_findById_insert_other c id id' i d d' :
  coll_findById id c = Some (i, d) → doc_id d' = id → id' ≠ id →
  coll_findById id' (<[i := d']> c) = coll_findById id' c.
Proof.
  intros (Hi & Hq & _)%coll_findOne_Some Hid Hne.
  unfold coll_findById. eapply coll_findOne_insert_other; [done|..];
    unfold has_id in *; apply Nat.eqb_eq in Hq;
    apply Nat.eqb_neq; congruence.
Qed.

Lemma coll_find_elem_of q c d : d ∈ coll_find q c ↔ q d = true ∧ d ∈ c.
Proof.
  unfold coll_find. rewrite list_elem_of_filter. by rewrite Is_true_true.
Qed.
End collection_facts.

(** ** Availability *)

Lemma strict_true_or_string (v : jsval) :
  strict_eq_true v || strict_eq_str v "true" = true ↔
  v = JBool true ∨ v = JString "true".
Proof.
  destruct v as [| |[]|n|s|l|l]; simpl; try (split; [done|by intros [|]]).
  - split; [by left|done].
  - rewrite String.eqb_eq. split; [intros ->; by right|by intros [|[= ->]]].
Qed.

(** C10.  setAvailability never answers 400, whatever JSON value is sent
    for [availability] (absent included).  When the caller has a Donor
    document, the answer is 200 and the stored flag is true exactly when the
    value is boolean [true] or the string ["true"], every other field of
    the document and the rest of the store staying as they were; when the
    caller has none, the answer is 404 and the store is unchanged, and 404
    is answered in no other case. *)
Theorem setAvailability_coerces_input
    (req_user : Auth.user) (v : jsval) (s : Store) :
  ∃ r s',
    setAvailability req_user v s = (r, s') ∧
    http_status r ≠ 400 ∧
    (http_status r = 404
     ↔ coll_findOne (own_profile req_user) (donors s) = None) ∧
    match coll_findOne (own_profile req_user) (donors s) with
    | Some (i, d) =>
        ∃ b : bool,
          (b = true ↔ v = JBool true ∨ v = JString "true") ∧
          http_status r = 200 ∧ success r = true ∧ data r = Some b ∧
          s' = set_donors
                 (<[i := DonorSchema.set_availability b d]> (donors s)) s ∧
          coll_findOne (own_profile req_user) (donors s')
          = Some (i, DonorSchema.set_availability b d)
    | None => success r = false ∧ s' = s
    end.
Proof.
  set (own := own_profile req_user).
  unfold setAvailability, try_catch, bind, Donor.findOneAndUpdate.
  change (λ d, Nat.eqb (DonorSchema.user_id d) (Auth.id req_user)) with own.
  destruct (coll_findOne own (donors s)) as [[i d]|] eqn:Hfind.
  - eexists _, _. split; [reflexivity|]. simpl.
    split_and!; [done|split; done|].
    exists (strict_eq_true v || strict_eq_str v "true").
    split_and!; [apply strict_true_or_string|done..|].
    eapply coll_findOne_insert; [done|].
    apply coll_findOne_elem_of in Hfind as [_ Hown]. exact Hown.
  - eexists _, _. split; [reflexivity|]. simpl. by split_and!.
Qed.

(** ** Status updates *)

Lemma empty_not_valid_status : "" ∉ validStatuses.
Proof. by apply includes_false. Qed.

Lemma updateRequestStatus_invalid req_user id status s :
  status = None ∨ (∃ x, status = Some x ∧ x ∉ validStatuses) →
  updateRequestStatus req_user id status s = (invalid_status_response, s).
Proof.
  intros Hbad. unfold updateRequestStatus.
  assert (negb (truthy status)
          || negb (includes validStatuses (or_else status "")) = true)
    as ->; [|done].
  destruct Hbad as [->|(x & -> & Hx)]; [done|].
  destruct (decide (x = "")) as [->|Hne]; [done|].
  rewrite (or_else_Some x "" Hne).
  apply includes_false in Hx. rewrite Hx. apply orb_true_r.
Qed.

Lemma updateRequestStatus_valid_guard status x :
  status = Some x → x ∈ validStatuses →
  negb (truthy status) || negb (includes validStatuses (or_else status ""))
  = false ∧ or_else status "" = x.
Proof.
  intros -> Hx.
  assert (x ≠ "") as Hne.
  { intros ->. by apply empty_not_valid_status. }
  rewrite (or_else_Some x "" Hne).
  apply includes_elem_of in Hx. rewrite Hx.
  assert (truthy (Some x) = true) as -> by (apply truthy_true; eauto).
  done.
Qed.

Lemma updateRequestStatus_missing req_user i x s :
  x ∈ validStatuses → coll_findById i (requests s) = None →
  updateRequestStatus req_user (Some i) (Some x) s
  = (sendResponse false (Text "Request not found") None 404, s).
Proof.
  intros Hx Hnone. unfold updateRequestStatus.
  destruct (updateRequestStatus_valid_guard (Some x) x eq_refl Hx) as [-> _].
  unfold try_catch, bind, Request.findById, get. by rewrite Hnone.
Qed.

(** What a run of updateRequestStatus can answer, by cases. *)
Lemma updateRequestStatus_cases req_user id status s r s' :
  updateRequestStatus req_user id status s = (r, s') →
  (http_status r = 400 ∧ s' = s ∧
   (status = None ∨ ∃ x, status = Some x ∧ x ∉ validStatuses))
  ∨ (∃ x, status = Some x ∧ x ∈ validStatuses ∧
      ((http_status r = 500 ∧ s' = s)
       ∨ (http_status r = 404 ∧ s' = s ∧
          ∃ i, id = Some i ∧ coll_findById i (requests s) = None)
       ∨ (http_status r = 200 ∧
          ∃ i k d, id = Some i ∧ coll_findById i (requests s) = Some (k, d)))).
Proof.
  unfold updateRequestStatus.
  destruct (negb (truthy status)
            || negb (includes validStatuses (or_else status ""))) eqn:Hguard.
  - intros [= <- <-]. left. split_and!; [done..|].
    apply orb_true_iff in Hguard as [Ht|Hin].
    + apply negb_true_iff, truthy_false in Ht as [-> | ->]; [by left|right].
      exists "". split; [done|]. apply empty_not_valid_status.
    + destruct status as [x|]; [right|by left]. exists x. split; [done|].
      apply negb_true_iff, includes_false in Hin.
      destruct (decide (x = "")) as [->|Hne].
      * apply empty_not_valid_status.
      * by rewrite or_else_Some in Hin.
  - apply orb_false_iff in Hguard as [Ht Hin].
    apply negb_false_iff, truthy_true in Ht as (x & -> & Hne).
    apply negb_false_iff in Hin. rewrite or_else_Some in * by done.
    apply includes_elem_of in Hin.
    intros Hrun. right. exists x. split_and!; [done..|].
    revert Hrun. unfold try_catch, bind, Request.findById.
    destruct id as [i|]; simpl; [|intros [= <- <-]; by left].
    destruct (coll_findById i (requests s)) as [[k d]|] eqn:Hfind; simpl.
    + destruct (String.eqb x "Approved"); simpl.
      * destruct (coll_findById (Auth.id req_user) (users s)) as [[j u]|];
          simpl; [|intros [= <- <-]; by left].
        unfold Request.save.
        destruct (RequestSchema.valid _); [|intros [= <- <-]; by left].
        destruct (coll_save _ _); intros [= <- <-]; [|by left].
        right; right. split; [done|]. by exists i, k, d.
      * unfold Request.save.
        destruct (RequestSchema.valid _); [|intros [= <- <-]; by left].
        destruct (coll_save _ _); intros [= <- <-]; [|by left].
        right; right. split; [done|]. by exists i, k, d.
    + intros [= <- <-]. right; left. split_and!; [done..|]. by exists i.
Qed.

(** C9.  The status is checked before the request is looked up: a missing
    or unknown status is answered 400 whether or not the id names a
    request; a valid status on an id that names no request is answered 404;
    404 is answered in no other case; and both answers leave the store as
    it was. *)
Theorem updateRequestStatus_checks_status_first
    (req_user : Auth.user) (id : option ObjectId) (bad : option string)
    (good : string) (missing : ObjectId) (s : Store) :
  bad = None ∨ (∃ x, bad = Some x ∧ x ∉ validStatuses) →
  good ∈ validStatuses →
  coll_findById missing (requests s) = None →
  (∃ r, updateRequestStatus req_user id bad s = (r, s) ∧
        http_status r = 400 ∧ success r = false)
  ∧ (∃ r, updateRequestStatus req_user (Some missing) (Some good) s = (r, s) ∧
          http_status r = 404 ∧ success r = false)
  ∧ (∀ status r s',
       updateRequestStatus req_user id status s = (r, s') →
       http_status r = 404 →
       s' = s ∧ (∃ x, status = Some x ∧ x ∈ validStatuses) ∧
       ∃ i, id = Some i ∧ coll_findById i (requests s) = None).
Proof.
  intros Hbad Hgood Hmissing. split_and!.
  - eexists. split; [by apply updateRequestStatus_invalid|done].
  - eexists. split; [by apply updateRequestStatus_missing|done].
  - intros status r s' Hrun H404.
    apply updateRequestStatus_cases in Hrun
      as [(H400 & _)|(x & -> & Hx & [(H500 & _)|[(_ & -> & Hid)|(H200 & _)]])];
      try congruence.
    split_and!; [done| |done]. by exists x.
Qed.

Lemma coll_findById_id {D} `{Document D} (c : list D) id k d :
  coll_findById id c = Some (k, d) → doc_id d = id.
Proof.
  intros [_ Hid]%coll_findOne_elem_of. by apply Nat.eqb_eq in Hid.
Qed.

(** A stored request passes validation on save under a valid status when
    its blood group and region pass, whatever [approved_by] holds. *)
Lemma request_valid_with_status d d' x :
  RequestSchema.blood_group d ∈ blood_types →
  RequestSchema.region d ≠ "" →
  x ∈ validStatuses →
  RequestSchema.blood_group d' = RequestSchema.blood_group d →
  RequestSchema.region d' = RequestSchema.region d →
  RequestSchema.valid (RequestSchema.set_status x d') = true.
Proof.
  intros Hbg Hrg Hx Hbg' Hrg'.
  unfold RequestSchema.valid, RequestSchema.set_status.
  cbn [RequestSchema.blood_group RequestSchema.region RequestSchema.status].
  rewrite Hbg', Hrg'.
  apply includes_elem_of in Hbg, Hx. apply String.eqb_neq in Hrg.
  rewrite Hbg, Hrg. exact Hx.
Qed.

Lemma updateRequestStatus_approve req_user i k d j u s :
  RequestSchema.blood_group d ∈ blood_types →
  RequestSchema.region d ≠ "" →
  coll_findById i (requests s) = Some (k, d) →
  coll_findById (Auth.id req_user) (users s) = Some (j, u) →
  let d' :=
    RequestSchema.set_status "Approved"
      (RequestSchema.set_approved_by (approver_of u) d) in
  updateRequestStatus req_user (Some i) (Some "Approved") s
  = (status_updated_response d', set_requests (<[k := d']> (requests s)) s).
Proof.
  intros Hbg Hrg Hreq Husr d'. unfold updateRequestStatus.
  change (negb _ || negb _) with false. cbv iota.
  unfold try_catch, bind, Request.findById, User.findById, get.
  rewrite Hreq. simpl. rewrite Husr. simpl.
  unfold Request.save. fold (approver_of u). fold d'.
  assert (RequestSchema.valid d' = true) as ->.
  { apply (request_valid_with_status d); [done..|by apply includes_elem_of| |];
      done. }
  destruct (coll_save_by_id (requests s) i k d d' Hreq) as [-> _]; [|done].
  by apply coll_findById_id in Hreq.
Qed.

Lemma updateRequestStatus_transition req_user i k d x s :
  RequestSchema.blood_group d ∈ blood_types →
  RequestSchema.region d ≠ "" →
  x ∈ validStatuses → x ≠ "Approved" →
  coll_findById i (requests s) = Some (k, d) →
  let d' := RequestSchema.set_status x d in
  updateRequestStatus req_user (Some i) (Some x) s
  = (status_updated_response d', set_requests (<[k := d']> (requests s)) s).
Proof.
  intros Hbg Hrg Hx Hne Hreq d'. unfold updateRequestStatus.
  destruct (updateRequestStatus_valid_guard (Some x) x eq_refl Hx) as [-> ->].
  unfold try_catch, bind, Request.findById, get.
  rewrite Hreq. simpl. apply String.eqb_neq in Hne. rewrite Hne. simpl.
  unfold Request.save. fold d'.
  assert (RequestSchema.valid d' = true) as ->
    by (by apply (request_valid_with_status d)).
  destruct (coll_save_by_id (requests s) i k d d' Hreq) as [-> _]; [|done].
  by apply coll_findById_id in Hreq.
Qed.

(** C3.  On an existing request (one whose blood group and region pass the
    schema, as every request stored by submitRequest does),
    updateRequestStatus with ["Approved"] by an actor who has a User
    document stores [approved_by] as that document's name and phone; a
    following updateRequestStatus with ["Fulfilled"], by any caller,
    changes the status of that request and nothing else of it:
    [approved_by] and the other stored fields are those left by the
    approval, and every other request is untouched. *)
Theorem approved_by_kept_on_fulfilment
    (actor later : Auth.user) (i : ObjectId) (k : nat)
    (d : RequestSchema.doc) (j : nat) (u : UserSchema.doc) (s : Store) :
  coll_findById i (requests s) = Some (k, d) →
  RequestSchema.blood_group d ∈ blood_types →
  RequestSchema.region d ≠ "" →
  coll_findById (Auth.id actor) (users s) = Some (j, u) →
  ∃ r1 s1 d1 r2 s2 d2,
    updateRequestStatus actor (Some i) (Some "Approved") s = (r1, s1) ∧
    http_status r1 = 200 ∧
    coll_findById i (requests s1) = Some (k, d1) ∧
    RequestSchema.approved_by d1
      = Some (RequestSchema.mk_approver (UserSchema.full_name u)
                (UserSchema.phone u)) ∧
    RequestSchema.status d1 = "Approved" ∧
    updateRequestStatus later (Some i) (Some "Fulfilled") s1 = (r2, s2) ∧
    http_status r2 = 200 ∧
    coll_findById i (requests s2) = Some (k, d2) ∧
    RequestSchema.approved_by d2 = RequestSchema.approved_by d1 ∧
    RequestSchema.status d2 = "Fulfilled" ∧
    d2 = RequestSchema.set_status "Fulfilled" d1 ∧
    ∀ i', i' ≠ i →
      coll_findById i' (requests s2) = coll_findById i' (requests s1).
Proof.
  intros Hreq Hbg Hrg Husr.
  pose proof (coll_findById_id _ _ _ _ Hreq) as Hid.
  set (d1 := RequestSchema.set_status "Approved"
               (RequestSchema.set_approved_by (approver_of u) d)).
  set (s1 := set_requests (<[k := d1]> (requests s)) s).
  assert (coll_findById i (requests s1) = Some (k, d1)) as Hreq1.
  { by apply (coll_save_by_id (requests s) i k d d1 Hreq). }
  set (d2 := RequestSchema.set_status "Fulfilled" d1).
  set (s2 := set_requests (<[k := d2]> (requests s1)) s1).
  exists (status_updated_response d1), s1, d1,
         (status_updated_response d2), s2, d2.
  split_and!; try done.
  - exact (updateRequestStatus_approve actor i k d j u s Hbg Hrg Hreq Husr).
  - apply (updateRequestStatus_transition later i k d1 "Fulfilled" s1);
      [done|done|by apply includes_elem_of|done|done].
  - by apply (coll_save_by_id (requests s1) i k d1 d2 Hreq1).
  - intros i' Hne.
    by apply (coll_findById_insert_other (requests s1) i i' k d1 d2).
Qed.

(** ** Request submission and its fan-out *)

Lemma submitRequest_missing now req_user body s :
  truthy (body_blood_group body) = false ∨ truthy (body_region body) = false →
  submitRequest now req_user body s
  = (sendResponse false (Text "Blood group and region are required") None 400,
     s).
Proof.
  intros Hmiss. unfold submitRequest.
  assert (negb (truthy (body_blood_group body))
          || negb (truthy (body_region body)) = true) as ->; [|done].
  destruct Hmiss as [-> | ->]; [done|apply orb_true_r].
Qed.

Lemma notification_valid G R :
  Notification.valid (matching_request_notification G R) = includes regions R.
Proof. done. Qed.

Lemma forallb_const {A B} (f : B → bool) (y : B) (l : list A) :
  l ≠ [] → forallb f (map (λ _, y) l) = f y.
Proof.
  induction l as [|x [|x' l] IH]; intros Hne; [done|..]; simpl.
  - apply andb_true_r.
  - simpl in IH. rewrite IH by done. by destruct (f y).
Qed.

Lemma submitRequest_present now req_user body G R s :
  body_blood_group body = Some G → G ≠ "" →
  body_region body = Some R → R ≠ "" →
  let d := new_request now req_user G R body s in
  let s1 := with_new_request d s in
  let matching := coll_find (matching_donor G R) (users s) in
  let fs := map (λ _, matching_request_notification G R) matching in
  submitRequest now req_user body s =
    if includes blood_types G
       && includes RequestSchema.statuses (default "Pending" (body_status body))
    then
      if decide (matching = []) then (submitted_response d, s1)
      else if includes regions R then
        (submitted_response d,
         set_next_id (next_id s1 + length fs)
           (set_notifications
              (notifications s
               ++ imap (Notification.of_fields now (next_id s1)) fs)
              s1))
      else (internal_error (ValidationFailed "Notification"), s1)
    else (internal_error (ValidationFailed "Request"), s).
Proof.
  intros HG HGne HR HRne d s1 matching fs. unfold submitRequest.
  rewrite HG, HR.
  assert (truthy (Some G) = true) as -> by (apply truthy_true; eauto).
  assert (truthy (Some R) = true) as -> by (apply truthy_true; eauto).
  cbv [negb orb]. cbv zeta. rewrite !or_else_Some by done.
  unfold try_catch, bind, Request.create. cbv zeta.
  unfold RequestSchema.valid at 1. cbn [RequestSchema.blood_group
    RequestSchema.region RequestSchema.status].
  assert (negb (String.eqb R "") = true) as ->.
  { by apply negb_true_iff, String.eqb_neq. }
  rewrite andb_true_r.
  replace (match body_status body with Some x => x | None => "Pending" end)
    with (default "Pending" (body_status body))
    by (by destruct (body_status body)).
  destruct (includes blood_types G
            && includes RequestSchema.statuses
                 (default "Pending" (body_status body))); [|done].
  fold (new_request now req_user G R body s). fold d.
  fold (with_new_request d s). fold s1.
  unfold User.find, get. cbn [users s1 with_new_request set_next_id set_requests].
  fold matching. fold fs.
  destruct (decide (matching = [])) as [Hnil|Hsome].
  - unfold fs. rewrite Hnil. done.
  - assert (Nat.ltb 0 (length fs) = true) as ->.
    { apply Nat.ltb_lt. unfold fs. rewrite length_map.
      destruct matching; [done|simpl; lia]. }
    unfold Notification.insertMany. unfold fs at 1.
    rewrite forallb_const by done. rewrite notification_valid.
    by destruct (includes regions R).
Qed.

Lemma matching_donor_spec G R u :
  matching_donor G R u = true ↔
  UserSchema.role u = "donor" ∧ UserSchema.blood_type u = G
  ∧ UserSchema.region u = Some R.
Proof.
  unfold matching_donor.
  rewrite !andb_true_iff, !String.eqb_eq, opt_string_eqb_eq. tauto.
Qed.

Lemma coll_find_filter {D} `{Document D} (q : D → bool) (P : D → Prop)
    `{∀ d, Decision (P d)} (c : list D) :
  (∀ d, q d = true ↔ P d) → coll_find q c = filter P c.
Proof.
  intros Hq. unfold coll_find. apply list_filter_iff.
  intros d. by rewrite Is_true_true.
Qed.

(** C1.  A submitRequest for blood group [G] and region [R] that is
    answered with success adds to the notifications exactly one document
    per stored user whose role is ["donor"], whose blood type is [G] and
    whose region is [R]: each with the templated message, role ["donor"]
    and region [R]; when no user matches, the notifications are as they
    were. *)
Theorem submitRequest_notifies_matching_donors
    (now : Z) (req_user : Auth.user) (body : RequestBody) (G R : string)
    (s : Store) (r : Response RequestSchema.doc) (s' : Store) :
  body_blood_group body = Some G →
  body_region body = Some R →
  submitRequest now req_user body s = (r, s') →
  success r = true →
  ∃ created,
    notifications s' = notifications s ++ created ∧
    length created
    = length (filter (λ u, UserSchema.role u = "donor"
                           ∧ UserSchema.blood_type u = G
                           ∧ UserSchema.region u = Some R) (users s)) ∧
    Forall (λ n, NotificationSchema.title n = "New Matching Request"
                 ∧ NotificationSchema.message n
                   = ("A new request for " ++ G
                      ++ " has been posted in your region (" ++ R ++ ").")%string
                 ∧ NotificationSchema.role n = "donor"
                 ∧ NotificationSchema.region n = Some R
                 ∧ NotificationSchema.isRead n = false) created ∧
    ((∀ u, u ∈ users s →
         ¬ (UserSchema.role u = "donor" ∧ UserSchema.blood_type u = G
            ∧ UserSchema.region u = Some R)) →
     created = []).
Proof.
  intros HG HR Hrun Hok.
  destruct (decide (G = "")) as [->|HGne].
  { rewrite submitRequest_missing in Hrun by (left; by rewrite HG).
    by injection Hrun as <- <-. }
  destruct (decide (R = "")) as [->|HRne].
  { rewrite submitRequest_missing in Hrun by (right; by rewrite HR).
    by injection Hrun as <- <-. }
  rewrite (submitRequest_present now req_user body G R s) in Hrun by done.
  rewrite <- (coll_find_filter (matching_donor G R)) by apply matching_donor_spec.
  set (matching := coll_find (matching_donor G R) (users s)) in *.
  assert (∀ created : list NotificationSchema.doc,
    (matching = [] → created = []) →
    ((∀ u, u ∈ users s →
         ¬ (UserSchema.role u = "donor" ∧ UserSchema.blood_type u = G
            ∧ UserSchema.region u = Some R)) →
     created = [])) as Hnone.
  { intros created Hc Hno. apply Hc.
    destruct matching as [|u l] eqn:Hm; [done|]. exfalso.
    assert (u ∈ matching) as Hu by (rewrite Hm; left).
    apply coll_find_elem_of in Hu as [Hq Hu].
    apply (Hno u Hu). by apply matching_donor_spec. }
  destruct (_ && _); [|by injection Hrun as <- <-].
  destruct (decide (matching = [])) as [Hnil|Hsome].
  - injection Hrun as <- <-. exists []. rewrite Hnil.
    split_and!; [by rewrite app_nil_r|done|done|done].
  - destruct (includes regions R); [|by injection Hrun as <- <-].
    injection Hrun as <- <-. eexists. split; [reflexivity|].
    split_and!.
    + by rewrite length_imap, length_map.
    + apply Forall_forall. intros n Hn.
      apply elem_of_lookup_imap in Hn as (ix & f & -> & Hf).
      apply list_elem_of_lookup_2, list_elem_of_fmap in Hf as (u & -> & _).
      done.
    + apply Hnone. intros Hnil. by rewrite Hnil in Hsome.
Qed.

(** C5, as stated, fails.  A status outside the schema's enum, or a blood
    group outside it, makes [Request.create] throw: the answer is 500 and
    no request is stored, although blood group and region are both
    present. *)
Lemma submitRequest_unlisted_status_stores_nothing :
  (http_status
     (fst (submitRequest 0 Sample.as_bob Sample.unlisted_status Sample.empty))
   = 500
   ∧ requests
       (snd (submitRequest 0 Sample.as_bob Sample.unlisted_status Sample.empty))
     = [])
  ∧ (http_status
       (fst (submitRequest 0 Sample.as_bob Sample.unlisted_group Sample.empty))
     = 500
     ∧ requests
         (snd (submitRequest 0 Sample.as_bob Sample.unlisted_group
                 Sample.empty))
       = []).
Proof. done. Qed.

(** C5, amended.  submitRequest answers 400 and stores nothing when blood
    group or region is missing (or empty).  When both are present, the
    blood group is one of the schema's eight and a supplied status is one
    of the schema's four, it stores one new request, whose status is
    ["Pending"] when the caller supplies none and the supplied status when
    the caller supplies one. *)
Theorem submitRequest_status_default_or_supplied
    (now : Z) (req_user : Auth.user) (absent body : RequestBody)
    (G R : string) (s : Store) :
  truthy (body_blood_group absent) = false
  ∨ truthy (body_region absent) = false →
  body_blood_group body = Some G → G ∈ blood_types →
  body_region body = Some R → R ≠ "" →
  (∀ st, body_status body = Some st → st ∈ RequestSchema.statuses) →
  (∃ r, submitRequest now req_user absent s = (r, s)
        ∧ http_status r = 400 ∧ success r = false)
  ∧ ∃ r s' d,
      submitRequest now req_user body s = (r, s') ∧
      requests s' = requests s ++ [d] ∧
      RequestSchema.status d
      = match body_status body with Some st => st | None => "Pending" end ∧
      RequestSchema.requester_id d = Auth.id req_user ∧
      RequestSchema.blood_group d = G ∧
      RequestSchema.region d = R ∧
      RequestSchema.approved_by d = None ∧
      (success r = true → http_status r = 201 ∧ data r = Some d).
Proof.
  intros Habsent HG HGin HR HRne Hst. split.
  { eexists. split; [by apply submitRequest_missing|done]. }
  assert (G ≠ "") as HGne.
  { intros ->. apply includes_elem_of in HGin. done. }
  rewrite (submitRequest_present now req_user body G R s) by done.
  apply includes_elem_of in HGin. rewrite HGin.
  assert (includes RequestSchema.statuses
            (default "Pending" (body_status body)) = true) as ->.
  { destruct (body_status body) as [st|]; [|done].
    apply includes_elem_of. by apply Hst. }
  cbv [andb].
  set (d := new_request now req_user G R body s).
  assert (RequestSchema.status d
          = match body_status body with Some st => st | None => "Pending" end)
    as Hstatus by (unfold d; simpl; by destruct (body_status body)).
  destruct (decide _); [|destruct (includes regions R)];
    eexists _, _, d; (split; [reflexivity|]); by split_and!.
Qed.

(** ** Request listings *)

#[export] Instance request_newer_first_total : Total Request.newer_first.
Proof. intros a b. unfold Request.newer_first. lia. Qed.

#[export] Instance request_newer_first_trans :
  Transitive Request.newer_first.
Proof. intros a b c. unfold Request.newer_first. lia. Qed.

Lemma stored_populate_in s l : RequestSchema.stored <$> populate_in s l = l.
Proof.
  unfold populate_in. induction l as [|d l IH]; [done|].
  simpl. f_equal. exact IH.
Qed.

Lemma listRequests_admin req_user s :
  Auth.role req_user = "admin" →
  listRequests req_user s
  = (requests_response
       (populate_in s
          (Request.sort_newest_first (coll_find (λ _, true) (requests s)))),
     s).
Proof. intros Hrole. unfold listRequests. by rewrite Hrole. Qed.

Lemma listRequests_donor req_user j u rg s :
  Auth.role req_user = "donor" →
  coll_findById (Auth.id req_user) (users s) = Some (j, u) →
  UserSchema.region u = Some rg → rg ≠ "" →
  listRequests req_user s
  = (requests_response
       (populate_in s
          (Request.sort_newest_first
             (coll_find (λ r, String.eqb (RequestSchema.region r) rg)
                (requests s)))),
     s).
Proof.
  intros Hrole Hu Hrg Hne. unfold listRequests. rewrite Hrole.
  change (String.eqb "donor" "admin") with false.
  change (String.eqb "donor" "donor") with true. cbv iota.
  unfold try_catch, bind, User.findById, get. rewrite Hu. simpl.
  rewrite Hrg.
  assert (truthy (Some rg) = true) as -> by (apply truthy_true; eauto).
  by rewrite or_else_Some.
Qed.

Lemma listRequests_self req_user s :
  Auth.role req_user ≠ "admin" → Auth.role req_user ≠ "donor" →
  listRequests req_user s
  = (requests_response
       (populate_in s
          (Request.sort_newest_first
             (coll_find
                (λ r, Nat.eqb (RequestSchema.requester_id r)
                        (Auth.id req_user))
                (requests s)))),
     s).
Proof.
  intros Hadmin Hdonor. unfold listRequests.
  apply String.eqb_neq in Hadmin, Hdonor. by rewrite Hadmin, Hdonor.
Qed.

Lemma listUserRequests_run req_user s :
  listUserRequests req_user s
  = (sendResponse true (Text "Fetched user requests")
       (Some (coll_find
                (λ r, Nat.eqb (RequestSchema.requester_id r)
                        (Auth.id req_user))
                (requests s)))
       200,
     s).
Proof. done. Qed.

Lemma coll_find_all {D} `{Document D} (c : list D) :
  coll_find (λ _, true) c = c.
Proof.
  unfold coll_find. induction c as [|d c IH]; [done|].
  rewrite filter_cons_True by done. by rewrite IH.
Qed.

Lemma sorted_populated s l :
  StronglySorted Request.newer_first
    (RequestSchema.stored <$> populate_in s (Request.sort_newest_first l))
  ∧ RequestSchema.stored <$> populate_in s (Request.sort_newest_first l) ≡ₚ l.
Proof.
  rewrite stored_populate_in. unfold Request.sort_newest_first. split.
  - apply StronglySorted_merge_sort; apply _.
  - apply merge_sort_Permutation.
Qed.

(** C2.  listRequests answers an admin with all requests and a donor with
    the requests of the donor's region, both newest first by creation time;
    the self-scoped user listing ([GET /requests/user]) answers with the
    caller's own requests as the store holds them, in the store's order,
    without sorting. *)
Theorem listings_sorted_except_self_scoped
    (admin donor self : Auth.user) (j : nat) (u : UserSchema.doc)
    (rg : string) (s : Store) :
  Auth.role admin = "admin" →
  Auth.role donor = "donor" →
  coll_findById (Auth.id donor) (users s) = Some (j, u) →
  UserSchema.region u = Some rg → rg ≠ "" →
  (∃ r l, listRequests admin s = (r, s) ∧
          http_status r = 200 ∧ success r = true ∧ data r = Some l ∧
          StronglySorted Request.newer_first (RequestSchema.stored <$> l) ∧
          RequestSchema.stored <$> l ≡ₚ requests s)
  ∧ (∃ r l, listRequests donor s = (r, s) ∧
            http_status r = 200 ∧ success r = true ∧ data r = Some l ∧
            StronglySorted Request.newer_first (RequestSchema.stored <$> l) ∧
            RequestSchema.stored <$> l
            ≡ₚ filter (λ r, RequestSchema.region r = rg) (requests s))
  ∧ (∃ r l, listUserRequests self s = (r, s) ∧
            http_status r = 200 ∧ success r = true ∧ data r = Some l ∧
            l = filter (λ r, RequestSchema.requester_id r = Auth.id self)
                  (requests s) ∧
            l `sublist_of` requests s).
Proof.
  intros Hadmin Hdonor Hu Hrg Hne. split_and!.
  - eexists _, _. split; [by apply listRequests_admin|].
    do 3 (split; [done|]).
    rewrite coll_find_all. apply sorted_populated.
  - eexists _, _. split; [by eapply listRequests_donor|].
    do 3 (split; [done|]).
    rewrite <- (coll_find_filter (λ r, String.eqb (RequestSchema.region r) rg))
      by (intros d; apply String.eqb_eq).
    apply sorted_populated.
  - eexists _, _. split; [apply listUserRequests_run|].
    do 3 (split; [done|]).
    rewrite (coll_find_filter _
               (λ r, RequestSchema.requester_id r = Auth.id self))
      by (intros d; apply Nat.eqb_eq).
    split; [done|]. apply sublist_filter.
Qed.

(** listRequests sorts its own self-scoped branch as well: a caller who is
    neither admin nor donor is answered with the caller's requests newest
    first. *)
Lemma listRequests_own_sorted (req_user : Auth.user) (s : Store) :
  Auth.role req_user ≠ "admin" → Auth.role req_user ≠ "donor" →
  ∃ l, listRequests req_user s = (requests_response l, s) ∧
       StronglySorted Request.newer_first (RequestSchema.stored <$> l) ∧
       RequestSchema.stored <$> l
       ≡ₚ filter (λ r, RequestSchema.requester_id r = Auth.id req_user)
            (requests s).
Proof.
  intros Hadmin Hdonor. eexists. split; [by apply listRequests_self|].
  rewrite <- (coll_find_filter
                (λ r, Nat.eqb (RequestSchema.requester_id r)
                        (Auth.id req_user)))
    by (intros d; apply Nat.eqb_eq).
  apply sorted_populated.
Qed.

(** The asymmetry is observable: with an older request stored before a
    newer one of the same user, the self-scoped listing answers older
    first, and listRequests answers the same user newer first. *)
Example self_scoped_listing_keeps_store_order :
  let older := RequestSchema.mk 1 7 "O+" "North" "" "" "Pending" None 10 in
  let newer := RequestSchema.mk 2 7 "A+" "East" "" "" "Pending" None 20 in
  let s := mkStore [] [] [] [older; newer] [] 3 in
  let caller := Auth.mk 7 "user" in
  data (fst (listUserRequests caller s)) = Some [older; newer]
  ∧ map RequestSchema.stored <$> data (fst (listRequests caller s))
    = Some [newer; older].
Proof. done. Qed.

(** C7.  Every request listRequests answers to a caller whose role is
    ["user"] has that caller as its requester (the stored reference, and
    the populated requester when there is one), and every request it
    answers to a donor whose region is ["East"] has region ["East"]. *)
Theorem listRequests_role_scoped
    (usr donor : Auth.user) (j : nat) (u : UserSchema.doc) (s : Store) :
  Auth.role usr = "user" →
  Auth.role donor = "donor" →
  coll_findById (Auth.id donor) (users s) = Some (j, u) →
  UserSchema.region u = Some "East" →
  (∃ l, listRequests usr s = (requests_response l, s) ∧
        Forall (λ p,
                  RequestSchema.requester_id (RequestSchema.stored p)
                  = Auth.id usr
                  ∧ ∀ q, RequestSchema.requester_of p = Some q →
                         RequestSchema.r_id q = Auth.id usr) l)
  ∧ (∃ l, listRequests donor s = (requests_response l, s) ∧
          Forall (λ p, RequestSchema.region (RequestSchema.stored p) = "East")
            l).
Proof.
  intros Husr Hdonor Hu Hrg. split.
  - eexists. split.
    { apply listRequests_self; rewrite Husr; done. }
    apply Forall_forall. intros p Hp.
    apply list_elem_of_fmap in Hp as (d & -> & Hd). simpl.
    apply list_elem_of_In, (Permutation_in _ (merge_sort_Permutation _ _)),
      list_elem_of_In, coll_find_elem_of in Hd as [Hown _].
    apply Nat.eqb_eq in Hown. split; [done|].
    intros q Hq. apply fmap_Some in Hq as ([k v] & Hfind & ->). simpl.
    apply coll_findById_id in Hfind. unfold doc_id, user_document in Hfind.
    congruence.
  - eexists. split; [by eapply listRequests_donor|].
    apply Forall_forall. intros p Hp.
    apply list_elem_of_fmap in Hp as (d & -> & Hd). simpl.
    apply list_elem_of_In, (Permutation_in _ (merge_sort_Permutation _ _)),
      list_elem_of_In, coll_find_elem_of in Hd as [Hreg _].
    by apply String.eqb_eq in Hreg.
Qed.

(** ** Notification listing *)

#[export] Instance notification_newer_first_total :
  Total Notification.newer_first.
Proof. intros a b. unfold Notification.newer_first. lia. Qed.

#[export] Instance notification_newer_first_trans :
  Transitive Notification.newer_first.
Proof. intros a b c. unfold Notification.newer_first. lia. Qed.

Lemma listNotifications_found req_user j u s :
  coll_findById (Auth.id req_user) (users s) = Some (j, u) →
  listNotifications req_user s
  = (notifications_response
       (Notification.sort_newest_first
          (coll_find (notification_query u) (notifications s))),
     s).
Proof.
  intros Hu. unfold listNotifications, try_catch, bind, User.findById, get.
  by rewrite Hu.
Qed.

Lemma listNotifications_unknown_caller req_user s :
  coll_findById (Auth.id req_user) (users s) = None →
  listNotifications req_user s
  = (sendResponse false (Text "User not found") None 404, s).
Proof.
  intros Hu. unfold listNotifications, try_catch, bind, User.findById, get.
  by rewrite Hu.
Qed.

Lemma notification_query_admin u n :
  UserSchema.role u = "admin" → notification_query u n = true.
Proof. intros Hrole. unfold notification_query. by rewrite Hrole. Qed.

Lemma notification_query_regional_donor u rg n :
  UserSchema.role u = "donor" → UserSchema.region u = Some rg → rg ≠ "" →
  notification_query u n = true ↔
  NotificationSchema.role n = "all"
  ∨ (NotificationSchema.role n = "donor"
     ∧ NotificationSchema.region n = Some rg).
Proof.
  intros Hrole Hrg Hne. unfold notification_query. rewrite Hrole, Hrg.
  assert (truthy (Some rg) = true) as -> by (apply truthy_true; eauto).
  change (String.eqb "donor" "admin") with false.
  change (String.eqb "donor" "donor" && true) with true. cbv iota.
  by rewrite orb_true_iff, andb_true_iff, !String.eqb_eq, opt_string_eqb_eq.
Qed.

Lemma notification_query_other u n :
  UserSchema.role u ≠ "admin" →
  (UserSchema.role u = "donor" →
   UserSchema.region u = None ∨ UserSchema.region u = Some "") →
  notification_query u n = true ↔
  NotificationSchema.role n = "all"
  ∨ (NotificationSchema.role n = UserSchema.role u
     ∧ NotificationSchema.region n = UserSchema.region u).
Proof.
  intros Hadmin Hdonor. unfold notification_query.
  apply String.eqb_neq in Hadmin. rewrite Hadmin.
  assert (String.eqb (UserSchema.role u) "donor"
          && truthy (UserSchema.region u) = false) as ->.
  { destruct (String.eqb_spec (UserSchema.role u) "donor") as [Hd|]; [|done].
    simpl. by apply truthy_false, Hdonor. }
  by rewrite orb_true_iff, andb_true_iff, !String.eqb_eq, opt_string_eqb_eq.
Qed.

(** C6.  listNotifications answers a caller who has a User document with
    notifications newest first; they are all notifications when the
    caller's role is ["admin"]; for a donor with a region, exactly those
    with role ["all"] and those with role ["donor"] and the caller's
    region; for every other caller (a donor without a region included),
    exactly those with role ["all"] and those with the caller's role and
    the caller's region. *)
Theorem listNotifications_visibility
    (req_user : Auth.user) (j : nat) (u : UserSchema.doc) (s : Store) :
  coll_findById (Auth.id req_user) (users s) = Some (j, u) →
  ∃ r l,
    listNotifications req_user s = (r, s) ∧
    http_status r = 200 ∧ success r = true ∧ data r = Some l ∧
    StronglySorted Notification.newer_first l ∧
    (UserSchema.role u = "admin" → l ≡ₚ notifications s) ∧
    (UserSchema.role u = "donor" →
     ∀ rg, UserSchema.region u = Some rg → rg ≠ "" →
       l ≡ₚ filter (λ n, NotificationSchema.role n = "all"
                         ∨ (NotificationSchema.role n = "donor"
                            ∧ NotificationSchema.region n = Some rg))
              (notifications s)) ∧
    (UserSchema.role u ≠ "admin" →
     (UserSchema.role u = "donor" →
      UserSchema.region u = None ∨ UserSchema.region u = Some "") →
     l ≡ₚ filter (λ n, NotificationSchema.role n = "all"
                       ∨ (NotificationSchema.role n = UserSchema.role u
                          ∧ NotificationSchema.region n = UserSchema.region u))
            (notifications s)).
Proof.
  intros Hu. eexists _, _. split; [by eapply listNotifications_found|].
  do 3 (split; [done|]).
  unfold Notification.sort_newest_first. split_and!.
  - apply StronglySorted_merge_sort; apply _.
  - intros Hrole. rewrite merge_sort_Permutation.
    rewrite <- (coll_find_all (notifications s)) at 2.
    unfold coll_find. apply reflexive_eq, list_filter_iff. intros n.
    by rewrite notification_query_admin.
  - intros Hrole rg Hrg Hne. rewrite merge_sort_Permutation.
    apply reflexive_eq, coll_find_filter. intros n.
    by apply notification_query_regional_donor.
  - intros Hadmin Hdonor. rewrite merge_sort_Permutation.
    apply reflexive_eq, coll_find_filter. intros n.
    by apply notification_query_other.
Qed.

(** ** Donor search *)

Lemma mapM_reads {A B} (f : A → M B) (g : A → B) (l : list A) (s : Store) :
  (∀ x, f x s = (Ok (g x), s)) → mapM f l s = (Ok (map g l), s).
Proof.
  intros Hf. induction l as [|x l IH]; [done|].
  simpl. unfold bind. by rewrite Hf, IH.
Qed.

Lemma search_response_data l :
  success (search_response l) = true ∧ http_status (search_response l) = 200
  ∧ data (search_response l) = Some l.
Proof. by destruct l. Qed.

Section donor_search_facts.
Variable RegExp_i : string → option (string → bool).

Lemma searchDonors_query_run (q : UserSchema.doc → bool) s :
  try_catch
    (found <- User.find q ;;
     let users := merge_sort by_full_name found in
     donorsWithAvailability <-
       mapM (fun user =>
               donorData <-
                 Donor.findOne
                   (fun d => Nat.eqb (DonorSchema.user_id d)
                               (UserSchema._id user)) ;;
               ret (with_availability user
                      (DonorSchema.availability <$> donorData)))
            users ;;
     if Nat.eqb (length donorsWithAvailability) 0 then
       ret (sendResponse true (Text "No donors found for given criteria")
              (Some []) 200)
     else
       ret (sendResponse true (Text "Donor search results")
              (Some donorsWithAvailability) 200))
    (fun _ => sendResponse false (Text "Failed to fetch donors") None 500) s
  = (search_response
       (map (λ u, with_availability u (availability_of s u))
          (merge_sort by_full_name (coll_find q (users s)))),
     s).
Proof.
  unfold try_catch, bind at 1, User.find, get. cbv zeta.
  unfold bind at 1.
  rewrite (mapM_reads _ (λ u, with_availability u (availability_of s u)))
    by done.
  unfold search_response. by destruct (Nat.eqb _ 0).
Qed.

Lemma searchDonors_run bt name region s :
  bt ≠ "" →
  (truthy name = true → is_Some (RegExp_i (or_else name ""))) →
  ∃ q : UserSchema.doc → bool,
    searchDonors RegExp_i (Some bt) name region s
    = (search_response
         (map (λ u, with_availability u (availability_of s u))
            (merge_sort by_full_name (coll_find q (users s)))),
       s) ∧
    (∀ u, q u = true →
          UserSchema.role u = "donor" ∧ UserSchema.blood_type u = bt) ∧
    (truthy name = false → truthy region = false →
     ∀ u, UserSchema.role u = "donor" ∧ UserSchema.blood_type u = bt →
          q u = true).
Proof.
  intros Hbt Hname. unfold searchDonors.
  assert (truthy (Some bt) = true) as -> by (apply truthy_true; eauto).
  rewrite or_else_Some by done. cbv zeta iota.
  destruct (truthy region) eqn:Hregion, (truthy name) eqn:Hnm.
  1, 3: destruct (Hname eq_refl) as [test Htest].
  all: eexists; split;
    [unfold try_catch at 1, bind at 1; rewrite ?Htest;
     apply searchDonors_query_run|].
  all: split; [|try done].
  all: try (intros u Hq; rewrite ?andb_true_iff, ?String.eqb_eq in Hq; tauto).
  intros _ _ u [Hrole Hblood].
  by rewrite andb_true_iff, !String.eqb_eq.
Qed.

(** C8.  searchDonors with a blood-type filter (and a name pattern, if
    any, that compiles) answers with success; every element of the answer
    is a stored user whose role is ["donor"] and whose blood type is the
    filter, carrying the availability of that user's Donor document; the
    answer is empty, still with success, when no stored user is a donor
    of that blood type; and with no other filter the answer holds every
    such user once. *)
Theorem searchDonors_by_blood_type
    (bt : string) (name region : option string) (s : Store) :
  bt ≠ "" →
  (truthy name = true → is_Some (RegExp_i (or_else name ""))) →
  ∃ r l,
    searchDonors RegExp_i (Some bt) name region s = (r, s) ∧
    success r = true ∧ http_status r = 200 ∧ data r = Some l ∧
    Forall (λ x, d_role x = "donor" ∧ d_blood_type x = bt
                 ∧ ∃ u, u ∈ users s
                        ∧ d_id x = UserSchema._id u
                        ∧ d_full_name x = UserSchema.full_name u
                        ∧ d_availability x
                          = match coll_findOne
                                    (λ d, Nat.eqb (DonorSchema.user_id d)
                                            (UserSchema._id u))
                                    (donors s) with
                            | Some (_, d) => Some (DonorSchema.availability d)
                            | None => None
                            end) l ∧
    ((∀ u, u ∈ users s →
        ¬ (UserSchema.role u = "donor" ∧ UserSchema.blood_type u = bt)) →
     l = []) ∧
    (truthy name = false → truthy region = false →
     l ≡ₚ map (λ u, with_availability u (availability_of s u))
            (filter (λ u, UserSchema.role u = "donor"
                          ∧ UserSchema.blood_type u = bt) (users s))
     ∧ d_id <$> l
       ≡ₚ UserSchema._id
          <$> filter (λ u, UserSchema.role u = "donor"
                           ∧ UserSchema.blood_type u = bt) (users s)).
Proof.
  intros Hbt Hname.
  destruct (searchDonors_run bt name region s Hbt Hname)
    as (q & Hrun & Hsound & Hcomplete).
  eexists _, _. split; [exact Hrun|].
  destruct (search_response_data
              (map (λ u, with_availability u (availability_of s u))
                 (merge_sort by_full_name (coll_find q (users s)))))
    as (-> & -> & ->).
  split_and!; [done..| | |].
  - apply Forall_forall. intros x Hx.
    apply list_elem_of_fmap in Hx as (u & -> & Hu).
    apply list_elem_of_In, (Permutation_in _ (merge_sort_Permutation _ _)),
      list_elem_of_In, coll_find_elem_of in Hu as [Hq Hu].
    destruct (Hsound u Hq) as [Hrole Hblood].
    split_and!; [done..|]. exists u. split_and!; [done..|].
    cbn [d_availability with_availability]. unfold availability_of.
    by destruct (coll_findOne _ (donors s)) as [[k d]|].
  - intros Hnone.
    destruct (merge_sort by_full_name (coll_find q (users s)))
      as [|u l] eqn:Hsorted; [done|]. exfalso.
    assert (u ∈ merge_sort by_full_name (coll_find q (users s))) as Hu
      by (rewrite Hsorted; left).
    apply list_elem_of_In, (Permutation_in _ (merge_sort_Permutation _ _)),
      list_elem_of_In, coll_find_elem_of in Hu as [Hq Hu].
    by apply (Hnone u Hu), Hsound.
  - intros Hnm Hregion.
    assert (coll_find q (users s)
            = filter (λ u, UserSchema.role u = "donor"
                           ∧ UserSchema.blood_type u = bt) (users s))
      as Hfound.
    { apply coll_find_filter.
      intros u. split; [apply Hsound|by apply Hcomplete]. }
    change (map ?f ?l) with (f <$> l). split.
    + by rewrite merge_sort_Permutation, Hfound.
    + rewrite <- list_fmap_compose.
      by rewrite merge_sort_Permutation, Hfound.
Qed.
End donor_search_facts.

(** ** Donations *)

Lemma bind_run {A B} (m : M A) (k : A → M B) (s s1 : Store) (a : A) :
  m s = (Ok a, s1) → bind m k s = k a s1.
Proof. intros Hm. unfold bind. by rewrite Hm. Qed.

Lemma partial_bind_run {A B} (m : Partial A) (k : A → Partial B)
    (s s1 : Store) (a : A) :
  m s = Some (Ok a, s1) → partial_bind m k s = k a s1.
Proof. intros Hm. unfold partial_bind. by rewrite Hm. Qed.

Lemma whole_run {A} (o : option A) (a : A) (s : Store) :
  o = Some a → whole o s = Some (Ok a, s).
Proof. by intros ->. Qed.

(** A safe integer is a double. *)
Lemma nearest_double_safe (z : Z) :
  isSafeInteger z = true → nearest_double z = Some z.
Proof.
  unfold isSafeInteger, nearest_double. intros Hsafe%Z.ltb_lt. cbv zeta.
  destruct (Z.leb_spec (Z.log2 (Z.abs z) + 1) 53) as [|Hbits]; [done|].
  exfalso.
  destruct (decide (Z.abs z = 0)%Z) as [Hz|Hz].
  - rewrite Hz in Hbits. simpl in Hbits. lia.
  - assert (Z.log2 (Z.abs z) < 53)%Z; [|lia].
    apply Z.log2_lt_pow2; lia.
Qed.

(** Units that are a whole number, or absent, are logged as they are and
    credited exactly, as long as the numbers stay safe integers. *)
Lemma cast_number_safe (units : jsval) (n : Z) :
  units = JNumber n ∨ (units = JUndefined ∧ n = 1%Z) →
  isSafeInteger n = true →
  cast_number (units_or_1 units) = Some n.
Proof.
  intros [-> | [-> ->]] Hsafe; cbn [units_or_1 cast_number];
    by apply nearest_double_safe.
Qed.

Lemma plus_assign_safe (units : jsval) (n available_units : Z) :
  units = JNumber n ∨ (units = JUndefined ∧ n = 1%Z) →
  isSafeInteger n = true →
  isSafeInteger (available_units + n) = true →
  plus_assign available_units (units_or_1 units)
  = Some (available_units + n)%Z.
Proof.
  intros [-> | [-> ->]] Hsafe Hsum; cbn [units_or_1 plus_assign];
    rewrite (nearest_double_safe _ Hsafe); cbn [mbind option_bind];
    by apply nearest_double_safe.
Qed.

Section save_at.
Context {D : Type} `{Document D}.

(** [save] after [findOne]: which stored document is written over. *)
Lemma coll_save_found_at (q : D → bool) (c : list D) i d d' :
  coll_findOne q c = Some (i, d) → doc_id d' = doc_id d → q d' = true →
  ∃ j d0, c !! j = Some d0 ∧ doc_id d0 = doc_id d ∧
          coll_save d' c = Some (<[j := d']> c) ∧
          coll_findOne q (<[j := d']> c) = Some (j, d').
Proof.
  intros Hfind Hid Hq'. unfold coll_save, coll_findById.
  pose proof Hfind as (Hi & Hq & Hmin)%coll_findOne_Some.
  destruct (coll_findOne (has_id (doc_id d')) c) as [[j d0]|] eqn:Hby.
  - exists j, d0.
    pose proof Hby as (Hj & Hid0 & Hfirst)%coll_findOne_Some.
    apply Nat.eqb_eq in Hid0.
    assert (j ≤ i) as Hle.
    { destruct (decide (j ≤ i)) as [|Hgt]; [done|].
      assert (has_id (doc_id d') d = false) as Hno
        by (apply (Hfirst i d Hi); lia).
      unfold has_id in Hno. rewrite Hid, Nat.eqb_refl in Hno. done. }
    split_and!; [done|congruence|done|].
    by eapply coll_findOne_insert_before.
  - rewrite coll_findOne_None in Hby.
    assert (has_id (doc_id d') d = false) as Hno.
    { apply Hby. by eapply list_elem_of_lookup_2. }
    unfold has_id in Hno. rewrite Hid, Nat.eqb_refl in Hno. done.
Qed.

(** With distinct ids, that document is the one that was found. *)
Lemma unique_id_position (c : list D) j k d0 d :
  NoDup (doc_id <$> c) → c !! j = Some d0 → c !! k = Some d →
  doc_id d0 = doc_id d → j = k ∧ d0 = d.
Proof.
  intros Hnodup Hj Hk Hid.
  assert (j = k) as ->.
  { eapply NoDup_lookup; [exact Hnodup|..].
    - rewrite list_lookup_fmap, Hj. reflexivity.
    - rewrite list_lookup_fmap, Hk. simpl. by rewrite Hid. }
  split; [done|congruence].
Qed.
End save_at.

(** The run of recordDonation while everything it needs is there and the
    values it stores are followed. *)
Lemma recordDonation_effect now req_user units notes n i d j u s :
  cast_number (units_or_1 units) = Some n →
  coll_findOne (own_profile req_user) (donors s) = Some (i, d) →
  coll_findById (Auth.id req_user) (users s) = Some (j, u) →
  UserSchema.blood_type u ∈ blood_types →
  (∀ k row,
     coll_findOne (of_blood_type (UserSchema.blood_type u)) (bloodinventories s)
     = Some (k, row) →
     BloodInventorySchema.status row ∈ BloodInventorySchema.statuses
     ∧ is_Some (plus_assign (BloodInventorySchema.available_units row)
                  (units_or_1 units))) →
  let d' :=
    DonorSchema.set_last_donation_date now
      (DonorSchema.push_donation_log (donation_entry now n notes) d) in
  ∃ r s' i' amount,
    recordDonation now req_user units notes s = Some (r, s') ∧
    http_status r = 200 ∧ success r = true ∧
    data r
    = Some (mkDonationData (DonorSchema._id d) (Some now)
              (DonorSchema.donation_log d ++ [donation_entry now n notes])
              (UserSchema.blood_type u) amount) ∧
    users s' = users s ∧ requests s' = requests s ∧
    notifications s' = notifications s ∧
    donors s' = <[i' := d']> (donors s) ∧
    coll_findOne (own_profile req_user) (donors s') = Some (i', d') ∧
    match coll_findOne (of_blood_type (UserSchema.blood_type u))
            (bloodinventories s) with
    | Some (k, row) =>
        plus_assign (BloodInventorySchema.available_units row)
          (units_or_1 units) = Some amount ∧
        ∃ k' row0,
          bloodinventories s !! k' = Some row0 ∧
          doc_id row0 = doc_id row ∧
          bloodinventories s'
          = <[k' := BloodInventorySchema.set_available_units amount row]>
              (bloodinventories s) ∧
          coll_findOne (of_blood_type (UserSchema.blood_type u))
            (bloodinventories s')
          = Some (k', BloodInventorySchema.set_available_units amount row)
    | None =>
        amount = n ∧
        bloodinventories s'
        = bloodinventories s
          ++ [BloodInventorySchema.mk (next_id s) (UserSchema.blood_type u)
                n "Medium"]
    end.
Proof.
  intros Hcast Hd Hu Hbt Hst d'.
  set (own := own_profile req_user) in *.
  set (of_type := of_blood_type (UserSchema.blood_type u)) in *.
  apply includes_elem_of in Hbt.
  assert (own d' = true) as Hown'.
  { apply coll_findOne_elem_of in Hd as [_ Hown]. exact Hown. }
  assert (doc_id d' = doc_id d) as Hid by done.
  destruct (coll_save_found own (donors s) i d d' Hd Hid Hown')
    as (i' & _ & Hsave & Hfound).
  destruct (coll_findOne of_type (bloodinventories s)) as [[k row]|] eqn:Hrow.
  - destruct (Hst k row eq_refl) as [Hstatus [amount Hplus]].
    set (row' := BloodInventorySchema.set_available_units amount row).
    assert (of_type row' = true) as Htype'.
    { apply coll_findOne_elem_of in Hrow as [_ Htype]. exact Htype. }
    assert (doc_id row' = doc_id row) as Hid' by done.
    assert (BloodInventorySchema.blood_type row = UserSchema.blood_type u)
      as Hsame by (by apply String.eqb_eq in Htype').
    assert (BloodInventorySchema.valid row' = true) as Hvalid.
    { unfold BloodInventorySchema.valid, row'.
      cbn [BloodInventorySchema.set_available_units
             BloodInventorySchema.blood_type BloodInventorySchema.status].
      rewrite Hsame, Hbt. by apply includes_elem_of. }
    destruct (coll_save_found_at of_type (bloodinventories s) k row row' Hrow
                Hid' Htype') as (k' & row0 & Hk' & Hid0 & Hsave' & Hfound').
    eexists _, _, i', amount. split.
    { unfold recordDonation, partial_try_catch. cbv zeta.
      erewrite partial_bind_run;
        [|unfold followed, Donor.findOne, get;
          change (λ d, Nat.eqb (DonorSchema.user_id d) (Auth.id req_user))
            with own;
          rewrite Hd; reflexivity].
      cbn [fmap option_fmap option_map snd].
      erewrite partial_bind_run; [|by apply whole_run].
      fold (donation_entry now n notes). fold d'.
      erewrite partial_bind_run;
        [|unfold followed, Donor.save; rewrite Hsave; reflexivity].
      erewrite partial_bind_run;
        [|unfold followed, User.findById, get; cbn [users set_donors];
          rewrite Hu; reflexivity].
      cbn [fmap option_fmap option_map snd].
      change (λ i0, String.eqb (BloodInventorySchema.blood_type i0)
                      (UserSchema.blood_type u))
        with of_type.
      erewrite partial_bind_run;
        [|unfold followed, BloodInventory.findOne, get;
          cbn [bloodinventories set_donors]; rewrite Hrow; reflexivity].
      cbn [fmap option_fmap option_map snd].
      erewrite (partial_bind_run _ _ _ _ row');
        [|erewrite partial_bind_run; [|by apply whole_run]; fold row';
          erewrite partial_bind_run; [reflexivity|];
          unfold followed, BloodInventory.save;
          cbn [bloodinventories set_donors];
          rewrite Hvalid, Hsave'; reflexivity].
      reflexivity. }
    split_and!; try done.
    + cbn [data sendResponse]. do 2 f_equal. exact Hsame.
    + by exists k', row0.
  - eexists _, _, i', n. split.
    { unfold recordDonation, partial_try_catch. cbv zeta.
      erewrite partial_bind_run;
        [|unfold followed, Donor.findOne, get;
          change (λ d, Nat.eqb (DonorSchema.user_id d) (Auth.id req_user))
            with own;
          rewrite Hd; reflexivity].
      cbn [fmap option_fmap option_map snd].
      erewrite partial_bind_run; [|by apply whole_run].
      fold (donation_entry now n notes). fold d'.
      erewrite partial_bind_run;
        [|unfold followed, Donor.save; rewrite Hsave; reflexivity].
      erewrite partial_bind_run;
        [|unfold followed, User.findById, get; cbn [users set_donors];
          rewrite Hu; reflexivity].
      cbn [fmap option_fmap option_map snd].
      change (λ i0, String.eqb (BloodInventorySchema.blood_type i0)
                      (UserSchema.blood_type u))
        with of_type.
      erewrite partial_bind_run;
        [|unfold followed, BloodInventory.findOne, get;
          cbn [bloodinventories set_donors]; rewrite Hrow; reflexivity].
      cbn [fmap option_fmap option_map snd].
      erewrite partial_bind_run;
        [|erewrite partial_bind_run; [|by apply whole_run];
          unfold followed, BloodInventory.create, BloodInventorySchema.valid;
          cbn [BloodInventorySchema.blood_type BloodInventorySchema.status];
          rewrite Hbt; reflexivity].
      reflexivity. }
    by split_and!.
Qed.

(** C4, as amended.  For a donor who has a Donor document (and the User
    document that carries the blood type, with that blood type and the
    status of its inventory row, if any, in the schema's enums),
    recordDonation with [units] a whole number [n] (1 when the body has
    none), where [n] and the amount the row comes to are safe integers,
    answers 200; the donor's document then has exactly one more log entry,
    the last one, with [units = n] and the donation time, and
    [last_donation_date] is that time; the inventory row of the donor's
    blood type has exactly [n] units more than before, or is created with
    [n] units if there was none; the answer reports that log and that
    amount. *)
Theorem recordDonation_credits_inventory
    (now : Z) (req_user : Auth.user) (units : jsval) (n : Z)
    (notes : option string) (i : nat) (d : DonorSchema.doc) (j : nat)
    (u : UserSchema.doc) (s : Store) :
  units = JNumber n ∨ (units = JUndefined ∧ n = 1%Z) →
  isSafeInteger n = true →
  coll_findOne (own_profile req_user) (donors s) = Some (i, d) →
  coll_findById (Auth.id req_user) (users s) = Some (j, u) →
  UserSchema.blood_type u ∈ blood_types →
  (∀ k row,
     coll_findOne (of_blood_type (UserSchema.blood_type u)) (bloodinventories s)
     = Some (k, row) →
     BloodInventorySchema.status row ∈ BloodInventorySchema.statuses
     ∧ isSafeInteger (BloodInventorySchema.available_units row + n) = true) →
  ∃ r s' i' d' e answer,
    recordDonation now req_user units notes s = Some (r, s') ∧
    http_status r = 200 ∧ success r = true ∧ data r = Some answer ∧
    donors s' = <[i' := d']> (donors s) ∧
    coll_findOne (own_profile req_user) (donors s') = Some (i', d') ∧
    DonorSchema.donation_log d' = DonorSchema.donation_log d ++ [e] ∧
    DonorSchema.units e = n ∧ DonorSchema.date e = now ∧
    DonorSchema.last_donation_date d' = Some now ∧
    donor_donation_log answer = DonorSchema.donation_log d' ∧
    match coll_findOne (of_blood_type (UserSchema.blood_type u))
            (bloodinventories s) with
    | Some (k, row) =>
        ∃ k' row',
          bloodinventories s' = <[k' := row']> (bloodinventories s) ∧
          coll_findOne (of_blood_type (UserSchema.blood_type u))
            (bloodinventories s') = Some (k', row') ∧
          BloodInventorySchema.blood_type row'
          = BloodInventorySchema.blood_type row ∧
          BloodInventorySchema.available_units row'
          = (BloodInventorySchema.available_units row + n)%Z ∧
          inventory_available_units answer
          = (BloodInventorySchema.available_units row + n)%Z
    | None =>
        bloodinventories s'
        = bloodinventories s
          ++ [BloodInventorySchema.mk (next_id s) (UserSchema.blood_type u)
                n "Medium"] ∧
        inventory_available_units answer = n
    end.
Proof.
  intros Hunits Hsafe Hd Hu Hbt Hst.
  destruct (recordDonation_effect now req_user units notes n i d j u s)
    as (r & s' & i' & amount & Hrun & Hstatus & Hsuccess & Hdata & _ & _ & _
        & Hdonors & Hfound & Hinv); [by apply cast_number_safe|done..| |].
  { intros k row Hrow. destruct (Hst k row Hrow) as [Hrowstatus Hsum].
    split; [done|]. by rewrite (plus_assign_safe units n). }
  exists r, s', i',
    (DonorSchema.set_last_donation_date now
       (DonorSchema.push_donation_log (donation_entry now n notes) d)),
    (donation_entry now n notes),
    (mkDonationData (DonorSchema._id d) (Some now)
       (DonorSchema.donation_log d ++ [donation_entry now n notes])
       (UserSchema.blood_type u) amount).
  split_and!; [done..|].
  destruct (coll_findOne _ (bloodinventories s)) as [[k row]|] eqn:Hrow.
  - destruct Hinv as (Hplus & k' & row0 & _ & _ & Hrows & Hrow').
    destruct (Hst k row eq_refl) as [_ Hsum].
    rewrite (plus_assign_safe units n) in Hplus by done.
    injection Hplus as <-.
    by exists k',
      (BloodInventorySchema.set_available_units
         (BloodInventorySchema.available_units row + n) row).
  - by destruct Hinv as [-> ->].
Qed.

(** C4 as the specification states it, "by exactly [u] units" for every
    [u], does not hold: the credit is an addition of doubles.  On the
    sample store, where the donor's row holds 4 units, a donation of
    [2 ^ 53 - 1] units is answered 200 and logged with those units, and the
    row then holds [2 ^ 53 + 4] units, one more than 4 units and the
    donation. *)
Lemma recordDonation_large_units_not_exact :
  ∃ r s' k row',
    recordDonation 200 Sample.as_ann (JNumber 9007199254740991) None
      Sample.store = Some (r, s') ∧
    http_status r = 200 ∧ success r = true ∧
    coll_findOne (of_blood_type "O+") (bloodinventories Sample.store)
    = Some (0, Sample.o_positive) ∧
    BloodInventorySchema.available_units Sample.o_positive = 4%Z ∧
    DonorSchema.units
    <$> (coll_findOne (own_profile Sample.as_ann) (donors s')
         ≫= λ p, last (DonorSchema.donation_log (snd p)))
    = Some 9007199254740991%Z ∧
    coll_findOne (of_blood_type "O+") (bloodinventories s') = Some (k, row') ∧
    BloodInventorySchema.available_units row' = 9007199254740996%Z ∧
    BloodInventorySchema.available_units row'
    ≠ (BloodInventorySchema.available_units Sample.o_positive
       + 9007199254740991)%Z.
Proof.
  eexists _, _, _, _. split; [vm_compute; reflexivity|].
  split_and!; try reflexivity. discriminate.
Qed.

(** The same row when the body gives the units as the text ["2"]: the
    entry is logged with 2 units, and [+=] appends the text to the text of
    4, so that the row holds 42 units. *)
Lemma recordDonation_text_units_appended :
  ∃ r s' k row',
    recordDonation 200 Sample.as_ann (JString "2") None Sample.store
    = Some (r, s') ∧
    http_status r = 200 ∧
    DonorSchema.units
    <$> (coll_findOne (own_profile Sample.as_ann) (donors s')
         ≫= λ p, last (DonorSchema.donation_log (snd p)))
    = Some 2%Z ∧
    coll_findOne (of_blood_type "O+") (bloodinventories s') = Some (k, row') ∧
    BloodInventorySchema.available_units row' = 42%Z.
Proof.
  eexists _, _, _, _. split; [vm_compute; reflexivity|].
  by split_and!.
Qed.

(** * The theorems at a sample store *)

Lemma submitRequest_notifies_matching_donors_witness :
  ∃ created,
    notifications
      (snd (submitRequest 100 Sample.as_bob Sample.body Sample.store))
    = notifications Sample.store ++ created ∧
    length created
    = length (filter (λ u, UserSchema.role u = "donor"
                           ∧ UserSchema.blood_type u = "O+"
                           ∧ UserSchema.region u = Some "North")
                (users Sample.store)) ∧
    Forall (λ n, NotificationSchema.title n = "New Matching Request"
                 ∧ NotificationSchema.message n
                   = "A new request for O+ has been posted in your region (North)."
                 ∧ NotificationSchema.role n = "donor"
                 ∧ NotificationSchema.region n = Some "North"
                 ∧ NotificationSchema.isRead n = false) created ∧
    ((∀ u, u ∈ users Sample.store →
         ¬ (UserSchema.role u = "donor" ∧ UserSchema.blood_type u = "O+"
            ∧ UserSchema.region u = Some "North")) →
     created = []).
Proof.
  exact (submitRequest_notifies_matching_donors 100 Sample.as_bob Sample.body
           "O+" "North" Sample.store _ _ eq_refl eq_refl eq_refl eq_refl).
Defined.

Lemma listings_sorted_except_self_scoped_witness :
  (∃ r l, listRequests Sample.as_root Sample.store = (r, Sample.store) ∧
          http_status r = 200 ∧ success r = true ∧ data r = Some l ∧
          StronglySorted Request.newer_first (RequestSchema.stored <$> l) ∧
          RequestSchema.stored <$> l ≡ₚ requests Sample.store)
  ∧ (∃ r l, listRequests Sample.as_eve Sample.store = (r, Sample.store) ∧
            http_status r = 200 ∧ success r = true ∧ data r = Some l ∧
            StronglySorted Request.newer_first (RequestSchema.stored <$> l) ∧
            RequestSchema.stored <$> l
            ≡ₚ filter (λ r, RequestSchema.region r = "East")
                 (requests Sample.store))
  ∧ (∃ r l, listUserRequests Sample.as_bob Sample.store = (r, Sample.store) ∧
            http_status r = 200 ∧ success r = true ∧ data r = Some l ∧
            l = filter (λ r, RequestSchema.requester_id r = 2)
                  (requests Sample.store) ∧
            l `sublist_of` requests Sample.store).
Proof.
  refine (listings_sorted_except_self_scoped Sample.as_root Sample.as_eve
            Sample.as_bob 3 Sample.eve "East" Sample.store
            eq_refl eq_refl eq_refl eq_refl _).
  discriminate.
Defined.

Lemma approved_by_kept_on_fulfilment_witness :
  ∃ r1 s1 d1 r2 s2 d2,
    updateRequestStatus Sample.as_root (Some 30) (Some "Approved") Sample.store
    = (r1, s1) ∧
    http_status r1 = 200 ∧
    coll_findById 30 (requests s1) = Some (0, d1) ∧
    RequestSchema.approved_by d1
      = Some (RequestSchema.mk_approver "Root" "0000000000") ∧
    RequestSchema.status d1 = "Approved" ∧
    updateRequestStatus Sample.as_bob (Some 30) (Some "Fulfilled") s1
    = (r2, s2) ∧
    http_status r2 = 200 ∧
    coll_findById 30 (requests s2) = Some (0, d2) ∧
    RequestSchema.approved_by d2 = RequestSchema.approved_by d1 ∧
    RequestSchema.status d2 = "Fulfilled" ∧
    d2 = RequestSchema.set_status "Fulfilled" d1 ∧
    ∀ i', i' ≠ 30 →
      coll_findById i' (requests s2) = coll_findById i' (requests s1).
Proof.
  refine (approved_by_kept_on_fulfilment Sample.as_root Sample.as_bob 30 0
            Sample.first_request 4 Sample.root Sample.store eq_refl _ _
            eq_refl).
  - by apply includes_elem_of.
  - discriminate.
Defined.

Lemma recordDonation_credits_inventory_witness :
  ∃ r s' i' d' e answer,
    recordDonation 200 Sample.as_ann (JNumber 2) None Sample.store
    = Some (r, s') ∧
    http_status r = 200 ∧ success r = true ∧ data r = Some answer ∧
    donors s' = <[i' := d']> (donors Sample.store) ∧
    coll_findOne (own_profile Sample.as_ann) (donors s') = Some (i', d') ∧
    DonorSchema.donation_log d'
    = DonorSchema.donation_log Sample.ann_profile ++ [e] ∧
    DonorSchema.units e = 2%Z ∧ DonorSchema.date e = 200%Z ∧
    DonorSchema.last_donation_date d' = Some 200%Z ∧
    donor_donation_log answer = DonorSchema.donation_log d' ∧
    match coll_findOne (of_blood_type "O+")
            (bloodinventories Sample.store) with
    | Some (k, row) =>
        ∃ k' row',
          bloodinventories s' = <[k' := row']> (bloodinventories Sample.store) ∧
          coll_findOne (of_blood_type "O+")
            (bloodinventories s') = Some (k', row') ∧
          BloodInventorySchema.blood_type row'
          = BloodInventorySchema.blood_type row ∧
          BloodInventorySchema.available_units row'
          = (BloodInventorySchema.available_units row + 2)%Z ∧
          inventory_available_units answer
          = (BloodInventorySchema.available_units row + 2)%Z
    | None =>
        bloodinventories s'
        = bloodinventories Sample.store
          ++ [BloodInventorySchema.mk (next_id Sample.store) "O+" 2 "Medium"] ∧
        inventory_available_units answer = 2%Z
    end.
Proof.
  refine (recordDonation_credits_inventory 200 Sample.as_ann (JNumber 2) 2
            None 0 Sample.ann_profile 0 Sample.ann Sample.store
            (or_introl eq_refl) eq_refl eq_refl eq_refl _ _).
  - by apply includes_elem_of.
  - intros k row [= <- <-]. split; [by apply includes_elem_of|reflexivity].
Defined.

Lemma submitRequest_status_default_or_supplied_witness :
  (∃ r, submitRequest 100 Sample.as_bob Sample.no_region Sample.store
        = (r, Sample.store)
        ∧ http_status r = 400 ∧ success r = false)
  ∧ ∃ r s' d,
      submitRequest 100 Sample.as_bob Sample.body Sample.store = (r, s') ∧
      requests s' = requests Sample.store ++ [d] ∧
      RequestSchema.status d = "Pending" ∧
      RequestSchema.requester_id d = 2 ∧
      RequestSchema.blood_group d = "O+" ∧
      RequestSchema.region d = "North" ∧
      RequestSchema.approved_by d = None ∧
      (success r = true → http_status r = 201 ∧ data r = Some d).
Proof.
  refine (submitRequest_status_default_or_supplied 100 Sample.as_bob
            Sample.no_region Sample.body "O+" "North" Sample.store
            (or_intror eq_refl) eq_refl _ eq_refl _ _).
  - by apply includes_elem_of.
  - discriminate.
  - discriminate.
Defined.

Lemma listNotifications_visibility_witness :
  ∃ r l,
    listNotifications Sample.as_eve Sample.store = (r, Sample.store) ∧
    http_status r = 200 ∧ success r = true ∧ data r = Some l ∧
    StronglySorted Notification.newer_first l ∧
    (UserSchema.role Sample.eve = "admin" → l ≡ₚ notifications Sample.store) ∧
    (UserSchema.role Sample.eve = "donor" →
     ∀ rg, UserSchema.region Sample.eve = Some rg → rg ≠ "" →
       l ≡ₚ filter (λ n, NotificationSchema.role n = "all"
                         ∨ (NotificationSchema.role n = "donor"
                            ∧ NotificationSchema.region n = Some rg))
              (notifications Sample.store)) ∧
    (UserSchema.role Sample.eve ≠ "admin" →
     (UserSchema.role Sample.eve = "donor" →
      UserSchema.region Sample.eve = None
      ∨ UserSchema.region Sample.eve = Some "") →
     l ≡ₚ filter (λ n, NotificationSchema.role n = "all"
                       ∨ (NotificationSchema.role n = UserSchema.role Sample.eve
                          ∧ NotificationSchema.region n
                            = UserSchema.region Sample.eve))
            (notifications Sample.store)).
Proof.
  exact (listNotifications_visibility Sample.as_eve 3 Sample.eve Sample.store
           eq_refl).
Defined.

Lemma listRequests_role_scoped_witness :
  (∃ l, listRequests Sample.as_bob Sample.store
        = (requests_response l, Sample.store) ∧
        Forall (λ p,
                  RequestSchema.requester_id (RequestSchema.stored p) = 2
                  ∧ ∀ q, RequestSchema.requester_of p = Some q →
                         RequestSchema.r_id q = 2) l)
  ∧ (∃ l, listRequests Sample.as_eve Sample.store
          = (requests_response l, Sample.store) ∧
          Forall (λ p, RequestSchema.region (RequestSchema.stored p) = "East")
            l).
Proof.
  exact (listRequests_role_scoped Sample.as_bob Sample.as_eve 3 Sample.eve
           Sample.store eq_refl eq_refl eq_refl eq_refl).
Defined.

Lemma searchDonors_by_blood_type_witness :
  (∃ r l,
     searchDonors Sample.plain_pattern (Some "O+") None None Sample.store
     = (r, Sample.store) ∧
     success r = true ∧ http_status r = 200 ∧ data r = Some l ∧
     Forall (λ x, d_role x = "donor" ∧ d_blood_type x = "O+"
                  ∧ ∃ u, u ∈ users Sample.store
                         ∧ d_id x = UserSchema._id u
                         ∧ d_full_name x = UserSchema.full_name u
                         ∧ d_availability x
                           = match coll_findOne
                                     (λ d, Nat.eqb (DonorSchema.user_id d)
                                             (UserSchema._id u))
                                     (donors Sample.store) with
                             | Some (_, d) => Some (DonorSchema.availability d)
                             | None => None
                             end) l ∧
     ((∀ u, u ∈ users Sample.store →
         ¬ (UserSchema.role u = "donor" ∧ UserSchema.blood_type u = "O+")) →
      l = []) ∧
     (truthy None = false → truthy None = false →
      l ≡ₚ map (λ u, with_availability u (availability_of Sample.store u))
             (filter (λ u, UserSchema.role u = "donor"
                           ∧ UserSchema.blood_type u = "O+")
                (users Sample.store))
      ∧ d_id <$> l
        ≡ₚ UserSchema._id
           <$> filter (λ u, UserSchema.role u = "donor"
                            ∧ UserSchema.blood_type u = "O+")
                 (users Sample.store)))
  ∧ (∃ r l,
       searchDonors Sample.plain_pattern (Some "O+") (Some "an") None
         Sample.store
       = (r, Sample.store) ∧
       success r = true ∧ http_status r = 200 ∧ data r = Some l ∧
       Forall (λ x, d_role x = "donor" ∧ d_blood_type x = "O+"
                    ∧ ∃ u, u ∈ users Sample.store
                           ∧ d_id x = UserSchema._id u
                           ∧ d_full_name x = UserSchema.full_name u
                           ∧ d_availability x
                             = match coll_findOne
                                       (λ d, Nat.eqb (DonorSchema.user_id d)
                                               (UserSchema._id u))
                                       (donors Sample.store) with
                               | Some (_, d) =>
                                   Some (DonorSchema.availability d)
                               | None => None
                               end) l ∧
       ((∀ u, u ∈ users Sample.store →
           ¬ (UserSchema.role u = "donor" ∧ UserSchema.blood_type u = "O+")) →
        l = []) ∧
       (truthy (Some "an") = false → truthy None = false →
        l ≡ₚ map (λ u, with_availability u (availability_of Sample.store u))
               (filter (λ u, UserSchema.role u = "donor"
                             ∧ UserSchema.blood_type u = "O+")
                  (users Sample.store))
        ∧ d_id <$> l
          ≡ₚ UserSchema._id
             <$> filter (λ u, UserSchema.role u = "donor"
                              ∧ UserSchema.blood_type u = "O+")
                   (users Sample.store))).
Proof.
  split.
  - refine (searchDonors_by_blood_type Sample.plain_pattern "O+" None None
              Sample.store _ _); discriminate.
  - refine (searchDonors_by_blood_type Sample.plain_pattern "O+" (Some "an")
              None Sample.store _ _).
    + discriminate.
    + intros _. by eexists.
Defined.

Lemma updateRequestStatus_checks_status_first_witness :
  (∃ r, updateRequestStatus Sample.as_bob (Some 30) (Some "Done") Sample.store
        = (r, Sample.store) ∧
        http_status r = 400 ∧ success r = false)
  ∧ (∃ r, updateRequestStatus Sample.as_bob (Some 99) (Some "Approved")
            Sample.store
          = (r, Sample.store) ∧
          http_status r = 404 ∧ success r = false)
  ∧ (∀ status r s',
       updateRequestStatus Sample.as_bob (Some 30) status Sample.store
       = (r, s') →
       http_status r = 404 →
       s' = Sample.store ∧ (∃ x, status = Some x ∧ x ∈ validStatuses) ∧
       ∃ i, Some 30 = Some i ∧ coll_findById i (requests Sample.store) = None).
Proof.
  refine (updateRequestStatus_checks_status_first Sample.as_bob (Some 30)
            (Some "Done") "Approved" 99 Sample.store _ _ eq_refl).
  - right. exists "Done". split; [reflexivity|]. by apply includes_false.
  - by apply includes_elem_of.
Defined.

(** * Properties of the further routes *)

(** ** Registration and login *)

Lemma lift_run {A} (o : Outcome A) (s : Store) : lift o s = (o, s).
Proof. done. Qed.

Lemma by_email_spec (e : string) (u : UserSchema.doc) :
  Users.by_email (Some e) u = true ↔ UserSchema.email u = e.
Proof. apply String.eqb_eq. Qed.

Section credentials_facts.
Variable hashPassword : option string → Outcome string.
Variable comparePassword : option string → string → Outcome bool.
Variable generateToken : Auth.user → Outcome string.
Variable jwt_verify : string → Outcome Auth.user.

(** The run of [register] once the four checked fields are present, by
    cases on what it meets on the way. *)
Lemma register_present body s :
  truthy (reg_full_name body) = true → truthy (reg_email body) = true →
  truthy (reg_password body) = true → truthy (reg_blood_type body) = true →
  register hashPassword generateToken body s =
    match coll_findOne (Users.by_email (reg_email body)) (users s) with
    | Some _ =>
        (sendResponse false (Text "User already exists") None 409, s)
    | None =>
        match hashPassword (reg_password body) with
        | Throw e => (internal_error e, s)
        | Ok h =>
            let f := register_fields body h in
            if Users.valid f then
              let d := created_user f (next_id s) in
              let s1 :=
                set_next_id (S (next_id s)) (set_users (users s ++ [d]) s) in
              let s2 :=
                if String.eqb (Users.f_role f) "donor" then
                  set_next_id (S (next_id s1))
                    (set_donors
                       (donors s1
                        ++ [default_profile (next_id s1) (next_id s)])
                       s1)
                else s1 in
              match generateToken (Auth.mk (next_id s) (Users.f_role f)) with
              | Ok t =>
                  (sendResponse true (Text "Registration successful")
                     (Some (mkAuthData t (auth_view d))) 201, s2)
              | Throw e => (internal_error e, s2)
              end
            else (internal_error (ValidationFailed "User"), s)
        end
    end.
Proof.
  intros Hn He Hp Hb. unfold register.
  assert (negb (truthy (reg_full_name body))
          || negb (truthy (reg_email body))
          || negb (truthy (reg_password body))
          || negb (truthy (reg_blood_type body)) = false) as ->
    by (by rewrite Hn, He, Hp, Hb).
  cbv zeta. unfold try_catch.
  unfold bind at 1. unfold Users.findOne, get.
  destruct (coll_findOne _ (users s)) as [[i u]|];
    cbn [fmap option_fmap option_map snd]; [done|].
  unfold bind, lift.
  destruct (hashPassword (reg_password body)) as [h|e]; [|done].
  unfold Users.create. fold (register_fields body h).
  destruct (Users.valid (register_fields body h)); [|done].
  fold (created_user (register_fields body h) (next_id s)).
  cbn [UserSchema._id UserSchema.role created_user].
  change (Users.f_role (register_fields body h))
    with (default "user" (reg_role body)).
  destruct (String.eqb (default "user" (reg_role body)) "donor").
  - unfold Donors.create, ret. by destruct (generateToken _).
  - unfold ret. by destruct (generateToken _).
Qed.

Lemma register_missing body s :
  truthy (reg_full_name body) = false ∨ truthy (reg_email body) = false
  ∨ truthy (reg_password body) = false
  ∨ truthy (reg_blood_type body) = false →
  register hashPassword generateToken body s
  = (sendResponse false (Text "Missing required fields") None 400, s).
Proof.
  intros Hmiss. unfold register.
  assert (negb (truthy (reg_full_name body))
          || negb (truthy (reg_email body))
          || negb (truthy (reg_password body))
          || negb (truthy (reg_blood_type body)) = true) as ->; [|done].
  destruct Hmiss as [-> | [-> | [-> | ->]]]; simpl;
    rewrite ?orb_true_r; done.
Qed.

Lemma no_user_with_email (e : option string) (s : Store) :
  coll_findOne (Users.by_email e) (users s) = None →
  ∀ x, e = Some x → x ∉ (UserSchema.email <$> users s).
Proof.
  intros Hnone x -> Hin. rewrite coll_findOne_None in Hnone.
  apply list_elem_of_fmap in Hin as (u & -> & Hu).
  specialize (Hnone u Hu). unfold Users.by_email in Hnone.
  by rewrite String.eqb_refl in Hnone.
Qed.

(** What a run of [register] can do to the store: nothing, or append one
    user (and, for a donor, that user's profile). *)
Lemma register_cases body s r s' :
  register hashPassword generateToken body s = (r, s') →
  (s' = s ∧ http_status r ≠ 201)
  ∨ ∃ h e,
      hashPassword (reg_password body) = Ok h ∧
      reg_email body = Some e ∧ e ≠ "" ∧
      (e ∉ UserSchema.email <$> users s) ∧
      Users.valid (register_fields body h) = true ∧
      let d := created_user (register_fields body h) (next_id s) in
      users s' = users s ++ [d] ∧
      donors s'
      = (if String.eqb (UserSchema.role d) "donor"
         then donors s ++ [default_profile (S (next_id s)) (next_id s)]
         else donors s) ∧
      bloodinventories s' = bloodinventories s ∧
      requests s' = requests s ∧
      notifications s' = notifications s ∧
      match generateToken (Auth.mk (next_id s) (UserSchema.role d)) with
      | Ok t =>
          r = sendResponse true (Text "Registration successful")
                (Some (mkAuthData t (auth_view d))) 201
      | Throw err => r = internal_error err
      end.
Proof.
  destruct (truthy (reg_full_name body)) eqn:Hn;
    [|rewrite register_missing by auto; intros [= <- <-]; by left].
  destruct (truthy (reg_email body)) eqn:He;
    [|rewrite register_missing by auto; intros [= <- <-]; by left].
  destruct (truthy (reg_password body)) eqn:Hp;
    [|rewrite register_missing by auto; intros [= <- <-]; by left].
  destruct (truthy (reg_blood_type body)) eqn:Hb;
    [|rewrite register_missing by auto; intros [= <- <-]; by left].
  rewrite register_present by done.
  destruct (coll_findOne _ (users s)) as [[i u]|] eqn:Hfind;
    [intros [= <- <-]; by left|].
  destruct (hashPassword (reg_password body)) as [h|err] eqn:Hhash;
    [|intros [= <- <-]; by left].
  cbv zeta.
  destruct (Users.valid (register_fields body h)) eqn:Hvalid;
    [|intros [= <- <-]; by left].
  apply truthy_true in He as (e & Hemail & Hne).
  intros Hrun. right. exists h, e.
  do 3 (split; [done|]). split; [by eapply no_user_with_email|].
  split; [done|].
  cbv zeta. cbn [UserSchema.role created_user].
  destruct (String.eqb (Users.f_role (register_fields body h)) "donor");
    destruct (generateToken _); injection Hrun as <- <-; by split_and!.
Qed.

(** X1.  A registration whose email is already a stored user's is answered
    409, and the store is left as it was. *)
Theorem register_duplicate_email
    (body : RegisterBody) (e : string) (u : UserSchema.doc) (s : Store) :
  truthy (reg_full_name body) = true →
  truthy (reg_password body) = true →
  truthy (reg_blood_type body) = true →
  reg_email body = Some e → e ≠ "" →
  u ∈ users s → UserSchema.email u = e →
  register hashPassword generateToken body s
  = (sendResponse false (Text "User already exists") None 409, s).
Proof.
  intros Hn Hp Hb He Hne Hu Hemail.
  rewrite register_present; [|done|rewrite He; apply truthy_true; eauto|done..].
  destruct (coll_findOne _ (users s)) as [[i v]|] eqn:Hfind; [done|].
  exfalso. rewrite coll_findOne_None in Hfind. specialize (Hfind u Hu).
  rewrite He in Hfind. simpl in Hfind. rewrite Hemail in Hfind.
  by rewrite String.eqb_refl in Hfind.
Qed.

(** X2.  Registration keeps stored emails distinct: from a store where no
    two users share an email, whatever body is sent, the store after
    [register] has no two users sharing an email. *)
Theorem register_keeps_emails_distinct (body : RegisterBody) (s : Store) :
  NoDup (UserSchema.email <$> users s) →
  NoDup (UserSchema.email
         <$> users (snd (register hashPassword generateToken body s))).
Proof.
  intros Hnodup.
  destruct (register hashPassword generateToken body s) as [r s'] eqn:Hrun.
  apply register_cases in Hrun
    as [[-> _]|(h & e & _ & He & Hne & Hfresh & Hvalid & Hrest)]; [done|].
  cbv zeta in Hrest. destruct Hrest as (Husers & _). cbn [snd].
  rewrite Husers, fmap_app. apply NoDup_app. split_and!; [done| |apply NoDup_singleton].
  intros x Hx [->|[]%elem_of_nil]%elem_of_cons. simpl in Hx.
  rewrite He in Hx. by rewrite or_else_Some in Hx.
Qed.

(** X3.  While token signing works, registration is all or nothing: a run
    that is not answered 201 leaves the store as it was. *)
Theorem register_all_or_nothing
    (body : RegisterBody) (s : Store) (r : Response AuthData) (s' : Store) :
  (∀ payload, ∃ t, generateToken payload = Ok t) →
  register hashPassword generateToken body s = (r, s') →
  http_status r ≠ 201 → s' = s.
Proof.
  intros Hsign Hrun Hnot.
  apply register_cases in Hrun as [[-> _]|(h & e & _ & _ & _ & _ & _ & Hrest)];
    [done|].
  cbv zeta in Hrest. destruct Hrest as (_ & _ & _ & _ & _ & Htoken).
  destruct (Hsign (Auth.mk (next_id s)
                     (UserSchema.role
                        (created_user (register_fields body h) (next_id s)))))
    as [t Ht].
  rewrite Ht in Htoken. by subst r.
Qed.

Lemma valid_fields_region (f : Users.fields) :
  Users.valid f = true →
  Users.f_role f ∈ Users.roles ∧ Users.f_blood_type f ∈ blood_types ∧
  match Users.f_region f with
  | Some rg => rg ∈ regions
  | None => Users.f_role f = "admin"
  end.
Proof.
  unfold Users.valid. rewrite !andb_true_iff.
  intros ((((((_ & _) & _) & _) & Hrole) & Hblood) & Hregion).
  apply includes_elem_of in Hrole, Hblood. split_and!; [done..|].
  destruct (Users.f_region f) as [rg|].
  - by apply includes_elem_of.
  - by apply String.eqb_eq.
Qed.

(** X4.  A user stored by a successful registration satisfies the schema
    whatever the body asked for: the role and blood type are of their
    enums, a user registered as admin has no region even when the body
    gives one, and every other user has a region of the enum. *)
Theorem register_stores_schema_valid_user
    (body : RegisterBody) (s : Store) (r : Response AuthData) (s' : Store) :
  register hashPassword generateToken body s = (r, s') →
  http_status r = 201 →
  ∃ d t,
    users s' = users s ++ [d] ∧
    data r = Some (mkAuthData t (auth_view d)) ∧
    UserSchema.role d = default "user" (reg_role body) ∧
    UserSchema.role d ∈ Users.roles ∧
    UserSchema.blood_type d ∈ blood_types ∧
    hashPassword (reg_password body) = Ok (UserSchema.password_hash d) ∧
    (UserSchema.role d = "admin" → UserSchema.region d = None) ∧
    (UserSchema.role d ≠ "admin" →
     ∃ rg, UserSchema.region d = Some rg ∧ rg ∈ regions
           ∧ reg_region body = Some rg).
Proof.
  intros Hrun H201.
  apply register_cases in Hrun
    as [[_ ?]|(h & e & Hhash & _ & _ & _ & Hvalid & Hrest)]; [done|].
  cbv zeta in Hrest. destruct Hrest as (Husers & _ & _ & _ & _ & Htoken).
  destruct (generateToken _) as [t|err]; [|by subst r].
  exists (created_user (register_fields body h) (next_id s)), t.
  apply valid_fields_region in Hvalid as (Hrole & Hblood & Hregion).
  subst r. split_and!; [done..| |].
  - simpl. intros Hadmin. rewrite Hadmin. done.
  - simpl. simpl in Hregion. intros Hnot.
    apply String.eqb_neq in Hnot. rewrite Hnot in *. simpl in *.
    destruct (truthy (reg_region body)) eqn:Ht; [|by apply String.eqb_neq in Hnot].
    destruct (reg_region body) as [rg|]; [|done]. by exists rg.
Qed.

(** X5.  A successful registration with role ["donor"] creates exactly one
    Donor profile, linked to the new user and holding the defaults
    (available, reputation 5, no donation yet); with any other role it
    creates none.  Nothing else of the store changes. *)
Theorem register_creates_donor_profile
    (body : RegisterBody) (s : Store) (r : Response AuthData) (s' : Store) :
  register hashPassword generateToken body s = (r, s') →
  http_status r = 201 →
  ∃ d,
    users s' = users s ++ [d] ∧ UserSchema._id d = next_id s ∧
    (UserSchema.role d = "donor" →
     ∃ p, donors s' = donors s ++ [p] ∧
          DonorSchema.user_id p = UserSchema._id d ∧
          DonorSchema.availability p = true ∧
          DonorSchema.reputation p = 5%Z ∧
          DonorSchema.last_donation_date p = None ∧
          DonorSchema.donation_log p = []) ∧
    (UserSchema.role d ≠ "donor" → donors s' = donors s) ∧
    bloodinventories s' = bloodinventories s ∧
    requests s' = requests s ∧
    notifications s' = notifications s.
Proof.
  intros Hrun H201.
  apply register_cases in Hrun
    as [[_ ?]|(h & e & _ & _ & _ & _ & _ & Hrest)]; [done|].
  cbv zeta in Hrest.
  destruct Hrest as (Husers & Hdonors & Hinv & Hreq & Hnot & _).
  eexists. split_and!; [done|done| | |done..].
  - intros Hrole. apply String.eqb_eq in Hrole. rewrite Hrole in Hdonors.
    by eexists.
  - intros Hrole. apply String.eqb_neq in Hrole. by rewrite Hrole in Hdonors.
Qed.

(** X6.  The handler checks four fields but not [phone], which the schema
    requires: a registration without a phone, otherwise complete and with a
    fresh email, is answered 500 (not 400), and nothing is stored. *)
Theorem register_without_phone
    (body : RegisterBody) (s : Store) :
  truthy (reg_full_name body) = true → truthy (reg_email body) = true →
  truthy (reg_password body) = true → truthy (reg_blood_type body) = true →
  truthy (reg_phone body) = false →
  coll_findOne (Users.by_email (reg_email body)) (users s) = None →
  ∃ r, register hashPassword generateToken body s = (r, s)
       ∧ http_status r = 500 ∧ success r = false.
Proof.
  intros Hn He Hp Hb Hphone Hfresh.
  rewrite register_present by done. rewrite Hfresh.
  destruct (hashPassword (reg_password body)) as [h|err]; [|by eexists].
  cbv zeta.
  assert (Users.valid (register_fields body h) = false) as ->.
  { unfold Users.valid, register_fields. cbn [Users.f_phone Users.f_full_name
      Users.f_email]. rewrite Hphone, Hn, He. done. }
  by eexists.
Qed.


Lemma login_run email password s :
  login comparePassword generateToken email password s =
    match coll_findOne (Users.by_email email) (users s) with
    | None => (invalid_credentials, s)
    | Some (_, u) =>
        match comparePassword password (UserSchema.password_hash u) with
        | Throw e => (internal_error e, s)
        | Ok false => (invalid_credentials, s)
        | Ok true =>
            match
              generateToken (Auth.mk (UserSchema._id u) (UserSchema.role u))
            with
            | Ok t =>
                (sendResponse true (Text "Login successful")
                   (Some
                      (mkAuthData t
                         (mkAuthUser (UserSchema._id u) (UserSchema.role u)
                            (UserSchema.full_name u) (UserSchema.phone u)
                            (if truthy (UserSchema.region u)
                             then UserSchema.region u else None))))
                   200, s)
            | Throw e => (internal_error e, s)
            end
        end
    end.
Proof.
  unfold login, try_catch, bind, Users.findOne, get, lift, ret.
  destruct (coll_findOne _ (users s)) as [[i u]|];
    cbn [fmap option_fmap option_map snd]; [|done].
  destruct (comparePassword _ _) as [[]|e]; cbn [negb]; [|done..].
  by destruct (generateToken _).
Qed.

(** X7.  Registration and login fit together: when the credential library
    accepts a password against the hash it made of it, a login with the
    email and password of a successful registration is answered 200 with
    the registered user's id, role, name, phone and region, and changes
    nothing. *)
Theorem login_after_register
    (body : RegisterBody) (s : Store) (r : Response AuthData) (s' : Store) :
  (∀ h, hashPassword (reg_password body) = Ok h →
        comparePassword (reg_password body) h = Ok true) →
  register hashPassword generateToken body s = (r, s') →
  http_status r = 201 →
  ∃ t t' who,
    data r = Some (mkAuthData t who) ∧
    login comparePassword generateToken (reg_email body) (reg_password body) s'
    = (sendResponse true (Text "Login successful")
         (Some (mkAuthData t' who)) 200, s').
Proof.
  intros Hlib Hrun H201.
  apply register_cases in Hrun
    as [[_ ?]|(h & e & Hhash & He & Hne & Hfresh & Hvalid & Hrest)]; [done|].
  cbv zeta in Hrest. destruct Hrest as (Husers & _ & _ & _ & _ & Htoken).
  set (d := created_user (register_fields body h) (next_id s)) in *.
  destruct (generateToken (Auth.mk (next_id s) (UserSchema.role d)))
    as [t|err] eqn:Hsign; [|by subst r].
  exists t, t, (auth_view d). split; [by subst r|].
  rewrite login_run.
  assert (coll_findOne (Users.by_email (reg_email body)) (users s')
          = Some (length (users s), d)) as ->.
  { apply coll_findOne_Some. rewrite Husers. split_and!.
    - by rewrite lookup_app_r, Nat.sub_diag.
    - rewrite He. apply String.eqb_eq. unfold d. simpl.
      rewrite He. by apply or_else_Some.
    - intros j y Hj Hlt. rewrite lookup_app_l in Hj by done.
      rewrite He. apply String.eqb_neq. intros Heq. apply Hfresh.
      apply list_elem_of_fmap. exists y. split; [done|].
      by eapply list_elem_of_lookup_2. }
  change (UserSchema.password_hash d) with h.
  rewrite (Hlib h Hhash). change (UserSchema._id d) with (next_id s).
  rewrite Hsign. do 3 f_equal. unfold auth_view. f_equal.
  apply valid_fields_region in Hvalid as (_ & _ & Hregion).
  change (UserSchema.region d) with (Users.f_region (register_fields body h)).
  destruct (Users.f_region (register_fields body h)) as [rg|]; [|done].
  assert (rg ≠ "") as Hrg by (intros ->; by apply includes_elem_of in Hregion).
  assert (truthy (Some rg) = true) as -> by (apply truthy_true; eauto).
  done.
Qed.

(** X8.  A login with an email no stored user has, or with a password the
    credential library does not accept for the stored hash, is answered
    401 without data, and the store is left as it was. *)
Theorem login_rejects
    (email password : option string) (s : Store) :
  match coll_findOne (Users.by_email email) (users s) with
  | None => True
  | Some (_, u) =>
      comparePassword password (UserSchema.password_hash u) = Ok false
  end →
  login comparePassword generateToken email password s
  = (sendResponse false (Text "Invalid credentials") None 401, s).
Proof.
  intros Hcase. rewrite login_run.
  destruct (coll_findOne _ (users s)) as [[i u]|]; [|done].
  by rewrite Hcase.
Qed.

(** ** The bearer token *)

Lemma split_spaces_spaceless (s : string) :
  spaceless s → split_spaces s = [s].
Proof.
  induction s as [|c s IH]; [done|]. intros [Hc Hs]. simpl.
  apply Ascii.eqb_neq in Hc. rewrite Hc, (IH Hs). done.
Qed.

Lemma split_spaces_app (a b : string) :
  spaceless a → split_spaces (a ++ String " " b)%string = a :: split_spaces b.
Proof.
  induction a as [|c a IH]; [done|]. intros [Hc Ha]. simpl.
  apply Ascii.eqb_neq in Hc. rewrite Hc, (IH Ha). done.
Qed.

Lemma prefix_app (p a b : string) :
  String.prefix p a = true → String.prefix p (a ++ b)%string = true.
Proof.
  revert p. induction a as [|c a IH]; intros [|c' p]; simpl.
  - by destruct b.
  - done.
  - done.
  - destruct (Ascii.ascii_dec c' c); [apply IH|done].
Qed.

Lemma bearer_token_of (scheme rest : string) :
  String.prefix "Bearer" scheme = true → spaceless scheme →
  bearer_token (Some (scheme ++ String " " rest)%string) = split_spaces rest !! 0.
Proof.
  intros Hprefix Hscheme. unfold bearer_token.
  assert ((scheme ++ String " " rest)%string ≠ "") as Hne.
  { destruct scheme; [done|discriminate]. }
  assert (truthy (Some (scheme ++ String " " rest)%string) = true) as ->
    by (apply truthy_true; eauto).
  rewrite or_else_Some by done. rewrite prefix_app by done.
  by rewrite split_spaces_app.
Qed.

(** X9.  [protect] lets a request through to its handler, with the decoded
    token as the caller, when the header is a word starting with
    ["Bearer"], one space, and a token without spaces that [jwt.verify]
    accepts. *)
Theorem protect_accepts_bearer {A}
    (scheme tok : string) (caller : Auth.user)
    (next : Auth.user → Handler A) :
  String.prefix "Bearer" scheme = true → spaceless scheme →
  spaceless tok → tok ≠ "" →
  jwt_verify tok = Ok caller →
  protect jwt_verify (Some (scheme ++ " " ++ tok)%string) next = next caller.
Proof.
  intros Hprefix Hscheme Htok Hne Hverify. unfold protect.
  change (scheme ++ " " ++ tok)%string with (scheme ++ String " " tok)%string.
  rewrite bearer_token_of, split_spaces_spaceless by done. cbn [lookup list_lookup].
  assert (truthy (Some tok) = true) as -> by (apply truthy_true; eauto).
  rewrite or_else_Some by done. by rewrite Hverify.
Qed.

(** X10.  [protect] answers 401 without running the handler or touching
    the store when there is no header, when the header does not start with
    ["Bearer"], when two spaces follow the scheme (the second piece is then
    empty, whatever comes after, a token that [jwt.verify] would accept
    included), and when [jwt.verify] throws. *)
Theorem protect_rejects {A}
    (header scheme rest tok : string) (e : Error)
    (next : Auth.user → Handler A) (s : Store) :
  String.prefix "Bearer" header = false →
  String.prefix "Bearer" scheme = true → spaceless scheme →
  spaceless tok → tok ≠ "" →
  jwt_verify tok = Throw e →
  let no_token : Response A :=
    mkResponse 401 false (Text "Not authorized, no token") None in
  protect jwt_verify None next s = (no_token, s) ∧
  protect jwt_verify (Some header) next s = (no_token, s) ∧
  protect jwt_verify (Some (scheme ++ "  " ++ rest)%string) next s
  = (no_token, s) ∧
  protect jwt_verify (Some (scheme ++ " " ++ tok)%string) next s
  = (mkResponse 401 false (Text "Not authorized, token failed") None, s).
Proof.
  intros Hheader Hprefix Hscheme Htok Hne Hverify no_token. split_and!.
  - done.
  - unfold protect, bearer_token.
    destruct (truthy (Some header)) eqn:Ht; [|done].
    apply truthy_true in Ht as (h & [= <-] & Hh).
    rewrite or_else_Some by done. by rewrite Hheader.
  - unfold protect.
    change (scheme ++ "  " ++ rest)%string
      with (scheme ++ String " " (String " " rest))%string.
    rewrite bearer_token_of by done. done.
  - unfold protect.
    change (scheme ++ " " ++ tok)%string with (scheme ++ String " " tok)%string.
    rewrite bearer_token_of, split_spaces_spaceless by done.
    cbn [lookup list_lookup].
    assert (truthy (Some tok) = true) as -> by (apply truthy_true; eauto).
    rewrite or_else_Some by done. by rewrite Hverify.
Qed.

(** ** The seeded administrator *)

Variable ADMIN_EMAIL ADMIN_PASS ADMIN_NAME : option string.

Lemma seedAdmin_run s :
  seedAdmin hashPassword ADMIN_EMAIL ADMIN_PASS ADMIN_NAME s =
    match coll_findOne (Users.by_email ADMIN_EMAIL) (users s) with
    | Some _ => s
    | None =>
        match hashPassword ADMIN_PASS with
        | Throw _ => s
        | Ok h =>
            if Users.valid (admin_fields ADMIN_NAME ADMIN_EMAIL h) then
              set_next_id (S (next_id s))
                (set_users (users s ++ [created_user (admin_fields ADMIN_NAME ADMIN_EMAIL h) (next_id s)])
                   s)
            else s
        end
    end.
Proof.
  unfold seedAdmin, try_catch, bind, Users.findOne, get, lift, ret.
  destruct (coll_findOne _ (users s)) as [[i u]|];
    cbn [fmap option_fmap option_map snd]; [done|].
  destruct (hashPassword ADMIN_PASS) as [h|e]; [|done].
  unfold Users.create. fold (admin_fields ADMIN_NAME ADMIN_EMAIL h).
  by destruct (Users.valid (admin_fields ADMIN_NAME ADMIN_EMAIL h)).
Qed.

(** X11.  Seeding the administrator is idempotent and only ever adds: a
    second run changes nothing, the stored users before the run are still
    there, in place, after it, with at most one user added, and no other
    collection is written. *)
Theorem seedAdmin_idempotent (s : Store) :
  let seed := seedAdmin hashPassword ADMIN_EMAIL ADMIN_PASS ADMIN_NAME in
  seed (seed s) = seed s ∧
  (∃ added, users (seed s) = users s ++ added ∧ length added ≤ 1) ∧
  donors (seed s) = donors s ∧
  bloodinventories (seed s) = bloodinventories s ∧
  requests (seed s) = requests s ∧
  notifications (seed s) = notifications s.
Proof.
  intros seed. unfold seed. rewrite !seedAdmin_run.
  destruct (coll_findOne _ (users s)) as [[i u]|] eqn:Hfind.
  { rewrite Hfind. split_and!; try done.
    exists []. split; [by rewrite app_nil_r|simpl; lia]. }
  destruct (hashPassword ADMIN_PASS) as [h|e] eqn:Hhash.
  2: { rewrite Hfind. split_and!; try done.
    exists []. split; [by rewrite app_nil_r|simpl; lia]. }
  destruct (Users.valid (admin_fields ADMIN_NAME ADMIN_EMAIL h)) eqn:Hvalid.
  2: { rewrite Hfind. split_and!; try done.
       exists []. split; [by rewrite app_nil_r|simpl; lia]. }
  split_and!; try done; [|eexists; split; [done|simpl; lia]].
  cbn [users set_next_id set_users].
  assert (∃ e, ADMIN_EMAIL = Some e ∧ e ≠ "") as (e & He & Hne).
  { apply truthy_true. unfold Users.valid in Hvalid.
    rewrite !andb_true_iff in Hvalid. apply Hvalid. }
  assert (is_Some (coll_findOne (Users.by_email ADMIN_EMAIL)
                     (users s ++ [created_user (admin_fields ADMIN_NAME ADMIN_EMAIL h) (next_id s)])))
    as [[k v] ->]; [|done].
  apply (list_find_elem_of _ _ (created_user (admin_fields ADMIN_NAME ADMIN_EMAIL h) (next_id s))).
  - apply elem_of_app. right. apply list_elem_of_singleton. done.
  - apply Is_true_true. unfold Users.by_email, created_user, admin_fields.
    cbn [UserSchema.email Users.f_email]. rewrite He.
    rewrite or_else_Some by done. apply String.eqb_refl.
Qed.

End credentials_facts.

(** ** Role gates *)

Lemma restrictTo_refuses {A} (roles : list string) (req_user : Auth.user)
    (next : Handler A) (s : Store) :
  Auth.role req_user ∉ roles →
  restrictTo roles req_user next s = (forbidden, s).
Proof.
  intros Hout. unfold restrictTo.
  apply includes_false in Hout. by rewrite Hout.
Qed.

Lemma restrictTo_partial_refuses {A} (roles : list string)
    (req_user : Auth.user) (next : PartialHandler A) (s : Store) :
  Auth.role req_user ∉ roles →
  restrictTo_partial roles req_user next s = Some (forbidden, s).
Proof.
  intros Hout. unfold restrictTo_partial.
  apply includes_false in Hout. by rewrite Hout.
Qed.

Lemma restrictTo_partial_allowed {A} (roles : list string)
    (req_user : Auth.user) (next : PartialHandler A) :
  Auth.role req_user ∈ roles →
  restrictTo_partial roles req_user next = next.
Proof.
  intros Hin. unfold restrictTo_partial.
  apply includes_elem_of in Hin. by rewrite Hin.
Qed.

Lemma not_in_singleton (x y : string) : x ≠ y → x ∉ [y].
Proof. intros Hne Hin. apply list_elem_of_singleton in Hin. done. Qed.

(** X12.  The self-service routes are closed to every other role: a caller
    whose role is not ["donor"] is answered 403 by each donor route, and a
    caller whose role is not ["user"] by each user route, the handler
    behind it never running and the store staying as it was. *)
Theorem self_service_routes_refuse_other_roles
    (not_donor not_user : Auth.user) (now : Z) (units : jsval)
    (notes : option string) (availability : jsval) (body : RequestBody)
    (s : Store) :
  Auth.role not_donor ≠ "donor" →
  Auth.role not_user ≠ "user" →
  (post_donors_donate now not_donor units notes s = Some (forbidden, s) ∧
   put_donors_availability not_donor availability s = (forbidden, s) ∧
   get_donors_availability not_donor s = (forbidden, s) ∧
   get_donors_history not_donor s = (forbidden, s) ∧
   get_donors_requests not_donor s = (forbidden, s))
  ∧ (post_requests now not_user body s = (forbidden, s) ∧
     get_requests_user not_user s = (forbidden, s) ∧
     get_dashboard_user_stats not_user s = (forbidden, s)).
Proof.
  intros Hdonor Huser.
  split; split_and!;
    (apply restrictTo_refuses || apply restrictTo_partial_refuses);
    by apply not_in_singleton.
Qed.

(** X13.  The administration routes are closed to every caller whose role
    is not ["admin"]: each answers 403, runs nothing and leaves the store
    as it was. *)
Theorem admin_routes_refuse_other_roles
    (caller : Auth.user) (now : Z) (title message role : option string)
    (page limit : positive) (id : option ObjectId) (new_role status : string)
    (s : Store) :
  Auth.role caller ≠ "admin" →
  post_admin_notifications now caller title message role s = (forbidden, s) ∧
  get_admin_users caller page limit role s = (forbidden, s) ∧
  put_admin_users caller id new_role s = (forbidden, s) ∧
  delete_admin_users caller id s = (forbidden, s) ∧
  put_admin_donors_verify caller id s = (forbidden, s) ∧
  put_admin_requests_status caller id status s = (forbidden, s).
Proof.
  intros Hadmin.
  split_and!; apply restrictTo_refuses; by apply not_in_singleton.
Qed.

(** ** Donor self-service: availability and history *)

Lemma setAvailability_effect req_user v i d s :
  coll_findOne (own_profile req_user) (donors s) = Some (i, d) →
  let b := strict_eq_true v || strict_eq_str v "true" in
  setAvailability req_user v s
  = (sendResponse true (Text "Availability updated") (Some b) 200,
     set_donors (<[i := DonorSchema.set_availability b d]> (donors s)) s).
Proof.
  intros Hfind b.
  unfold setAvailability, try_catch, bind, Donor.findOneAndUpdate.
  change (λ d, Nat.eqb (DonorSchema.user_id d) (Auth.id req_user))
    with (own_profile req_user).
  by rewrite Hfind.
Qed.

Lemma getAvailability_found req_user i d s :
  coll_findOne (own_profile req_user) (donors s) = Some (i, d) →
  getAvailability req_user s
  = (sendResponse true (Text "Availability fetched successfully")
       (Some (DonorSchema.availability d)) 200, s).
Proof.
  intros Hfind. unfold getAvailability, try_catch, bind, Donor.findOne, get.
  change (λ d, Nat.eqb (DonorSchema.user_id d) (Auth.id req_user))
    with (own_profile req_user).
  by rewrite Hfind.
Qed.

(** X14.  Availability reads back what was written, and writing is
    idempotent: for a donor with a profile, after [setAvailability] with
    any JSON value, [GET /donors/availability] answers the flag that the
    write answered, and a second identical write leaves the store as the
    first left it. *)
Theorem availability_reads_back
    (req_user : Auth.user) (v : jsval) (i : nat) (d : DonorSchema.doc)
    (s : Store) :
  coll_findOne (own_profile req_user) (donors s) = Some (i, d) →
  ∃ b s',
    setAvailability req_user v s
    = (sendResponse true (Text "Availability updated") (Some b) 200, s') ∧
    getAvailability req_user s'
    = (sendResponse true (Text "Availability fetched successfully")
         (Some b) 200, s') ∧
    setAvailability req_user v s'
    = (sendResponse true (Text "Availability updated") (Some b) 200, s') ∧
    data (fst (setAvailability req_user v s)) = Some b ∧
    data (fst (getAvailability req_user s')) = Some b ∧
    DonorSchema.availability ∘ snd
    <$> coll_findOne (own_profile req_user) (donors s') = Some b.
Proof.
  intros Hfind.
  set (b := strict_eq_true v || strict_eq_str v "true").
  set (d' := DonorSchema.set_availability b d).
  assert (own_profile req_user d' = true) as Hown.
  { apply coll_findOne_elem_of in Hfind as [_ Hown]. exact Hown. }
  pose proof (coll_findOne_insert _ _ _ _ d' Hfind Hown) as Hfind'.
  exists b, (set_donors (<[i := d']> (donors s)) s). split_and!.
  - by apply setAvailability_effect.
  - by rewrite (getAvailability_found req_user i d').
  - rewrite (setAvailability_effect req_user v i d') by done.
    cbv zeta. f_equal. cbn [donors set_donors].
    rewrite list_insert_insert_eq. by destruct s.
  - by rewrite (setAvailability_effect req_user v i d).
  - by rewrite (getAvailability_found req_user i d').
  - cbn [donors set_donors]. by rewrite Hfind'.
Qed.

(** ** Donation: history, failure half-way, and the dashboard *)


Lemma getHistory_found req_user i d s :
  coll_findOne (own_profile req_user) (donors s) = Some (i, d) →
  getHistory req_user s
  = (sendResponse true (Text "Donation history fetched")
       (Some (DonorSchema.donation_log d)) 200, s).
Proof.
  intros Hfind. unfold getHistory, try_catch, bind, Donor.findOne, get.
  change (λ d, Nat.eqb (DonorSchema.user_id d) (Auth.id req_user))
    with (own_profile req_user).
  by rewrite Hfind.
Qed.

(** X15.  The history grows by the donation just recorded: after a
    recordDonation that goes through, [GET /donors/history] answers the
    log as it was, oldest first, followed by one entry with the donated
    units as they are stored (1 when the body gives none), the donation
    time, and the note (the dashboard's default note when the body gives
    none). *)
Theorem history_after_donation
    (now : Z) (req_user : Auth.user) (units : jsval) (n : Z)
    (notes : option string) (i : nat) (d : DonorSchema.doc) (j : nat)
    (u : UserSchema.doc) (s : Store) :
  cast_number (units_or_1 units) = Some n →
  coll_findOne (own_profile req_user) (donors s) = Some (i, d) →
  coll_findById (Auth.id req_user) (users s) = Some (j, u) →
  UserSchema.blood_type u ∈ blood_types →
  (∀ k row,
     coll_findOne (of_blood_type (UserSchema.blood_type u)) (bloodinventories s)
     = Some (k, row) →
     BloodInventorySchema.status row ∈ BloodInventorySchema.statuses
     ∧ is_Some (plus_assign (BloodInventorySchema.available_units row)
                  (units_or_1 units))) →
  ∃ r s' e,
    recordDonation now req_user units notes s = Some (r, s') ∧
    getHistory req_user s
    = (sendResponse true (Text "Donation history fetched")
         (Some (DonorSchema.donation_log d)) 200, s) ∧
    getHistory req_user s'
    = (sendResponse true (Text "Donation history fetched")
         (Some (DonorSchema.donation_log d ++ [e])) 200, s') ∧
    DonorSchema.date e = now ∧
    DonorSchema.units e = n ∧
    (units = JUndefined → n = 1%Z) ∧
    (∀ m, units = JNumber m → isSafeInteger m = true → n = m) ∧
    DonorSchema.notes e
    = match notes with
      | Some text => if String.eqb text "" then "Recorded via dashboard" else text
      | None => "Recorded via dashboard"
      end ∧
    data (fst (getHistory req_user s)) = Some (DonorSchema.donation_log d) ∧
    data (fst (getHistory req_user s'))
    = Some (DonorSchema.donation_log d ++ [e]).
Proof.
  intros Hcast Hd Hu Hbt Hst.
  destruct (recordDonation_effect now req_user units notes n i d j u s
              Hcast Hd Hu Hbt Hst)
    as (r & s' & i' & amount & Hrun & _ & _ & _ & _ & _ & _ & _ & Hfound & _).
  exists r, s', (donation_entry now n notes). split_and!.
  - done.
  - by apply (getHistory_found req_user i d).
  - by rewrite (getHistory_found req_user i' _ s' Hfound).
  - done.
  - done.
  - intros ->. by injection Hcast as <-.
  - intros m -> Hsafe. cbn [units_or_1 cast_number] in Hcast.
    rewrite (nearest_double_safe m Hsafe) in Hcast. by injection Hcast.
  - by destruct notes.
  - by rewrite (getHistory_found req_user i d).
  - by rewrite (getHistory_found req_user i' _ s' Hfound).
Qed.

(** X16.  recordDonation is not atomic: when the caller has a Donor
    profile but no User document, the answer is 500, yet the donation has
    already been written to the profile's log; the inventory has not been
    credited. *)
Theorem recordDonation_fails_after_logging
    (now : Z) (req_user : Auth.user) (units : jsval) (n : Z)
    (notes : option string) (i : nat) (d : DonorSchema.doc) (s : Store) :
  cast_number (units_or_1 units) = Some n →
  coll_findOne (own_profile req_user) (donors s) = Some (i, d) →
  coll_findById (Auth.id req_user) (users s) = None →
  ∃ r s' i' d',
    recordDonation now req_user units notes s = Some (r, s') ∧
    http_status r = 500 ∧ success r = false ∧
    coll_findOne (own_profile req_user) (donors s') = Some (i', d') ∧
    DonorSchema.donation_log d'
    = DonorSchema.donation_log d ++ [donation_entry now n notes] ∧
    DonorSchema.units (donation_entry now n notes) = n ∧
    bloodinventories s' = bloodinventories s.
Proof.
  intros Hcast Hd Hu.
  set (own := own_profile req_user) in *.
  set (d' := DonorSchema.set_last_donation_date now
               (DonorSchema.push_donation_log
                  (donation_entry now n notes) d)).
  assert (own d' = true) as Hown'.
  { apply coll_findOne_elem_of in Hd as [_ Hown]. exact Hown. }
  assert (doc_id d' = doc_id d) as Hid by done.
  destruct (coll_save_found own (donors s) i d d' Hd Hid Hown')
    as (i' & _ & Hsave & Hfound).
  eexists _, _, i', d'. split.
  { unfold recordDonation, partial_try_catch. cbv zeta.
    erewrite partial_bind_run;
      [|unfold followed, Donor.findOne, get;
        change (λ d, Nat.eqb (DonorSchema.user_id d) (Auth.id req_user))
          with own;
        rewrite Hd; reflexivity].
    cbn [fmap option_fmap option_map snd].
    erewrite partial_bind_run; [|by apply whole_run].
    fold (donation_entry now n notes). fold d'.
    erewrite partial_bind_run;
      [|unfold followed, Donor.save; rewrite Hsave; reflexivity].
    erewrite partial_bind_run;
      [|unfold followed, User.findById, get; cbn [users set_donors];
        rewrite Hu; reflexivity].
    reflexivity. }
  by split_and!.
Qed.

Lemma userStats_run req_user s :
  userStats req_user s
  = (sendResponse true (Text "User dashboard stats")
       (Some
          (mkUserStats (inventory_total s)
             (length (coll_find DonorSchema.availability (donors s)))
             (length
                (coll_find
                   (λ r, Nat.eqb (RequestSchema.requester_id r)
                           (Auth.id req_user))
                   (requests s)))))
       200, s).
Proof.
  unfold userStats, try_catch, bind, BloodInventories.aggregate_total,
    Donors.countDocuments, Requests.countDocuments, get, ret.
  do 4 f_equal. unfold inventory_total.
  destruct (bloodinventories s) as [|row rows]; [done|].
  cbn [lookup list_lookup].
  by destruct (Z.eqb_spec
                 (fold_right Z.add 0%Z
                    (map BloodInventorySchema.available_units (row :: rows)))
                 0) as [->|].
Qed.

Lemma total_insert (l : list BloodInventorySchema.doc) k row row' :
  l !! k = Some row →
  fold_right Z.add 0%Z
    (map BloodInventorySchema.available_units (<[k := row']> l))
  = (fold_right Z.add 0%Z (map BloodInventorySchema.available_units l)
     - BloodInventorySchema.available_units row
     + BloodInventorySchema.available_units row')%Z.
Proof.
  revert k. induction l as [|x l IH]; intros [|k] Hk; simplify_eq/=.
  - lia.
  - rewrite (IH k Hk). lia.
Qed.

Lemma total_app (l l' : list BloodInventorySchema.doc) :
  fold_right Z.add 0%Z (map BloodInventorySchema.available_units (l ++ l'))
  = (fold_right Z.add 0%Z (map BloodInventorySchema.available_units l)
     + fold_right Z.add 0%Z (map BloodInventorySchema.available_units l'))%Z.
Proof. induction l as [|x l IH]; simpl; [done|]. rewrite IH. lia. Qed.

Lemma units_within_total (l : list BloodInventorySchema.doc) k row :
  l !! k = Some row →
  (Z.abs (BloodInventorySchema.available_units row)
   ≤ fold_right Z.add 0
       (map (Z.abs ∘ BloodInventorySchema.available_units) l))%Z.
Proof.
  assert (∀ l : list BloodInventorySchema.doc,
            (0 ≤ fold_right Z.add 0
                   (map (Z.abs ∘ BloodInventorySchema.available_units) l))%Z)
    as Hpos.
  { intros l'. induction l' as [|x l' IH]; simpl; lia. }
  revert k. induction l as [|x l IH]; intros [|k] Hk; simplify_eq/=.
  - specialize (Hpos l). lia.
  - specialize (IH k Hk). lia.
Qed.

(** X17.  A donation shows on the dashboard: in a store whose inventory
    rows have distinct ids, where the sizes of the rows' units and of the
    donated [n] units (a whole number; 1 when the body gives none) add up
    to a safe integer, so that every sum on the way is exact, after
    recordDonation the blood-unit total that [GET /dashboard/user-stats]
    reports to any caller is [n] higher than before. *)
Theorem donation_raises_dashboard_total
    (now : Z) (req_user viewer : Auth.user) (units : jsval) (n : Z)
    (notes : option string) (i : nat) (d : DonorSchema.doc) (j : nat)
    (u : UserSchema.doc) (s : Store) :
  units = JNumber n ∨ (units = JUndefined ∧ n = 1%Z) →
  isSafeInteger
    (fold_right Z.add 0%Z
       (map (Z.abs ∘ BloodInventorySchema.available_units)
          (bloodinventories s))
     + Z.abs n) = true →
  coll_findOne (own_profile req_user) (donors s) = Some (i, d) →
  coll_findById (Auth.id req_user) (users s) = Some (j, u) →
  UserSchema.blood_type u ∈ blood_types →
  (∀ k row,
     coll_findOne (of_blood_type (UserSchema.blood_type u)) (bloodinventories s)
     = Some (k, row) →
     BloodInventorySchema.status row ∈ BloodInventorySchema.statuses) →
  NoDup (BloodInventorySchema._id <$> bloodinventories s) →
  ∃ r s' before after,
    recordDonation now req_user units notes s = Some (r, s') ∧
    http_status r = 200 ∧
    data (fst (userStats viewer s)) = Some before ∧
    data (fst (userStats viewer s')) = Some after ∧
    stats_bloodUnits after = (stats_bloodUnits before + n)%Z.
Proof.
  intros Hunits Hsafe Hd Hu Hbt Hst Hnodup.
  assert (∀ l : list BloodInventorySchema.doc,
            (0 ≤ fold_right Z.add 0
                   (map (Z.abs ∘ BloodInventorySchema.available_units) l))%Z)
    as Hpos.
  { intros l. induction l as [|x l IH]; simpl; lia. }
  pose proof (Hpos (bloodinventories s)) as Hpos_s.
  unfold isSafeInteger in Hsafe. apply Z.ltb_lt in Hsafe.
  assert (isSafeInteger n = true) as Hn
    by (unfold isSafeInteger; apply Z.ltb_lt; lia).
  destruct (recordDonation_effect now req_user units notes n i d j u s)
    as (r & s' & i' & amount & Hrun & Hstatus & _ & _ & _ & _ & _ & _ & _
        & Hinv); [by apply cast_number_safe|done..| |].
  { intros k row Hrow. split; [by eapply Hst|].
    rewrite (plus_assign_safe units n); [by eexists|done..|].
    apply coll_findOne_Some in Hrow as (Hk & _ & _).
    pose proof (units_within_total _ _ _ Hk).
    unfold isSafeInteger. apply Z.ltb_lt. lia. }
  eexists r, s', _, _. split; [done|]. split; [done|].
  rewrite !userStats_run.
  split; [reflexivity|]. split; [reflexivity|]. cbn [stats_bloodUnits].
  unfold inventory_total.
  destruct (coll_findOne _ (bloodinventories s)) as [[k row]|] eqn:Hrow.
  - destruct Hinv as (Hplus & k' & row0 & Hk' & Hid0 & -> & _).
    apply coll_findOne_Some in Hrow as (Hk & _ & _).
    pose proof (units_within_total _ _ _ Hk).
    rewrite (plus_assign_safe units n) in Hplus;
      [|done..|unfold isSafeInteger; apply Z.ltb_lt; lia].
    injection Hplus as <-.
    destruct (unique_id_position (bloodinventories s) k' k row0 row
                Hnodup Hk' Hk Hid0) as [-> ->].
    rewrite (total_insert _ k row) by done. simpl. lia.
  - destruct Hinv as [_ ->]. rewrite total_app. simpl. lia.
Qed.

(** X18.  A submitted request shows on the requester's dashboard: after a
    submitRequest that stores a request (blood group of the enum, region
    present, status absent or of the enum), the request count that
    [GET /dashboard/user-stats] reports to that caller is one higher, and
    the count it reports to any other caller is unchanged. *)
Theorem submitRequest_raises_request_count
    (now : Z) (req_user other : Auth.user) (body : RequestBody)
    (G R : string) (s : Store) :
  body_blood_group body = Some G → G ∈ blood_types →
  body_region body = Some R → R ≠ "" →
  (∀ st, body_status body = Some st → st ∈ RequestSchema.statuses) →
  Auth.id other ≠ Auth.id req_user →
  ∃ mine mine' theirs theirs',
    let s' := snd (submitRequest now req_user body s) in
    data (fst (userStats req_user s)) = Some mine ∧
    data (fst (userStats req_user s')) = Some mine' ∧
    data (fst (userStats other s)) = Some theirs ∧
    data (fst (userStats other s')) = Some theirs' ∧
    stats_requests mine' = S (stats_requests mine) ∧
    stats_requests theirs' = stats_requests theirs.
Proof.
  intros HG HGin HR HRne Hst Hother.
  assert (G ≠ "") as HGne.
  { intros ->. apply includes_elem_of in HGin. done. }
  rewrite !userStats_run. eexists _, _, _, _. cbv zeta.
  do 4 (split; [reflexivity|]). cbn [stats_requests].
  rewrite (submitRequest_present now req_user body G R s) by done.
  apply includes_elem_of in HGin. rewrite HGin.
  assert (includes RequestSchema.statuses
            (default "Pending" (body_status body)) = true) as ->.
  { destruct (body_status body) as [st|]; [|done].
    apply includes_elem_of. by apply Hst. }
  cbv [andb].
  assert (∀ s1 : Store,
            requests s1
            = requests s ++ [new_request now req_user G R body s] →
            length (coll_find
                      (λ r, Nat.eqb (RequestSchema.requester_id r)
                              (Auth.id req_user)) (requests s1))
            = S (length (coll_find
                           (λ r, Nat.eqb (RequestSchema.requester_id r)
                                   (Auth.id req_user)) (requests s)))
            ∧ length (coll_find
                        (λ r, Nat.eqb (RequestSchema.requester_id r)
                                (Auth.id other)) (requests s1))
              = length (coll_find
                          (λ r, Nat.eqb (RequestSchema.requester_id r)
                                  (Auth.id other)) (requests s))) as Hcount.
  { intros s1 ->. unfold coll_find. rewrite !filter_app, !length_app.
    rewrite filter_cons_True
      by (apply Is_true_true; simpl; apply Nat.eqb_refl).
    rewrite filter_cons_False.
    2: { rewrite Is_true_true. simpl. intros Heq%Nat.eqb_eq. congruence. }
    simpl. lia. }
  destruct (decide _); [|destruct (includes regions R)]; by apply Hcount.
Qed.

(** X19.  [GET /donors/requests] answers a donor who has a User document
    with exactly the stored requests that are ["Pending"] and ask for the
    donor's blood type, in the store's order, whatever their region: the
    donor's own region plays no part. *)
Theorem pending_requests_match_blood_type_only
    (req_user : Auth.user) (j : nat) (u : UserSchema.doc) (s : Store) :
  coll_findById (Auth.id req_user) (users s) = Some (j, u) →
  ∃ l,
    pendingMatchingRequests req_user s
    = (sendResponse true (Text "Pending matching requests") (Some l) 200, s) ∧
    data (fst (pendingMatchingRequests req_user s)) = Some l ∧
    l = filter (λ r, RequestSchema.blood_group r = UserSchema.blood_type u
                     ∧ RequestSchema.status r = "Pending") (requests s) ∧
    ∀ r, r ∈ requests s →
         RequestSchema.blood_group r = UserSchema.blood_type u →
         RequestSchema.status r = "Pending" →
         r ∈ l.
Proof.
  intros Hu. eexists. split.
  { unfold pendingMatchingRequests, try_catch, bind, User.findById, get.
    rewrite Hu. reflexivity. }
  split.
  { unfold pendingMatchingRequests, try_catch, bind, User.findById, get.
    rewrite Hu. reflexivity. }
  assert (coll_find
            (λ r, String.eqb (RequestSchema.blood_group r)
                    (UserSchema.blood_type (snd (j, u)))
                  && String.eqb (RequestSchema.status r) "Pending")
            (requests s)
          = filter (λ r, RequestSchema.blood_group r = UserSchema.blood_type u
                         ∧ RequestSchema.status r = "Pending") (requests s))
    as Hfilter.
  { apply coll_find_filter. intros r. simpl.
    by rewrite andb_true_iff, !String.eqb_eq. }
  split; [exact Hfilter|].
  intros r Hr Hblood Hstatus. rewrite Hfilter.
  apply list_elem_of_filter. by split.
Qed.

(** ** Notifications: marking read and broadcasting *)

Section update_facts.
Context {D : Type} `{Document D}.

Lemma coll_update_found (i : ObjectId) (f : D → D) (c : list D) k d :
  coll_findById i c = Some (k, d) →
  coll_update (has_id i) f c = <[k := f d]> c.
Proof.
  intros Hfind. unfold coll_update.
  change (list_find (λ d, Is_true (has_id i d)) c) with (coll_findById i c).
  by rewrite Hfind.
Qed.

Lemma coll_update_missing (i : ObjectId) (f : D → D) (c : list D) :
  coll_findById i c = None → coll_update (has_id i) f c = c.
Proof.
  intros Hfind. unfold coll_update.
  change (list_find (λ d, Is_true (has_id i d)) c) with (coll_findById i c).
  by rewrite Hfind.
Qed.
End update_facts.

(** X20.  Marking a notification read takes no account of who asks and
    does not report a missing notification: for an id that names one, its
    [isRead] becomes true and nothing else of the store changes, and a
    second call changes nothing more; for an id that names none, the
    answer is the same success and the store is as it was. *)
Theorem markNotificationRead_effect
    (present absent : ObjectId) (k : nat) (n : NotificationSchema.doc)
    (s : Store) :
  coll_findById present (notifications s) = Some (k, n) →
  coll_findById absent (notifications s) = None →
  let done_ : Response unit :=
    sendResponse true (Text "Notification marked as read") None 200 in
  let s' := set_notifications (<[k := marked_read n]> (notifications s)) s in
  markNotificationRead (Some present) s = (done_, s') ∧
  NotificationSchema.isRead (marked_read n) = true ∧
  markNotificationRead (Some present) s' = (done_, s') ∧
  markNotificationRead (Some absent) s = (done_, s).
Proof.
  intros Hpresent Habsent done_ s'.
  assert (doc_id (marked_read n) = present) as Hid.
  { by apply coll_findById_id in Hpresent. }
  assert (coll_findById present (notifications s') = Some (k, marked_read n))
    as Hpresent'.
  { by apply (coll_save_by_id (notifications s) present k n). }
  split_and!.
  - unfold markNotificationRead, try_catch, bind,
      Notifications.findByIdAndUpdate, modify.
    by rewrite (coll_update_found present _ _ k n).
  - done.
  - unfold markNotificationRead, try_catch, bind,
      Notifications.findByIdAndUpdate, modify.
    rewrite (coll_update_found present _ _ k (marked_read n)) by done.
    unfold s'. cbn [notifications set_notifications].
    rewrite list_insert_insert_eq. done.
  - unfold markNotificationRead, try_catch, bind,
      Notifications.findByIdAndUpdate, modify.
    rewrite coll_update_missing by done. by destruct s.
Qed.

Lemma createNotification_valid now title message role t m s :
  title = Some t → t ≠ "" → message = Some m → m ≠ "" →
  default "all" role ∈ NotificationSchema.roles →
  let n :=
    NotificationSchema.mk (next_id s) t m (default "all" role) None false now
  in
  createNotification now title message role s
  = (sendResponse true (Text "Notification created") (Some n) 201,
     set_next_id (S (next_id s))
       (set_notifications (notifications s ++ [n]) s)).
Proof.
  intros -> Ht -> Hm Hrole n.
  unfold createNotification, try_catch, bind, Notifications.create.
  rewrite !or_else_Some by done.
  assert (Notification.valid
            (NotificationSchema.mk_fields t m (default "all" role) None)
          = true) as ->.
  { unfold Notification.valid. cbn [NotificationSchema.f_title
      NotificationSchema.f_message NotificationSchema.f_role
      NotificationSchema.f_region].
    apply String.eqb_neq in Ht, Hm. rewrite Ht, Hm.
    apply includes_elem_of in Hrole. by rewrite Hrole. }
  unfold Notification.of_fields. cbn [NotificationSchema.f_title
    NotificationSchema.f_message NotificationSchema.f_role
    NotificationSchema.f_region].
  by rewrite Nat.add_0_r.
Qed.

Lemma notification_query_all u n :
  NotificationSchema.role n = "all" → notification_query u n = true.
Proof.
  intros Hrole. unfold notification_query.
  destruct (String.eqb (UserSchema.role u) "admin"); [done|].
  destruct (_ && _); by rewrite Hrole.
Qed.

(** X21.  A broadcast with no role in the body reaches everyone: the
    notification that [POST /admin/notifications] creates has role
    ["all"], and it is in the list that listNotifications then answers to
    any caller who has a User document. *)
Theorem broadcast_reaches_every_user
    (now : Z) (title message : option string) (t m : string)
    (caller : Auth.user) (j : nat) (u : UserSchema.doc) (s : Store) :
  title = Some t → t ≠ "" → message = Some m → m ≠ "" →
  coll_findById (Auth.id caller) (users s) = Some (j, u) →
  ∃ n s' l,
    createNotification now title message None s
    = (sendResponse true (Text "Notification created") (Some n) 201, s') ∧
    data (fst (createNotification now title message None s)) = Some n ∧
    NotificationSchema.role n = "all" ∧
    NotificationSchema.title n = t ∧ NotificationSchema.message n = m ∧
    NotificationSchema.isRead n = false ∧
    listNotifications caller s' = (notifications_response l, s') ∧
    data (fst (listNotifications caller s')) = Some l ∧
    n ∈ l.
Proof.
  intros Htitle Ht Hmessage Hm Hu.
  assert (default "all" None ∈ NotificationSchema.roles) as Hrole
    by (by apply includes_elem_of).
  pose proof (createNotification_valid now title message None t m s
                Htitle Ht Hmessage Hm Hrole) as Hcreate.
  eexists _, _, _. split; [exact Hcreate|].
  split; [by rewrite Hcreate|]. do 4 (split; [done|]).
  split; [by apply (listNotifications_found caller j u)|].
  split; [by rewrite (listNotifications_found caller j u)|].
  unfold Notification.sort_newest_first.
  apply list_elem_of_In,
    (Permutation_in _ (Permutation_sym (merge_sort_Permutation _ _))),
    list_elem_of_In, coll_find_elem_of.
  split; [by apply notification_query_all|].
  cbn [notifications set_next_id set_notifications].
  apply elem_of_app. right. by apply list_elem_of_singleton.
Qed.

(** X22.  A notification addressed to a role does not reach that role: the
    notification [POST /admin/notifications] creates for role ["user"],
    ["donor"] or ["admin"] carries no region, and listNotifications asks
    for the caller's own region, so no caller who is not an admin and has
    a region gets it, whatever the caller's role. *)
Theorem role_notification_misses_regional_callers
    (now : Z) (title message : option string) (t m role rg : string)
    (caller : Auth.user) (j : nat) (u : UserSchema.doc) (s : Store) :
  title = Some t → t ≠ "" → message = Some m → m ≠ "" →
  role ∈ ["user"; "donor"; "admin"] →
  coll_findById (Auth.id caller) (users s) = Some (j, u) →
  UserSchema.role u ≠ "admin" →
  UserSchema.region u = Some rg → rg ≠ "" →
  ∃ n s' l,
    createNotification now title message (Some role) s
    = (sendResponse true (Text "Notification created") (Some n) 201, s') ∧
    data (fst (createNotification now title message (Some role) s)) = Some n ∧
    NotificationSchema.role n = role ∧
    NotificationSchema.region n = None ∧
    listNotifications caller s' = (notifications_response l, s') ∧
    data (fst (listNotifications caller s')) = Some l ∧
    n ∉ l.
Proof.
  intros Htitle Ht Hmessage Hm Hrole Hu Hadmin Hrg Hne.
  assert (role ≠ "all") as Hnotall.
  { intros ->. apply includes_elem_of in Hrole. done. }
  assert (default "all" (Some role) ∈ NotificationSchema.roles) as Hlisted.
  { cbn [default from_option id]. rewrite !elem_of_cons in Hrole.
    destruct Hrole as [-> | [-> | [-> | []%elem_of_nil]]];
      by apply includes_elem_of. }
  pose proof (createNotification_valid now title message (Some role) t m s
                Htitle Ht Hmessage Hm Hlisted) as Hcreate.
  eexists _, _, _. split; [exact Hcreate|].
  split; [by rewrite Hcreate|]. do 2 (split; [done|]).
  split; [by apply (listNotifications_found caller j u)|].
  split; [by rewrite (listNotifications_found caller j u)|].
  unfold Notification.sort_newest_first. intros Hin.
  apply list_elem_of_In, (Permutation_in _ (merge_sort_Permutation _ _)),
    list_elem_of_In, coll_find_elem_of in Hin as [Hq _].
  destruct (decide (UserSchema.role u = "donor")) as [Hdonor|Hdonor].
  - apply (notification_query_regional_donor u rg) in Hq; [|done..].
    destruct Hq as [Hall|[_ Hregion]]; [by apply Hnotall|done].
  - apply notification_query_other in Hq; [|done..].
    destruct Hq as [Hall|[_ Hregion]]; [by apply Hnotall|].
    simpl in Hregion. congruence.
Qed.

(** ** Administration: the user list *)

Lemma listUsers_run page limit role s :
  listUsers page limit role s
  = (sendResponse true (Text "Users list")
       (Some
          (mkUsersPage
             (map without_password_hash
                (take (Pos.to_nat limit * 1)
                   (drop ((Pos.to_nat page - 1) * Pos.to_nat limit)
                      (listed role s))))
             (ceil_div (length (listed role s)) (Pos.to_nat limit))
             (Pos.to_nat page)))
       200, s).
Proof. done. Qed.

Lemma users_of_page_eq page limit role s :
  1 ≤ page → 1 ≤ limit →
  users_of_page page limit role s
  = map without_password_hash
      (take limit (drop ((page - 1) * limit) (listed role s))).
Proof.
  intros Hpage Hlimit. unfold users_of_page. rewrite listUsers_run.
  cbn [fst data page_users sendResponse].
  rewrite !Nat2Pos.id by lia. by rewrite Nat.mul_1_r.
Qed.

Lemma pages_concat {A B} (f : A → B) (l : list A) (size n : nat) :
  concat (map (λ page, map f (take size (drop ((page - 1) * size) l)))
            (seq 1 n))
  = map f (take (n * size) l).
Proof.
  induction n as [|n IH]; [done|].
  rewrite seq_S, map_app, concat_app, IH. simpl.
  rewrite app_nil_r, <- map_app. f_equal.
  replace (n - 0) with n by lia.
  rewrite take_take_drop. f_equal. lia.
Qed.

Lemma ceil_div_covers (count limit : nat) :
  1 ≤ limit → count ≤ ceil_div count limit * limit.
Proof.
  intros Hlimit. unfold ceil_div.
  pose proof (Nat.div_mod (count + limit - 1) limit ltac:(lia)) as Hdiv.
  pose proof (Nat.mod_upper_bound (count + limit - 1) limit ltac:(lia)).
  nia.
Qed.

Lemma ceil_div_tight (count limit : nat) :
  1 ≤ limit → 1 ≤ count → (ceil_div count limit - 1) * limit < count.
Proof.
  intros Hlimit Hcount. unfold ceil_div.
  pose proof (Nat.div_mod (count + limit - 1) limit ltac:(lia)) as Hdiv.
  pose proof (Nat.mod_upper_bound (count + limit - 1) limit ltac:(lia)).
  nia.
Qed.

(** X23.  The pages of [GET /admin/users] cut the listing without loss or
    overlap: for a positive [limit], the pages 1 to [totalPages], one
    after the other, are exactly the selected users in the store's order
    (without [password_hash]); no page holds more than [limit] users;
    every page past [totalPages] is empty, and the last page within it is
    not. *)
Theorem user_pages_partition_the_listing
    (limit : nat) (role : option string) (s : Store) :
  1 ≤ limit →
  let pages := ceil_div (length (listed role s)) limit in
  concat (map (λ page, users_of_page page limit role s) (seq 1 pages))
  = map without_password_hash (listed role s) ∧
  (∀ page, 1 ≤ page → length (users_of_page page limit role s) ≤ limit) ∧
  (∀ page, pages < page → users_of_page page limit role s = []) ∧
  (1 ≤ pages → users_of_page pages limit role s ≠ []) ∧
  (∀ page, 1 ≤ page →
     totalPages
     <$> data (fst (listUsers (Pos.of_nat page) (Pos.of_nat limit) role s))
     = Some pages).
Proof.
  intros Hlimit pages.
  pose proof (ceil_div_covers (length (listed role s)) limit Hlimit) as Hcover.
  fold pages in Hcover. split_and!.
  - rewrite (map_ext_in _
               (λ page, map without_password_hash
                          (take limit
                             (drop ((page - 1) * limit) (listed role s))))).
    2: { intros page [Hpage _]%in_seq. by apply users_of_page_eq. }
    rewrite pages_concat. by rewrite take_ge.
  - intros page Hpage. rewrite users_of_page_eq by done.
    rewrite length_map, length_take. lia.
  - intros page Hpage. rewrite users_of_page_eq by lia.
    rewrite drop_ge; [by rewrite take_nil|]. nia.
  - intros Hpages. rewrite users_of_page_eq by done.
    assert (1 ≤ length (listed role s)) as Hcount.
    { destruct (length (listed role s)) eqn:Hlen; [|lia].
      unfold pages, ceil_div in Hpages.
      rewrite Nat.div_small in Hpages by lia. lia. }
    pose proof (ceil_div_tight _ limit Hlimit Hcount) as Htight.
    fold pages in Htight.
    intros Hnil%(f_equal length). rewrite length_map, length_take in Hnil.
    rewrite length_drop in Hnil. simpl in Hnil. lia.
  - intros page Hpage. rewrite listUsers_run.
    cbn [fst data sendResponse fmap option_fmap option_map totalPages].
    by rewrite Nat2Pos.id by lia.
Qed.

(** ** Administration: roles, deletion, verification, status override *)

Lemma recordDonation_no_profile now req_user units notes s :
  coll_findOne (own_profile req_user) (donors s) = None →
  recordDonation now req_user units notes s
  = Some (sendResponse false (Text "Donor profile not found") None 404, s).
Proof.
  intros Hnone.
  unfold recordDonation, partial_try_catch, partial_bind, followed,
    Donor.findOne, get.
  change (λ d, Nat.eqb (DonorSchema.user_id d) (Auth.id req_user))
    with (own_profile req_user).
  by rewrite Hnone.
Qed.

Lemma setAvailability_no_profile req_user v s :
  coll_findOne (own_profile req_user) (donors s) = None →
  setAvailability req_user v s
  = (sendResponse false (Text "Donor profile not found") None 404, s).
Proof.
  intros Hnone.
  unfold setAvailability, try_catch, bind, Donor.findOneAndUpdate.
  change (λ d, Nat.eqb (DonorSchema.user_id d) (Auth.id req_user))
    with (own_profile req_user).
  by rewrite Hnone.
Qed.

Lemma getHistory_no_profile req_user s :
  coll_findOne (own_profile req_user) (donors s) = None →
  getHistory req_user s
  = (sendResponse false (Text "Donor not found") None 404, s).
Proof.
  intros Hnone. unfold getHistory, try_catch, bind, Donor.findOne, get.
  change (λ d, Nat.eqb (DonorSchema.user_id d) (Auth.id req_user))
    with (own_profile req_user).
  by rewrite Hnone.
Qed.

(** X24.  Changing a role changes nothing but the role: a user whom
    [PUT /admin/users/:id] makes a donor gets no Donor profile, so that,
    though the donor routes now let the user in, donating, setting
    availability and reading the history are all answered 404. *)
Theorem promoted_donor_has_no_profile
    (id : ObjectId) (k : nat) (u : UserSchema.doc) (now : Z)
    (units : jsval) (notes : option string) (v : jsval) (s : Store) :
  coll_findById id (users s) = Some (k, u) →
  coll_findOne (Donors.by_user id) (donors s) = None →
  let promoted := Auth.mk id "donor" in
  ∃ s',
    updateUserRole (Some id) "donor" s
    = (sendResponse true (Text "User updated")
         (Some (without_password_hash (with_role "donor" u))) 200, s') ∧
    coll_findById id (users s') = Some (k, with_role "donor" u) ∧
    donors s' = donors s ∧
    post_donors_donate now promoted units notes s'
    = Some (sendResponse false (Text "Donor profile not found") None 404, s') ∧
    put_donors_availability promoted v s'
    = (sendResponse false (Text "Donor profile not found") None 404, s') ∧
    get_donors_history promoted s'
    = (sendResponse false (Text "Donor not found") None 404, s') ∧
    data (fst (updateUserRole (Some id) "donor" s))
    = Some (without_password_hash (with_role "donor" u)) ∧
    UserSchema.role (with_role "donor" u) = "donor".
Proof.
  intros Hu Hnone promoted.
  exists (set_users (<[k := with_role "donor" u]> (users s)) s).
  assert (doc_id (with_role "donor" u) = id) as Hid.
  { by apply coll_findById_id in Hu. }
  assert (Auth.role promoted ∈ ["donor"]) as Hgate
    by (by apply includes_elem_of).
  assert (updateUserRole (Some id) "donor" s
          = (sendResponse true (Text "User updated")
               (Some (without_password_hash (with_role "donor" u))) 200,
             set_users (<[k := with_role "donor" u]> (users s)) s)) as Hrun.
  { unfold updateUserRole, try_catch, bind, Users.findByIdAndUpdate.
    rewrite Hu. by rewrite (coll_update_found id _ _ k u). }
  split_and!; [exact Hrun| | | | | |by rewrite Hrun|done].
  - by apply (coll_save_by_id (users s) id k u).
  - done.
  - unfold post_donors_donate. rewrite restrictTo_partial_allowed by done.
    by apply recordDonation_no_profile.
  - unfold put_donors_availability. rewrite restrictTo_allowed by done.
    by apply setAvailability_no_profile.
  - unfold get_donors_history. rewrite restrictTo_allowed by done.
    by apply getHistory_no_profile.
Qed.

Section delete_facts.
Context {D : Type}.

(** With distinct keys, deleting the first document with a key leaves none
    with it. *)
Lemma coll_deleteOne_gone (key : D → nat) (id : nat) (c : list D) :
  NoDup (key <$> c) →
  ∀ d, d ∈ coll_deleteOne (λ d, Nat.eqb (key d) id) c → key d ≠ id.
Proof.
  intros Hnodup d Hd Hkey. unfold coll_deleteOne in Hd.
  destruct (list_find _ c) as [[k d0]|] eqn:Hfind.
  - apply list_find_Some in Hfind as (Hk & Hq & _).
    apply Is_true_true, Nat.eqb_eq in Hq.
    rewrite delete_take_drop in Hd.
    rewrite <- (take_drop_middle c k d0 Hk) in Hnodup.
    rewrite fmap_app, fmap_cons in Hnodup.
    apply NoDup_app in Hnodup as (_ & Hleft & Hright).
    apply NoDup_cons in Hright as [Hright _].
    apply elem_of_app in Hd as [Hd|Hd].
    + apply (Hleft (key d)); [by apply list_elem_of_fmap_2|].
      rewrite Hkey, <- Hq. left.
    + apply Hright. rewrite Hq, <- Hkey. by apply list_elem_of_fmap_2.
  - rewrite list_find_None, Forall_forall in Hfind.
    apply (Hfind d Hd). apply Is_true_true, Nat.eqb_eq. done.
Qed.

Lemma coll_deleteOne_found (q : D → bool) (c : list D) k d :
  list_find (λ d, Is_true (q d)) c = Some (k, d) →
  coll_deleteOne q c = delete k c.
Proof. intros Hfind. unfold coll_deleteOne. by rewrite Hfind. Qed.
End delete_facts.

(** X25.  Deleting a user removes the user and the user's Donor profile
    and nothing else: in a store with distinct user ids and one profile
    per user at most, after [DELETE /admin/users/:id] no user has the id
    and no profile belongs to it, while the requests the user made stay
    stored, and listRequests shows them to an admin with no requester. *)
Theorem deleted_user_leaves_requests_behind
    (id : ObjectId) (k : nat) (u : UserSchema.doc) (admin : Auth.user)
    (s : Store) :
  NoDup (UserSchema._id <$> users s) →
  NoDup (DonorSchema.user_id <$> donors s) →
  coll_findById id (users s) = Some (k, u) →
  Auth.role admin = "admin" →
  ∃ s' l,
    deleteUser (Some id) s
    = (sendResponse true (Text "User deleted") None 200, s') ∧
    users s' = delete k (users s) ∧
    coll_findById id (users s') = None ∧
    coll_findOne (Donors.by_user id) (donors s') = None ∧
    requests s' = requests s ∧
    listRequests admin s' = (requests_response l, s') ∧
    data (fst (listRequests admin s')) = Some l ∧
    RequestSchema.stored <$> l ≡ₚ requests s ∧
    Forall (λ p, RequestSchema.requester_id (RequestSchema.stored p) = id →
                 RequestSchema.requester_of p = None) l.
Proof.
  intros Husers Hdonors Hu Hadmin.
  set (s' := set_donors (coll_deleteOne (Donors.by_user id) (donors s))
               (set_users (coll_deleteOne (has_id id) (users s)) s)).
  assert (coll_findById id (users s') = None) as Hgone.
  { apply coll_findOne_None. intros d Hd.
    apply Nat.eqb_neq.
    by apply (coll_deleteOne_gone UserSchema._id id (users s)). }
  exists s'. eexists. split_and!.
  - done.
  - cbn [users s' set_donors set_users].
    by apply (coll_deleteOne_found _ _ k u).
  - done.
  - apply coll_findOne_None. intros d Hd. apply Nat.eqb_neq.
    by apply (coll_deleteOne_gone DonorSchema.user_id id (donors s)).
  - done.
  - by apply listRequests_admin.
  - by rewrite listRequests_admin.
  - rewrite coll_find_all. apply sorted_populated.
  - apply Forall_forall. intros p Hp Hreq.
    apply list_elem_of_fmap in Hp as (d & -> & _).
    cbn [RequestSchema.stored] in Hreq.
    cbn [RequestSchema.requester_of]. rewrite Hreq, Hgone. done.
Qed.

(** X26.  Verifying a donor sets the reputation to 10 and nothing else,
    however often it is done, and does not report a missing profile: for
    a user without a profile the answer is the same success, with no data,
    and the store is as it was. *)
Theorem verifyDonor_effect
    (verified unknown : ObjectId) (k : nat) (d : DonorSchema.doc)
    (s : Store) :
  coll_findOne (Donors.by_user verified) (donors s) = Some (k, d) →
  coll_findOne (Donors.by_user unknown) (donors s) = None →
  let d' := with_reputation 10 d in
  let s' := set_donors (<[k := d']> (donors s)) s in
  verifyDonor (Some verified) s
  = (sendResponse true (Text "Donor verified (reputation updated)")
       (Some d') 200, s') ∧
  DonorSchema.reputation d' = 10%Z ∧
  DonorSchema.availability d' = DonorSchema.availability d ∧
  DonorSchema.donation_log d' = DonorSchema.donation_log d ∧
  DonorSchema.last_donation_date d' = DonorSchema.last_donation_date d ∧
  verifyDonor (Some verified) s'
  = (sendResponse true (Text "Donor verified (reputation updated)")
       (Some d') 200, s') ∧
  verifyDonor (Some unknown) s
  = (sendResponse true (Text "Donor verified (reputation updated)")
       None 200, s) ∧
  data (fst (verifyDonor (Some verified) s)) = Some d' ∧
  data (fst (verifyDonor (Some unknown) s)) = None.
Proof.
  intros Hfound Hnone d' s'.
  assert (Donors.by_user verified d' = true) as Hown.
  { apply coll_findOne_elem_of in Hfound as [_ Hown]. exact Hown. }
  pose proof (coll_findOne_insert _ _ _ _ d' Hfound Hown) as Hfound'.
  split_and!; try done.
  - unfold verifyDonor, try_catch, bind, Donors.findOneAndUpdate_by_user,
      Donor.findOneAndUpdate.
    by rewrite Hfound.
  - unfold verifyDonor, try_catch, bind, Donors.findOneAndUpdate_by_user,
      Donor.findOneAndUpdate.
    cbn [donors s' set_donors]. rewrite Hfound'.
    rewrite list_insert_insert_eq. done.
  - unfold verifyDonor, try_catch, bind, Donors.findOneAndUpdate_by_user,
      Donor.findOneAndUpdate.
    by rewrite Hnone.
  - unfold verifyDonor, try_catch, bind, Donors.findOneAndUpdate_by_user,
      Donor.findOneAndUpdate.
    by rewrite Hfound.
  - unfold verifyDonor, try_catch, bind, Donors.findOneAndUpdate_by_user,
      Donor.findOneAndUpdate.
    by rewrite Hnone.
Qed.

(** X27.  The admin override writes the status as given, checked against
    nothing, and stamps no approver: any string becomes the stored status,
    ["Approved"] included, while [approved_by] stays what it was; a later
    updateRequestStatus with a valid status still goes through. *)
Theorem admin_override_is_unchecked
    (i : ObjectId) (k : nat) (d : RequestSchema.doc) (status next : string)
    (actor : Auth.user) (s : Store) :
  coll_findById i (requests s) = Some (k, d) →
  RequestSchema.blood_group d ∈ blood_types →
  RequestSchema.region d ≠ "" →
  next ∈ validStatuses → next ≠ "Approved" →
  let d1 := RequestSchema.set_status status d in
  let s1 := set_requests (<[k := d1]> (requests s)) s in
  overrideRequestStatus (Some i) status s
  = (sendResponse true (Text "Request status updated") (Some d1) 200, s1) ∧
  RequestSchema.status d1 = status ∧
  RequestSchema.approved_by d1 = RequestSchema.approved_by d ∧
  coll_findById i (requests s1) = Some (k, d1) ∧
  data (fst (overrideRequestStatus (Some i) status s)) = Some d1 ∧
  ∃ s2,
    updateRequestStatus actor (Some i) (Some next) s1
    = (status_updated_response (RequestSchema.set_status next d1), s2) ∧
    coll_findById i (requests s2)
    = Some (k, RequestSchema.set_status next d1) ∧
    RequestSchema.status (RequestSchema.set_status next d1) = next.
Proof.
  intros Hd Hbg Hrg Hnext Hne d1 s1.
  assert (doc_id d1 = i) as Hid by (by apply coll_findById_id in Hd).
  assert (coll_findById i (requests s1) = Some (k, d1)) as Hd1.
  { by apply (coll_save_by_id (requests s) i k d). }
  assert (overrideRequestStatus (Some i) status s
          = (sendResponse true (Text "Request status updated") (Some d1) 200,
             s1)) as Hrun.
  { unfold overrideRequestStatus, try_catch, bind,
      Requests.findByIdAndUpdate.
    rewrite Hd. by rewrite (coll_update_found i _ _ k d). }
  split_and!; try done.
  - by rewrite Hrun.
  - eexists. split_and!.
    + by apply (updateRequestStatus_transition actor i k d1 next s1).
    + apply (coll_save_by_id (requests s1) i k d1); [done|].
      by apply coll_findById_id in Hd1.
    + done.
Qed.

(** ** Status updates: more than once *)

(** X28.  An approval is a snapshot that a later approval overwrites: when
    a second actor approves a request that a first actor approved,
    [approved_by] holds the second actor's name and phone. *)
Theorem reapproval_overwrites_approver
    (first second : Auth.user) (i : ObjectId) (k : nat)
    (d : RequestSchema.doc) (j1 j2 : nat) (u1 u2 : UserSchema.doc)
    (s : Store) :
  coll_findById i (requests s) = Some (k, d) →
  RequestSchema.blood_group d ∈ blood_types →
  RequestSchema.region d ≠ "" →
  coll_findById (Auth.id first) (users s) = Some (j1, u1) →
  coll_findById (Auth.id second) (users s) = Some (j2, u2) →
  ∃ r1 s1 r2 s2 d2,
    updateRequestStatus first (Some i) (Some "Approved") s = (r1, s1) ∧
    updateRequestStatus second (Some i) (Some "Approved") s1 = (r2, s2) ∧
    http_status r2 = 200 ∧
    coll_findById i (requests s2) = Some (k, d2) ∧
    RequestSchema.approved_by d2
    = Some (RequestSchema.mk_approver (UserSchema.full_name u2)
              (UserSchema.phone u2)).
Proof.
  intros Hd Hbg Hrg Hu1 Hu2.
  pose proof (coll_findById_id _ _ _ _ Hd) as Hid.
  set (d1 := RequestSchema.set_status "Approved"
               (RequestSchema.set_approved_by (approver_of u1) d)).
  set (s1 := set_requests (<[k := d1]> (requests s)) s).
  assert (coll_findById i (requests s1) = Some (k, d1)) as Hd1.
  { by apply (coll_save_by_id (requests s) i k d d1 Hd). }
  set (d2 := RequestSchema.set_status "Approved"
               (RequestSchema.set_approved_by (approver_of u2) d1)).
  exists (status_updated_response d1), s1, (status_updated_response d2),
         (set_requests (<[k := d2]> (requests s1)) s1), d2.
  split_and!.
  - exact (updateRequestStatus_approve first i k d j1 u1 s Hbg Hrg Hd Hu1).
  - exact (updateRequestStatus_approve second i k d1 j2 u2 s1 Hbg Hrg Hd1 Hu2).
  - done.
  - by apply (coll_save_by_id (requests s1) i k d1 d2 Hd1).
  - done.
Qed.

(** X29.  The status of a request follows no state machine: whatever run
    of valid statuses other than ["Approved"] is applied, in any order
    and from any state (also back from ["Fulfilled"] to ["Pending"]),
    every step is answered 200 with the request in the status asked for;
    the request ends in the last status given, with everything else,
    [approved_by] included, as it was. *)
Theorem any_run_of_statuses_is_accepted
    (actor : Auth.user) (i : ObjectId) (k : nat) (d : RequestSchema.doc)
    (statuses : list string) (s : Store) :
  coll_findById i (requests s) = Some (k, d) →
  RequestSchema.blood_group d ∈ blood_types →
  RequestSchema.region d ≠ "" →
  Forall (λ x, x ∈ validStatuses ∧ x ≠ "Approved") statuses →
  ∃ answers s' final,
    update_statuses actor i statuses s = (answers, s') ∧
    Forall2 (λ x r, http_status r = 200 ∧ success r = true
                    ∧ ∃ d', data r = Some d'
                            ∧ RequestSchema._id d' = RequestSchema._id d
                            ∧ RequestSchema.status d' = x
                            ∧ RequestSchema.approved_by d'
                              = RequestSchema.approved_by d)
      statuses answers ∧
    coll_findById i (requests s') = Some (k, final) ∧
    RequestSchema.status final
    = default (RequestSchema.status d) (last statuses) ∧
    RequestSchema.approved_by final = RequestSchema.approved_by d ∧
    RequestSchema.requester_id final = RequestSchema.requester_id d ∧
    RequestSchema.blood_group final = RequestSchema.blood_group d ∧
    RequestSchema.region final = RequestSchema.region d ∧
    RequestSchema.hospital final = RequestSchema.hospital d ∧
    RequestSchema.notes final = RequestSchema.notes d ∧
    RequestSchema.createdAt final = RequestSchema.createdAt d.
Proof.
  intros Hd Hbg Hrg Hall. revert d s Hd Hbg Hrg.
  induction Hall as [|x xs [Hx Hne] _ IH]; intros d s Hd Hbg Hrg.
  - exists [], s, d. by split_and!.
  - set (d1 := RequestSchema.set_status x d).
    set (s1 := set_requests (<[k := d1]> (requests s)) s).
    assert (coll_findById i (requests s1) = Some (k, d1)) as Hd1.
    { apply (coll_save_by_id (requests s) i k d); [done|].
      by apply coll_findById_id in Hd. }
    destruct (IH d1 s1 Hd1 Hbg Hrg)
      as (answers & s' & final & Hrun & Hanswers & Hfinal & Hstatus & Happroved
          & Hrequester & Hgroup & Hregion & Hhospital & Hnotes & Hcreated).
    exists (status_updated_response d1 :: answers), s', final.
    split_and!; try done.
    + cbn [update_statuses].
      rewrite (updateRequestStatus_transition actor i k d x s) by done.
      fold d1 s1. by rewrite Hrun.
    + constructor.
      * split_and!; [done..|]. by exists d1.
      * eapply Forall2_impl; [exact Hanswers|].
        intros y r (Hy & Hok & d' & Hdata & Hid & Hst & Hap).
        split_and!; [done..|]. by exists d'.
    + rewrite Hstatus. destruct xs as [|y ys]; [done|].
      rewrite last_cons_cons.
      destruct (last (y :: ys)) as [z|] eqn:Hlast; [done|].
      by apply last_None in Hlast.
Qed.

(** ** Request submission on a well-formed store *)

(** X30.  On a store where every user's region, when set, is one of the
    schema's four (as registration ensures), a request with present blood
    group and region, a blood group of the enum and a status absent or of
    the enum is always answered 201: the fan-out cannot fail, whatever the
    request's region. *)
Theorem submitRequest_succeeds_on_valid_users
    (now : Z) (req_user : Auth.user) (body : RequestBody) (G R : string)
    (s : Store) :
  Forall (λ u, ∀ rg, UserSchema.region u = Some rg → rg ∈ regions)
    (users s) →
  body_blood_group body = Some G → G ∈ blood_types →
  body_region body = Some R → R ≠ "" →
  (∀ st, body_status body = Some st → st ∈ RequestSchema.statuses) →
  ∃ d s',
    submitRequest now req_user body s = (submitted_response d, s') ∧
    requests s' = requests s ++ [d] ∧
    http_status (fst (submitRequest now req_user body s)) = 201 ∧
    success (fst (submitRequest now req_user body s)) = true ∧
    data (fst (submitRequest now req_user body s)) = Some d.
Proof.
  intros Husers HG HGin HR HRne Hst.
  assert (G ≠ "") as HGne.
  { intros ->. apply includes_elem_of in HGin. done. }
  rewrite (submitRequest_present now req_user body G R s) by done.
  apply includes_elem_of in HGin. rewrite HGin.
  assert (includes RequestSchema.statuses
            (default "Pending" (body_status body)) = true) as ->.
  { destruct (body_status body) as [st|]; [|done].
    apply includes_elem_of. by apply Hst. }
  cbv [andb].
  destruct (decide (coll_find (matching_donor G R) (users s) = []))
    as [Hnil|Hsome]; [by eexists _, _|].
  assert (includes regions R = true) as ->; [|by eexists _, _].
  destruct (coll_find (matching_donor G R) (users s)) as [|u l] eqn:Hmatch;
    [done|].
  assert (u ∈ coll_find (matching_donor G R) (users s)) as Hu
    by (rewrite Hmatch; left).
  apply coll_find_elem_of in Hu as [Hq Hu].
  apply matching_donor_spec in Hq as (_ & _ & Hregion).
  rewrite Forall_forall in Husers.
  apply includes_elem_of. by apply (Husers u Hu).
Qed.

(** * The further properties on the sample store *)

Lemma register_duplicate_email_witness :
  register Desk.hashPassword Desk.generateToken Desk.ann_again Sample.store
  = (sendResponse false (Text "User already exists") None 409, Sample.store).
Proof.
  refine (register_duplicate_email Desk.hashPassword Desk.generateToken
            Desk.ann_again "ann@mail" Sample.ann Sample.store
            eq_refl eq_refl eq_refl eq_refl _ _ eq_refl).
  - discriminate.
  - left.
Defined.

Lemma register_keeps_emails_distinct_witness :
  NoDup (UserSchema.email <$> users Desk.with_dora).
Proof.
  apply (register_keeps_emails_distinct Desk.hashPassword Desk.generateToken
           Desk.dora Sample.store).
  compute_done.
Defined.

Lemma register_all_or_nothing_witness :
  http_status
    (fst (register Desk.hashPassword Desk.generateToken Desk.no_phone
            Sample.store)) = 500
  ∧ snd (register Desk.hashPassword Desk.generateToken Desk.no_phone
           Sample.store) = Sample.store.
Proof.
  split; [reflexivity|].
  refine (register_all_or_nothing Desk.hashPassword Desk.generateToken
            Desk.no_phone Sample.store _ _ _ eq_refl _).
  - intros payload. by eexists.
  - discriminate.
Defined.

Lemma register_stores_schema_valid_user_witness :
  ∃ d t,
    users Desk.with_dora = users Sample.store ++ [d] ∧
    data Desk.dora_answer = Some (mkAuthData t (auth_view d)) ∧
    UserSchema.role d = "donor" ∧
    UserSchema.role d ∈ Users.roles ∧
    UserSchema.blood_type d ∈ blood_types ∧
    Desk.hashPassword (Some "secret") = Ok (UserSchema.password_hash d) ∧
    (UserSchema.role d = "admin" → UserSchema.region d = None) ∧
    (UserSchema.role d ≠ "admin" →
     ∃ rg, UserSchema.region d = Some rg ∧ rg ∈ regions
           ∧ Some "West" = Some rg).
Proof.
  exact (register_stores_schema_valid_user Desk.hashPassword
           Desk.generateToken Desk.dora Sample.store Desk.dora_answer
           Desk.with_dora eq_refl eq_refl).
Defined.

Lemma register_creates_donor_profile_witness :
  ∃ d,
    users Desk.with_dora = users Sample.store ++ [d] ∧
    UserSchema._id d = 50 ∧
    (UserSchema.role d = "donor" →
     ∃ p, donors Desk.with_dora = donors Sample.store ++ [p] ∧
          DonorSchema.user_id p = UserSchema._id d ∧
          DonorSchema.availability p = true ∧
          DonorSchema.reputation p = 5%Z ∧
          DonorSchema.last_donation_date p = None ∧
          DonorSchema.donation_log p = []) ∧
    (UserSchema.role d ≠ "donor" → donors Desk.with_dora = donors Sample.store) ∧
    bloodinventories Desk.with_dora = bloodinventories Sample.store ∧
    requests Desk.with_dora = requests Sample.store ∧
    notifications Desk.with_dora = notifications Sample.store.
Proof.
  exact (register_creates_donor_profile Desk.hashPassword Desk.generateToken
           Desk.dora Sample.store Desk.dora_answer Desk.with_dora
           eq_refl eq_refl).
Defined.

Lemma register_without_phone_witness :
  ∃ r, register Desk.hashPassword Desk.generateToken Desk.no_phone
         Sample.store = (r, Sample.store)
       ∧ http_status r = 500 ∧ success r = false.
Proof.
  exact (register_without_phone Desk.hashPassword Desk.generateToken
           Desk.no_phone Sample.store eq_refl eq_refl eq_refl eq_refl
           eq_refl eq_refl).
Defined.

Lemma login_after_register_witness :
  ∃ t t' who,
    data Desk.dora_answer = Some (mkAuthData t who) ∧
    login Desk.comparePassword Desk.generateToken (Some "dora@mail")
      (Some "secret") Desk.with_dora
    = (sendResponse true (Text "Login successful")
         (Some (mkAuthData t' who)) 200, Desk.with_dora).
Proof.
  refine (login_after_register Desk.hashPassword Desk.comparePassword
            Desk.generateToken Desk.dora Sample.store Desk.dora_answer
            Desk.with_dora _ eq_refl eq_refl).
  intros h Hh. injection Hh as <-. reflexivity.
Defined.

Lemma login_rejects_witness :
  login Desk.comparePassword Desk.generateToken (Some "ann@mail")
    (Some "guess") Sample.store
  = (sendResponse false (Text "Invalid credentials") None 401, Sample.store).
Proof.
  exact (login_rejects Desk.comparePassword Desk.generateToken
           (Some "ann@mail") (Some "guess") Sample.store eq_refl).
Defined.

Lemma protect_accepts_bearer_witness :
  protect Desk.jwt_verify (Some "Bearer ann.token") getHistory
  = getHistory Sample.as_ann.
Proof.
  refine (protect_accepts_bearer Desk.jwt_verify "Bearer" "ann.token"
            Sample.as_ann getHistory eq_refl _ _ _ eq_refl).
  - repeat split; discriminate.
  - repeat split; discriminate.
  - discriminate.
Defined.

Lemma protect_rejects_witness :
  protect Desk.jwt_verify None getHistory Sample.store
  = (mkResponse 401 false (Text "Not authorized, no token") None,
     Sample.store) ∧
  protect Desk.jwt_verify (Some "Basic YW5u") getHistory Sample.store
  = (mkResponse 401 false (Text "Not authorized, no token") None,
     Sample.store) ∧
  protect Desk.jwt_verify (Some "Bearer  ann.token") getHistory Sample.store
  = (mkResponse 401 false (Text "Not authorized, no token") None,
     Sample.store) ∧
  protect Desk.jwt_verify (Some "Bearer bob.token") getHistory Sample.store
  = (mkResponse 401 false (Text "Not authorized, token failed") None,
     Sample.store).
Proof.
  refine (protect_rejects Desk.jwt_verify "Basic YW5u" "Bearer" "ann.token"
            "bob.token" SyntaxError getHistory Sample.store eq_refl eq_refl
            _ _ _ eq_refl).
  - repeat split; discriminate.
  - repeat split; discriminate.
  - discriminate.
Defined.

Lemma self_service_routes_refuse_other_roles_witness :
  (post_donors_donate 100 Sample.as_bob (JNumber 1) None Sample.store
   = Some (forbidden, Sample.store) ∧
   put_donors_availability Sample.as_bob (JBool true) Sample.store
   = (forbidden, Sample.store) ∧
   get_donors_availability Sample.as_bob Sample.store
   = (forbidden, Sample.store) ∧
   get_donors_history Sample.as_bob Sample.store = (forbidden, Sample.store) ∧
   get_donors_requests Sample.as_bob Sample.store = (forbidden, Sample.store))
  ∧ (post_requests 100 Sample.as_ann Sample.body Sample.store
     = (forbidden, Sample.store) ∧
     get_requests_user Sample.as_ann Sample.store = (forbidden, Sample.store) ∧
     get_dashboard_user_stats Sample.as_ann Sample.store
     = (forbidden, Sample.store)).
Proof.
  refine (self_service_routes_refuse_other_roles Sample.as_bob Sample.as_ann
            100 (JNumber 1) None (JBool true) Sample.body Sample.store _ _);
    discriminate.
Defined.

Lemma admin_routes_refuse_other_roles_witness :
  post_admin_notifications 100 Sample.as_bob (Some "Drive") (Some "Come")
    None Sample.store = (forbidden, Sample.store) ∧
  get_admin_users Sample.as_bob 1 10 None Sample.store
  = (forbidden, Sample.store) ∧
  put_admin_users Sample.as_bob (Some 2) "admin" Sample.store
  = (forbidden, Sample.store) ∧
  delete_admin_users Sample.as_bob (Some 2) Sample.store
  = (forbidden, Sample.store) ∧
  put_admin_donors_verify Sample.as_bob (Some 2) Sample.store
  = (forbidden, Sample.store) ∧
  put_admin_requests_status Sample.as_bob (Some 2) "Fulfilled" Sample.store
  = (forbidden, Sample.store).
Proof.
  refine (admin_routes_refuse_other_roles Sample.as_bob 100 (Some "Drive")
            (Some "Come") None 1 10 (Some 2) "admin" "Fulfilled"
            Sample.store _).
  discriminate.
Defined.

Lemma availability_reads_back_witness :
  ∃ b s',
    setAvailability Sample.as_ann (JString "true") Sample.store
    = (sendResponse true (Text "Availability updated") (Some b) 200, s') ∧
    getAvailability Sample.as_ann s'
    = (sendResponse true (Text "Availability fetched successfully")
         (Some b) 200, s') ∧
    setAvailability Sample.as_ann (JString "true") s'
    = (sendResponse true (Text "Availability updated") (Some b) 200, s') ∧
    data (fst (setAvailability Sample.as_ann (JString "true") Sample.store))
    = Some b ∧
    data (fst (getAvailability Sample.as_ann s')) = Some b ∧
    DonorSchema.availability ∘ snd
    <$> coll_findOne (own_profile Sample.as_ann) (donors s') = Some b.
Proof.
  exact (availability_reads_back Sample.as_ann (JString "true") 0
           Sample.ann_profile Sample.store eq_refl).
Defined.

Lemma history_after_donation_witness :
  ∃ r s' e,
    recordDonation 200 Sample.as_ann (JNumber 2) None Sample.store
    = Some (r, s') ∧
    getHistory Sample.as_ann Sample.store
    = (sendResponse true (Text "Donation history fetched") (Some []) 200,
       Sample.store) ∧
    getHistory Sample.as_ann s'
    = (sendResponse true (Text "Donation history fetched")
         (Some ([] ++ [e])) 200, s') ∧
    DonorSchema.date e = 200%Z ∧
    DonorSchema.units e = 2%Z ∧
    (JNumber 2 = JUndefined → 2%Z = 1%Z) ∧
    (∀ m, JNumber 2 = JNumber m → isSafeInteger m = true → 2%Z = m) ∧
    DonorSchema.notes e = "Recorded via dashboard" ∧
    data (fst (getHistory Sample.as_ann Sample.store)) = Some [] ∧
    data (fst (getHistory Sample.as_ann s')) = Some ([] ++ [e]).
Proof.
  refine (history_after_donation 200 Sample.as_ann (JNumber 2) 2 None 0
            Sample.ann_profile 0 Sample.ann Sample.store eq_refl eq_refl
            eq_refl _ _).
  - by apply includes_elem_of.
  - intros k row [= <- <-]. split; [by apply includes_elem_of|by eexists].
Defined.

Lemma recordDonation_fails_after_logging_witness :
  ∃ r s' i' d',
    recordDonation 200 Sample.as_ann JUndefined (Some "walk-in") Desk.orphaned
    = Some (r, s') ∧
    http_status r = 500 ∧ success r = false ∧
    coll_findOne (own_profile Sample.as_ann) (donors s') = Some (i', d') ∧
    DonorSchema.donation_log d'
    = [] ++ [donation_entry 200 1 (Some "walk-in")] ∧
    DonorSchema.units (donation_entry 200 1 (Some "walk-in")) = 1%Z ∧
    bloodinventories s' = [].
Proof.
  exact (recordDonation_fails_after_logging 200 Sample.as_ann JUndefined 1
           (Some "walk-in") 0 Sample.ann_profile Desk.orphaned
           eq_refl eq_refl eq_refl).
Defined.

Lemma donation_raises_dashboard_total_witness :
  ∃ r s' before after,
    recordDonation 200 Sample.as_ann (JNumber 2) None Sample.store
    = Some (r, s') ∧
    http_status r = 200 ∧
    data (fst (userStats Sample.as_bob Sample.store)) = Some before ∧
    data (fst (userStats Sample.as_bob s')) = Some after ∧
    stats_bloodUnits after = (stats_bloodUnits before + 2)%Z.
Proof.
  refine (donation_raises_dashboard_total 200 Sample.as_ann Sample.as_bob
            (JNumber 2) 2 None 0 Sample.ann_profile 0 Sample.ann Sample.store
            (or_introl eq_refl) eq_refl eq_refl eq_refl _ _ _).
  - by apply includes_elem_of.
  - intros k row [= <- <-]. by apply includes_elem_of.
  - compute_done.
Defined.

Lemma submitRequest_raises_request_count_witness :
  ∃ mine mine' theirs theirs',
    data (fst (userStats Sample.as_bob Sample.store)) = Some mine ∧
    data (fst (userStats Sample.as_bob
                 (snd (submitRequest 100 Sample.as_bob Sample.body
                         Sample.store))))
    = Some mine' ∧
    data (fst (userStats Sample.as_ann Sample.store)) = Some theirs ∧
    data (fst (userStats Sample.as_ann
                 (snd (submitRequest 100 Sample.as_bob Sample.body
                         Sample.store))))
    = Some theirs' ∧
    stats_requests mine' = S (stats_requests mine) ∧
    stats_requests theirs' = stats_requests theirs.
Proof.
  refine (submitRequest_raises_request_count 100 Sample.as_bob Sample.as_ann
            Sample.body "O+" "North" Sample.store eq_refl _ eq_refl _ _ _).
  - by apply includes_elem_of.
  - discriminate.
  - discriminate.
  - discriminate.
Defined.

Lemma pending_requests_match_blood_type_only_witness :
  ∃ l,
    pendingMatchingRequests Sample.as_ann Sample.store
    = (sendResponse true (Text "Pending matching requests") (Some l) 200,
       Sample.store) ∧
    data (fst (pendingMatchingRequests Sample.as_ann Sample.store)) = Some l ∧
    l = filter (λ r, RequestSchema.blood_group r = "O+"
                     ∧ RequestSchema.status r = "Pending")
          (requests Sample.store) ∧
    ∀ r, r ∈ requests Sample.store →
         RequestSchema.blood_group r = "O+" →
         RequestSchema.status r = "Pending" →
         r ∈ l.
Proof.
  exact (pending_requests_match_blood_type_only Sample.as_ann 0 Sample.ann
           Sample.store eq_refl).
Defined.

Lemma markNotificationRead_effect_witness :
  markNotificationRead (Some 40) Sample.store
  = (sendResponse true (Text "Notification marked as read") None 200,
     set_notifications
       (<[0 := marked_read Desk.drive]> (notifications Sample.store))
       Sample.store) ∧
  NotificationSchema.isRead (marked_read Desk.drive) = true ∧
  markNotificationRead (Some 40)
    (set_notifications
       (<[0 := marked_read Desk.drive]> (notifications Sample.store))
       Sample.store)
  = (sendResponse true (Text "Notification marked as read") None 200,
     set_notifications
       (<[0 := marked_read Desk.drive]> (notifications Sample.store))
       Sample.store) ∧
  markNotificationRead (Some 99) Sample.store
  = (sendResponse true (Text "Notification marked as read") None 200,
     Sample.store).
Proof.
  exact (markNotificationRead_effect 40 99 0 Desk.drive Sample.store
           eq_refl eq_refl).
Defined.

Lemma broadcast_reaches_every_user_witness :
  ∃ n s' l,
    createNotification 100 (Some "Drive") (Some "Come") None Sample.store
    = (sendResponse true (Text "Notification created") (Some n) 201, s') ∧
    data (fst (createNotification 100 (Some "Drive") (Some "Come") None
                 Sample.store)) = Some n ∧
    NotificationSchema.role n = "all" ∧
    NotificationSchema.title n = "Drive" ∧
    NotificationSchema.message n = "Come" ∧
    NotificationSchema.isRead n = false ∧
    listNotifications Sample.as_ann s' = (notifications_response l, s') ∧
    data (fst (listNotifications Sample.as_ann s')) = Some l ∧
    n ∈ l.
Proof.
  refine (broadcast_reaches_every_user 100 (Some "Drive") (Some "Come")
            "Drive" "Come" Sample.as_ann 0 Sample.ann Sample.store
            eq_refl _ eq_refl _ eq_refl); discriminate.
Defined.

Lemma role_notification_misses_regional_callers_witness :
  ∃ n s' l,
    createNotification 100 (Some "Drive") (Some "Come") (Some "donor")
      Sample.store
    = (sendResponse true (Text "Notification created") (Some n) 201, s') ∧
    data (fst (createNotification 100 (Some "Drive") (Some "Come")
                 (Some "donor") Sample.store)) = Some n ∧
    NotificationSchema.role n = "donor" ∧
    NotificationSchema.region n = None ∧
    listNotifications Sample.as_ann s' = (notifications_response l, s') ∧
    data (fst (listNotifications Sample.as_ann s')) = Some l ∧
    n ∉ l.
Proof.
  refine (role_notification_misses_regional_callers 100 (Some "Drive")
            (Some "Come") "Drive" "Come" "donor" "North" Sample.as_ann 0
            Sample.ann Sample.store eq_refl _ eq_refl _ _ eq_refl _
            eq_refl _); try discriminate.
  by apply includes_elem_of.
Defined.

Lemma user_pages_partition_the_listing_witness :
  concat (map (λ page, users_of_page page 2 None Sample.store) (seq 1 3))
  = map without_password_hash (listed None Sample.store) ∧
  (∀ page, 1 ≤ page → length (users_of_page page 2 None Sample.store) ≤ 2) ∧
  (∀ page, 3 < page → users_of_page page 2 None Sample.store = []) ∧
  (1 ≤ 3 → users_of_page 3 2 None Sample.store ≠ []) ∧
  (∀ page, 1 ≤ page →
     totalPages
     <$> data (fst (listUsers (Pos.of_nat page) (Pos.of_nat 2) None
                      Sample.store))
     = Some 3).
Proof.
  refine (user_pages_partition_the_listing 2 None Sample.store _). lia.
Defined.

Lemma promoted_donor_has_no_profile_witness :
  ∃ s',
    updateUserRole (Some 2) "donor" Sample.store
    = (sendResponse true (Text "User updated")
         (Some (without_password_hash (with_role "donor" Sample.bob))) 200,
       s') ∧
    coll_findById 2 (users s') = Some (1, with_role "donor" Sample.bob) ∧
    donors s' = donors Sample.store ∧
    post_donors_donate 100 (Auth.mk 2 "donor") JUndefined None s'
    = Some (sendResponse false (Text "Donor profile not found") None 404, s') ∧
    put_donors_availability (Auth.mk 2 "donor") (JBool true) s'
    = (sendResponse false (Text "Donor profile not found") None 404, s') ∧
    get_donors_history (Auth.mk 2 "donor") s'
    = (sendResponse false (Text "Donor not found") None 404, s') ∧
    data (fst (updateUserRole (Some 2) "donor" Sample.store))
    = Some (without_password_hash (with_role "donor" Sample.bob)) ∧
    UserSchema.role (with_role "donor" Sample.bob) = "donor".
Proof.
  exact (promoted_donor_has_no_profile 2 1 Sample.bob 100 JUndefined None
           (JBool true) Sample.store eq_refl eq_refl).
Defined.

Lemma deleted_user_leaves_requests_behind_witness :
  ∃ s' l,
    deleteUser (Some 2) Sample.store
    = (sendResponse true (Text "User deleted") None 200, s') ∧
    users s' = delete 1 (users Sample.store) ∧
    coll_findById 2 (users s') = None ∧
    coll_findOne (Donors.by_user 2) (donors s') = None ∧
    requests s' = requests Sample.store ∧
    listRequests Sample.as_root s' = (requests_response l, s') ∧
    data (fst (listRequests Sample.as_root s')) = Some l ∧
    RequestSchema.stored <$> l ≡ₚ requests Sample.store ∧
    Forall (λ p, RequestSchema.requester_id (RequestSchema.stored p) = 2 →
                 RequestSchema.requester_of p = None) l.
Proof.
  refine (deleted_user_leaves_requests_behind 2 1 Sample.bob Sample.as_root
            Sample.store _ _ eq_refl eq_refl); compute_done.
Defined.

Lemma verifyDonor_effect_witness :
  verifyDonor (Some 1) Sample.store
  = (sendResponse true (Text "Donor verified (reputation updated)")
       (Some (with_reputation 10 Sample.ann_profile)) 200,
     set_donors
       (<[0 := with_reputation 10 Sample.ann_profile]> (donors Sample.store))
       Sample.store) ∧
  DonorSchema.reputation (with_reputation 10 Sample.ann_profile) = 10%Z ∧
  DonorSchema.availability (with_reputation 10 Sample.ann_profile)
  = DonorSchema.availability Sample.ann_profile ∧
  DonorSchema.donation_log (with_reputation 10 Sample.ann_profile)
  = DonorSchema.donation_log Sample.ann_profile ∧
  DonorSchema.last_donation_date (with_reputation 10 Sample.ann_profile)
  = DonorSchema.last_donation_date Sample.ann_profile ∧
  verifyDonor (Some 1)
    (set_donors
       (<[0 := with_reputation 10 Sample.ann_profile]> (donors Sample.store))
       Sample.store)
  = (sendResponse true (Text "Donor verified (reputation updated)")
       (Some (with_reputation 10 Sample.ann_profile)) 200,
     set_donors
       (<[0 := with_reputation 10 Sample.ann_profile]> (donors Sample.store))
       Sample.store) ∧
  verifyDonor (Some 2) Sample.store
  = (sendResponse true (Text "Donor verified (reputation updated)")
       None 200, Sample.store) ∧
  data (fst (verifyDonor (Some 1) Sample.store))
  = Some (with_reputation 10 Sample.ann_profile) ∧
  data (fst (verifyDonor (Some 2) Sample.store)) = None.
Proof.
  exact (verifyDonor_effect 1 2 0 Sample.ann_profile Sample.store
           eq_refl eq_refl).
Defined.

Lemma admin_override_is_unchecked_witness :
  overrideRequestStatus (Some 30) "Lost" Sample.store
  = (sendResponse true (Text "Request status updated")
       (Some (RequestSchema.set_status "Lost" Sample.first_request)) 200,
     set_requests
       (<[0 := RequestSchema.set_status "Lost" Sample.first_request]>
          (requests Sample.store))
       Sample.store) ∧
  RequestSchema.status (RequestSchema.set_status "Lost" Sample.first_request)
  = "Lost" ∧
  RequestSchema.approved_by
    (RequestSchema.set_status "Lost" Sample.first_request)
  = RequestSchema.approved_by Sample.first_request ∧
  coll_findById 30
    (requests
       (set_requests
          (<[0 := RequestSchema.set_status "Lost" Sample.first_request]>
             (requests Sample.store))
          Sample.store))
  = Some (0, RequestSchema.set_status "Lost" Sample.first_request) ∧
  data (fst (overrideRequestStatus (Some 30) "Lost" Sample.store))
  = Some (RequestSchema.set_status "Lost" Sample.first_request) ∧
  ∃ s2,
    updateRequestStatus Sample.as_bob (Some 30) (Some "Fulfilled")
      (set_requests
         (<[0 := RequestSchema.set_status "Lost" Sample.first_request]>
            (requests Sample.store))
         Sample.store)
    = (status_updated_response
         (RequestSchema.set_status "Fulfilled"
            (RequestSchema.set_status "Lost" Sample.first_request)), s2) ∧
    coll_findById 30 (requests s2)
    = Some (0, RequestSchema.set_status "Fulfilled"
                 (RequestSchema.set_status "Lost" Sample.first_request)) ∧
    RequestSchema.status
      (RequestSchema.set_status "Fulfilled"
         (RequestSchema.set_status "Lost" Sample.first_request))
    = "Fulfilled".
Proof.
  refine (admin_override_is_unchecked 30 0 Sample.first_request "Lost"
            "Fulfilled" Sample.as_bob Sample.store eq_refl _ _ _ _).
  - by apply includes_elem_of.
  - discriminate.
  - by apply includes_elem_of.
  - discriminate.
Defined.

Lemma reapproval_overwrites_approver_witness :
  ∃ r1 s1 r2 s2 d2,
    updateRequestStatus Sample.as_root (Some 30) (Some "Approved") Sample.store
    = (r1, s1) ∧
    updateRequestStatus Sample.as_bob (Some 30) (Some "Approved") s1
    = (r2, s2) ∧
    http_status r2 = 200 ∧
    coll_findById 30 (requests s2) = Some (0, d2) ∧
    RequestSchema.approved_by d2
    = Some (RequestSchema.mk_approver "Bob" "222").
Proof.
  refine (reapproval_overwrites_approver Sample.as_root Sample.as_bob 30 0
            Sample.first_request 4 1 Sample.root Sample.bob Sample.store
            eq_refl _ _ eq_refl eq_refl).
  - by apply includes_elem_of.
  - discriminate.
Defined.

Lemma any_run_of_statuses_is_accepted_witness :
  ∃ answers s' final,
    update_statuses Sample.as_bob 30 ["Fulfilled"; "Critical"; "Pending"]
      Sample.store = (answers, s') ∧
    Forall2 (λ x r, http_status r = 200 ∧ success r = true
                    ∧ ∃ d', data r = Some d'
                            ∧ RequestSchema._id d' = 30
                            ∧ RequestSchema.status d' = x
                            ∧ RequestSchema.approved_by d' = None)
      ["Fulfilled"; "Critical"; "Pending"] answers ∧
    coll_findById 30 (requests s') = Some (0, final) ∧
    RequestSchema.status final = "Pending" ∧
    RequestSchema.approved_by final = None ∧
    RequestSchema.requester_id final = 2 ∧
    RequestSchema.blood_group final = "O+" ∧
    RequestSchema.region final = "North" ∧
    RequestSchema.hospital final = "" ∧
    RequestSchema.notes final = "" ∧
    RequestSchema.createdAt final = 10%Z.
Proof.
  refine (any_run_of_statuses_is_accepted Sample.as_bob 30 0
            Sample.first_request ["Fulfilled"; "Critical"; "Pending"]
            Sample.store eq_refl _ _ _).
  - by apply includes_elem_of.
  - discriminate.
  - repeat constructor; (by apply includes_elem_of) || discriminate.
Defined.

Lemma submitRequest_succeeds_on_valid_users_witness :
  ∃ d s',
    submitRequest 100 Sample.as_bob Sample.body Sample.store
    = (submitted_response d, s') ∧
    requests s' = requests Sample.store ++ [d] ∧
    http_status (fst (submitRequest 100 Sample.as_bob Sample.body
                        Sample.store)) = 201 ∧
    success (fst (submitRequest 100 Sample.as_bob Sample.body Sample.store))
    = true ∧
    data (fst (submitRequest 100 Sample.as_bob Sample.body Sample.store))
    = Some d.
Proof.
  refine (submitRequest_succeeds_on_valid_users 100 Sample.as_bob Sample.body
            "O+" "North" Sample.store _ eq_refl _ eq_refl _ _).
  - repeat (constructor;
              [intros rg Hrg; try discriminate Hrg; injection Hrg as <-;
               by apply includes_elem_of|]).
    constructor.
  - by apply includes_elem_of.
  - discriminate.
  - discriminate.
Defined.
